(** * scheduler-mcp: the task executor and the stdio wrappers

    A shallow embedding of [src/mcp_scheduler/executor.py] (class
    [Executor]), of [Config.get_ai_config] of
    [src/mcp_scheduler/config.py], and of [src/main.py]: the two stream
    wrappers ([JSONRPCStdout], [SafeJsonStdin]) and the start of [main],
    with the properties the specification states about them and further
    properties read off the code.

    Conventions.
    - Python [str] values are modelled as [string]; the characters are
      read as code points below 128 (whitespace, case and digits are the
      ASCII ones, any other character is left alone by [lower]/[upper]
      and is neither a space nor a digit).
    - [Optional[str]] is [option string]; "present" means [Some _].
    - Everything outside the process (child processes, HTTP, the AI
      provider, the file system, the host platform) is a field of the
      record [World]: a claim that holds for every world holds for every
      behaviour of those actions.
    - Python exceptions deriving from [Exception] are values of [exn];
      a computation is a pair of the external effects it performed and
      either the exception it raised or its result.
    - What [json.loads] does depends on the interpreter (the limit on
      the digits of an integer, the recursion limit): it is a function
      of a record [Json.Interp]. *)

From Stdlib Require Import String Ascii List ZArith Bool Lia.
From Stdlib Require Import DecimalString.
Import ListNotations.
Local Open Scope string_scope.
Local Open Scope list_scope.

(* ===================================================================== *)
(** ** Python string operations used by the sources *)
(* ===================================================================== *)

Module PyStr.

Definition dquote : ascii := "034"%char.
Definition squote : ascii := "039"%char.
Definition backslash : ascii := "092"%char.
Definition newline : ascii := "010"%char.

(** [str(c)] for a one-character string. *)
Definition chr (c : ascii) : string := String c EmptyString.

(** [bool(s)]: the empty string is falsy. *)
Definition truthy (s : string) : bool :=
  match s with EmptyString => false | String _ _ => true end.

(** [bool(o)] for an [Optional[str]]: [None] and the empty string are falsy. *)
Definition truthy_opt (o : option string) : bool :=
  match o with None => false | Some s => truthy s end.

(** [c.isspace()] on the ASCII range: TAB, LF, VT, FF, CR, FS, GS, RS, US
    and the space. *)
Definition is_space (c : ascii) : bool :=
  let n := nat_of_ascii c in
  ((9 <=? n)%nat && (n <=? 13)%nat) || ((28 <=? n)%nat && (n <=? 32)%nat).

Definition is_digit (c : ascii) : bool :=
  let n := nat_of_ascii c in (48 <=? n)%nat && (n <=? 57)%nat.

(** [s.isascii()].  On ASCII text [strip], [lower], [upper] and the
    classes [\s] and [\d] of [re] are the functions of this module; on
    other text Python also knows the blanks, letters and digits of
    Unicode, which are not modelled.  Statements about arbitrary text
    read from a stream are therefore made for ASCII text. *)
Fixpoint isascii (s : string) : bool :=
  match s with
  | EmptyString => true
  | String c r => (nat_of_ascii c <? 128)%nat && isascii r
  end.

Definition lower_char (c : ascii) : ascii :=
  let n := nat_of_ascii c in
  if (65 <=? n)%nat && (n <=? 90)%nat then ascii_of_nat (n + 32) else c.

Definition upper_char (c : ascii) : ascii :=
  let n := nat_of_ascii c in
  if (97 <=? n)%nat && (n <=? 122)%nat then ascii_of_nat (n - 32) else c.

Fixpoint map_chars (f : ascii -> ascii) (s : string) : string :=
  match s with
  | EmptyString => EmptyString
  | String c r => String (f c) (map_chars f r)
  end.

(** [s.lower()], [s.upper()]. *)
Definition lower : string -> string := map_chars lower_char.
Definition upper : string -> string := map_chars upper_char.

(** [s.lstrip()], [s.rstrip()], [s.strip()]. *)
Fixpoint lstrip (s : string) : string :=
  match s with
  | EmptyString => EmptyString
  | String c r => if is_space c then lstrip r else s
  end.

Fixpoint rstrip (s : string) : string :=
  match s with
  | EmptyString => EmptyString
  | String c r =>
      match rstrip r with
      | EmptyString => if is_space c then EmptyString else chr c
      | r' => String c r'
      end
  end.

Definition strip (s : string) : string := rstrip (lstrip s).

(** [s.startswith(p)]. *)
Definition startswith (s p : string) : bool := String.prefix p s.

(** [c in s] for a single character [c]. *)
Fixpoint has_char (c : ascii) (s : string) : bool :=
  match s with
  | EmptyString => false
  | String d r => Ascii.eqb c d || has_char c r
  end.

(** [needle in s] for strings. *)
Fixpoint contains (needle s : string) : bool :=
  String.prefix needle s
  || match s with
     | EmptyString => false
     | String _ r => contains needle r
     end.

(** [s.replace(c, by)] for a single character [c]. *)
Fixpoint replace_char (c : ascii) (by_ : string) (s : string) : string :=
  match s with
  | EmptyString => EmptyString
  | String d r =>
      if Ascii.eqb c d then by_ ++ replace_char c by_ r
      else String d (replace_char c by_ r)
  end.

(** [s[:n]]. *)
Definition take (n : nat) (s : string) : string := String.substring 0 n s.

(** [str(n)] for an [int]. *)
Definition str_of_Z (z : Z) : string := NilZero.string_of_int (Z.to_int z).

(** [x in l] for a list of strings. *)
Definition mem (x : string) (l : list string) : bool :=
  existsb (String.eqb x) l.

End PyStr.

(* ===================================================================== *)
(** ** [shlex.split] (POSIX mode, no comments, whitespace splitting) *)
(* ===================================================================== *)

(** The executor hands a command to [shlex.split] before a direct
    execution.  The lexer is a single pass over the characters with four
    states; a [ValueError] is raised when the input ends inside a
    quotation or right after the escape character. *)
Module Shlex.
Import PyStr.

Inductive state :=
| Blank                          (* state ' ': between tokens *)
| Word                           (* state 'a': inside a token *)
| Quote (q : ascii)              (* inside a quotation opened by [q] *)
| Escape (back : option ascii).  (* after a backslash; [back] is the
                                    quotation to return to, if any *)

(** [shlex.whitespace]: space, TAB, CR, LF. *)
Definition is_ws (c : ascii) : bool :=
  Ascii.eqb c " " || Ascii.eqb c "009" || Ascii.eqb c "013" || Ascii.eqb c "010".

Definition is_quote (c : ascii) : bool :=
  Ascii.eqb c squote || Ascii.eqb c dquote.

Definition is_escape (c : ascii) : bool := Ascii.eqb c backslash.

Definition push (tok : string) (r : string + list string) : string + list string :=
  match r with
  | inl e => inl e
  | inr toks => inr (tok :: toks)
  end.

(** [lex st tok s]: the tokens read from [s] when the lexer is in state
    [st] with the partial token [tok]; [inl msg] is [ValueError(msg)].
    The lexer's [quoted] flag is not carried along: it only decides
    whether an empty token is emitted, and in state [Word] the token is
    non-empty or a quotation has been closed, so it is always emitted. *)
Fixpoint lex (st : state) (tok : string) (s : string) : string + list string :=
  match s with
  | EmptyString =>
      match st with
      | Blank => inr []
      | Word => inr [tok]
      | Quote _ => inl "No closing quotation"
      | Escape _ => inl "No escaped character"
      end
  | String c r =>
      match st with
      | Blank =>
          if is_ws c then lex Blank EmptyString r
          else if is_escape c then lex (Escape None) EmptyString r
          else if is_quote c then lex (Quote c) EmptyString r
          else lex Word (chr c) r
      | Word =>
          if is_ws c then push tok (lex Blank EmptyString r)
          else if is_quote c then lex (Quote c) tok r
          else if is_escape c then lex (Escape None) tok r
          else lex Word (tok ++ chr c) r
      | Quote q =>
          if Ascii.eqb c q then lex Word tok r
          else if is_escape c && Ascii.eqb q dquote then lex (Escape (Some q)) tok r
          else lex (Quote q) (tok ++ chr c) r
      | Escape None => lex Word (tok ++ chr c) r
      | Escape (Some q) =>
          if negb (is_escape c) && negb (Ascii.eqb c q)
          then lex (Quote q) (tok ++ chr backslash ++ chr c) r
          else lex (Quote q) (tok ++ chr c) r
      end
  end.

Definition split (s : string) : string + list string := lex Blank EmptyString s.

End Shlex.

(* ===================================================================== *)
(** ** Effects: exceptions and the trace of external actions *)
(* ===================================================================== *)

Module Eff.

(** The classes the [except] clauses of the sources tell apart:
    [aiohttp.ClientError], [asyncio.TimeoutError], [ValueError] (with
    [UnicodeDecodeError]); every other [Exception] is [OtherError]. *)
Inductive exn_class := ClientError | TimeoutError | ValueError | OtherError.

(** An exception object: its class and [str(e)]. *)
Record exn := Exn { exn_kind : exn_class; exn_str : string }.

Definition is_timeout (e : exn) : bool :=
  match exn_kind e with TimeoutError => true | _ => false end.

Definition is_client_error (e : exn) : bool :=
  match exn_kind e with ClientError => true | _ => false end.

(** [except Exception]. *)
Definition any_exception (e : exn) : bool := true.

Definition dict := list (string * string).

(** What leaves the process. *)
Inductive event :=
| SubprocessShell (cmd : string)            (* asyncio.create_subprocess_shell *)
| SubprocessExec (args : list string)       (* asyncio.create_subprocess_exec *)
| ProcessKill                               (* process.kill() *)
| HttpRequest (method url : string) (headers : dict) (json : option dict)
| ChatCompletion (model system_content user_content : string)
| FileWrite (path title message : string).  (* open(path, 'w') and f.write *)

(** Requests that go over the network. *)
Definition is_network (ev : event) : bool :=
  match ev with
  | HttpRequest _ _ _ _ | ChatCompletion _ _ _ => true
  | _ => false
  end.

(** A computation: the events performed, then the exception raised or
    the value returned. *)
Definition M (A : Type) : Type := (list event * (exn + A))%type.

Definition ret {A} (a : A) : M A := ([], inr a).

Definition raise {A} (e : exn) : M A := ([], inl e).

Definition emit (ev : event) : M unit := ([ev], inr tt).

Definition bind {A B} (m : M A) (k : A -> M B) : M B :=
  match m with
  | (t, inl e) => (t, inl e)
  | (t, inr a) => let (t', r) := k a in (t ++ t', r)
  end.

(** [try: m except <class>: h]. *)
Definition try_except {A} (m : M A) (catches : exn -> bool) (h : exn -> M A) : M A :=
  match m with
  | (t, inl e) => if catches e then let (t', r) := h e in (t ++ t', r) else (t, inl e)
  | (t, inr a) => (t, inr a)
  end.

Definition trace {A} (m : M A) : list event := fst m.
Definition outcome {A} (m : M A) : exn + A := snd m.

End Eff.

Declare Scope eff_scope.
Delimit Scope eff_scope with eff.
Notation "x <- m ;; k" := (Eff.bind m (fun x => k))
  (at level 61, m at next level, right associativity) : eff_scope.
Notation "m ;;; k" := (Eff.bind m (fun _ => k))
  (at level 61, right associativity) : eff_scope.

(* ===================================================================== *)
(** ** [mcp_scheduler/executor.py] *)
(* ===================================================================== *)

Module Executor.
Import PyStr Eff.
Local Open Scope eff_scope.
Local Open Scope string_scope.

(** *** The data model *)

(** Modelled from the spec: [TaskStatus] of [mcp_scheduler/task.py],
    which is not among the sources (spec, section 3: the status of a
    [TaskExecution] is one of pending, running, completed, failed). *)
Inductive TaskStatus := PENDING | RUNNING | COMPLETED | FAILED.

(** Modelled from the spec: [Task] of [mcp_scheduler/task.py], with the
    fields the executor reads.  [type_value] is [task.type.value]. *)
Record Task := {
  id : string;
  name : string;
  type_value : string;
  command : option string;
  api_url : option string;
  api_method : option string;
  api_headers : option dict;
  api_body : option dict;
  prompt : option string;
  reminder_title : option string;
  reminder_message : option string
}.

(** Modelled from the spec: [TaskExecution] of [mcp_scheduler/task.py]. *)
Record TaskExecution := {
  task_id : string;
  status : TaskStatus;
  output : option string;
  error : option string;
  end_time : option Z
}.

Definition terminal (s : TaskStatus) : bool :=
  match s with COMPLETED | FAILED => true | PENDING | RUNNING => false end.

(** *** The outside world *)

(** A [bytes] value read from a child process: the executor only tests
    it for emptiness and calls [.decode()], which returns the text or
    raises [UnicodeDecodeError]. *)
Inductive pybytes := Utf8 (text : string) | NotUtf8 (msg : string).

Definition bytes_truthy (b : pybytes) : bool :=
  match b with Utf8 s => truthy s | NotUtf8 _ => true end.

(** What [process.communicate()] yields, and what spawning yields. *)
Inductive comm_outcome :=
| CommDone (returncode : Z) (stdout stderr : pybytes)
| CommRaises (e : exn).

Inductive spawn_outcome :=
| SpawnRaises (e : exn)
| Spawned (c : comm_outcome).

(** What [session.request] followed by [response.text()] yields: the
    request raises; or it is answered with a status and [response.text()]
    returns the body; or it is answered with a status and
    [response.text()] raises (a body that cannot be decoded, a
    connection lost while the body is read). *)
Inductive http_outcome :=
| HttpRaises (e : exn)
| HttpResponse (status : Z) (text : string)
| HttpUnreadable (status : Z) (e : exn).

(** What [chat.completions.create] yields: [choices] holds, for each
    choice, [message.content]. *)
Inductive ai_outcome :=
| AiRaises (e : exn)
| AiCompletion (choices : list (option string)).

Record World := {
  platform_system : string;                        (* platform.system() *)
  environ_TEMP : string;                           (* os.environ.get('TEMP', '') *)
  utcnow : Z;                                      (* datetime.utcnow() *)
  create_subprocess_shell : string -> spawn_outcome;
  create_subprocess_exec : list string -> spawn_outcome;
  session_request : string -> string -> dict -> option dict -> http_outcome;
  open_write : string -> option exn                (* open(path, 'w') *)
}.

(** The fields of [self].  [ai_client] is the completion capability of
    the provider, [None] when [_init_ai_client] configured none.
    [initial_status] is the status a fresh [TaskExecution] carries (the
    default of the class, declared in [task.py]). *)
Record Executor := {
  execution_timeout : Z;
  ai_provider : string;
  ai_model : string;
  ai_client : option (string -> string -> string -> ai_outcome);
  initial_status : TaskStatus
}.

(** [self.is_windows], set by [__init__] to
    [platform.system() == "Windows"]. *)
Definition is_windows (w : World) : bool :=
  String.eqb (platform_system w) "Windows".

Definition result := (option string * option string)%type.

(** *** [_execute_shell_command] *)

Definition shell_commands : list string :=
  ["start"; "cd"; "dir"; "echo"; "set"; "type"; "copy"; "del"; "md"; "rd"; "ren"; "cls"].

Definition has_operator (command : string) : bool :=
  has_char "|" command || has_char ">" command || has_char "<" command.

Definition starts_with_builtin (command : string) : bool :=
  existsb (fun cmd => startswith (lower (strip command)) cmd) shell_commands.

Definition use_shell (w : World) (command : string) : bool :=
  let use_shell := is_windows w in
  let use_shell := if starts_with_builtin command then true else use_shell in
  let use_shell := if has_operator command then true else use_shell in
  use_shell.

Definition spawn_shell (w : World) (cmd : string) : M comm_outcome :=
  emit (SubprocessShell cmd) ;;;
  match create_subprocess_shell w cmd with
  | SpawnRaises e => raise e
  | Spawned c => ret c
  end.

(** [create_subprocess_exec( *args)]: with no argument at all the call
    itself is a [TypeError]. *)
Definition spawn_exec (w : World) (args : list string) : M comm_outcome :=
  match args with
  | [] => raise (Exn OtherError
            "create_subprocess_exec() missing 1 required positional argument: 'program'")
  | _ :: _ =>
      emit (SubprocessExec args) ;;;
      match create_subprocess_exec w args with
      | SpawnRaises e => raise e
      | Spawned c => ret c
      end
  end.

Definition communicate (c : comm_outcome) : M (Z * pybytes * pybytes) :=
  match c with
  | CommRaises e => raise e
  | CommDone rc out err => ret (rc, out, err)
  end.

Definition decode (b : pybytes) : M string :=
  match b with
  | Utf8 s => ret s
  | NotUtf8 msg => raise (Exn ValueError msg)
  end.

(** The inner [try] of [_execute_shell_command]: wait for the process
    under the timeout and turn its exit into a result. *)
Definition wait_process (ex : Executor) (process : comm_outcome) : M result :=
  try_except
    (r <- communicate process ;;
     let '(returncode, stdout, stderr) := r in
     if negb (returncode =? 0)%Z then
       error_msg <- (if bytes_truthy stderr then decode stderr else ret "Unknown error") ;;
       ret (None, Some ("Command failed with exit code " ++ str_of_Z returncode
                          ++ ": " ++ error_msg))
     else
       text <- decode stdout ;;
       ret (Some (strip text), None))
    is_timeout
    (fun _ =>
       emit ProcessKill ;;;
       ret (None, Some ("Command timed out after "
                          ++ str_of_Z (execution_timeout ex) ++ " seconds"))).

Definition _execute_shell_command (ex : Executor) (w : World)
           (command : option string) : M result :=
  match command with
  | None => ret (None, Some "No command specified")
  | Some command =>
      if negb (truthy command) then ret (None, Some "No command specified")
      else
        try_except
          (if use_shell w command then
             let full_command :=
               if is_windows w then "cmd.exe /c " ++ command else command in
             process <- spawn_shell w full_command ;;
             wait_process ex process
           else
             match Shlex.split command with
             | inl msg => ret (None, Some ("Invalid command syntax: " ++ msg))
             | inr args =>
                 process <- spawn_exec w args ;;
                 wait_process ex process
             end)
          any_exception
          (fun e => ret (None, Some ("Failed to execute command: " ++ exn_str e)))
  end.

(** *** [_execute_api_call] *)

(** [headers or {}]. *)
Definition or_empty (d : option dict) : dict :=
  match d with Some d => d | None => [] end.

(** [bool(body)] for an optional dict. *)
Definition dict_truthy (d : option dict) : bool :=
  match d with Some (_ :: _) => true | _ => false end.

(** The two [except] clauses of the one [try] are the two nested
    [try_except]: neither handler raises, so the nesting changes nothing.
    Any other exception leaves the handler. *)
Definition _execute_api_call (ex : Executor) (w : World)
           (url method : option string) (headers body : option dict) : M result :=
  if negb (truthy_opt url) then ret (None, Some "No URL specified")
  else
    let url := match url with Some u => u | None => EmptyString end in
    let method := match method with
                  | Some m => if truthy m then m else "GET"
                  | None => "GET"
                  end in
    let method := upper method in
    try_except
      (try_except
         (let json := if mem method ["POST"; "PUT"; "PATCH"] && dict_truthy body
                      then body else None in
          emit (HttpRequest method url (or_empty headers) json) ;;;
          match session_request w method url (or_empty headers) json with
          | HttpRaises e => raise e
          | HttpUnreadable _ e => raise e
          | HttpResponse status response_text =>
              if (400 <=? status)%Z then
                ret (None, Some ("API call failed with status " ++ str_of_Z status
                                   ++ ": " ++ response_text))
              else ret (Some response_text, None)
          end)
         is_client_error
         (fun e => ret (None, Some ("API call failed: " ++ exn_str e))))
      is_timeout
      (fun _ => ret (None, Some ("API call timed out after "
                                   ++ str_of_Z (execution_timeout ex) ++ " seconds"))).

(** *** [_execute_ai_task] *)

(** [config.get_ai_config()] raises [ValueError] for a provider it does
    not know; the entries it returns are not modelled further. *)
Definition get_ai_config (ex : Executor) : M unit :=
  if mem (ai_provider ex) ["openai"; "azure"; "anthropic"; "local"] then ret tt
  else raise (Exn ValueError ("Unsupported AI provider: " ++ ai_provider ex)).

Definition system_instruction : string :=
  "You are a helpful assistant executing scheduled tasks.".

Definition _execute_ai_task (ex : Executor) (prompt : option string) : M result :=
  if negb (truthy_opt prompt) then ret (None, Some "No prompt specified")
  else
    let prompt := match prompt with Some p => p | None => EmptyString end in
    match ai_client ex with
    | None => ret (None, Some "No AI client configured for AI tasks")
    | Some create =>
        try_except
          (get_ai_config ex ;;;
           try_except
             (emit (ChatCompletion (ai_model ex) system_instruction prompt) ;;;
              match create (ai_model ex) system_instruction prompt with
              | AiRaises e => raise e
              | AiCompletion choices =>
                  match choices with
                  | [] => raise (Exn OtherError "list index out of range")
                  | response :: _ => ret (response, None)
                  end
              end)
             is_timeout
             (fun _ => ret (None, Some "AI API call timed out")))
          any_exception
          (fun e => ret (None, Some ("AI task failed: " ++ exn_str e)))
    end.

(** *** [_execute_reminder_task] *)

Definition dq : string := chr dquote.

Definition sound_cmd : string :=
  "paplay /usr/share/sounds/freedesktop/stereo/message.oga".

Definition notify_send_command (safe_title safe_message : string) : string :=
  "notify-send -u normal " ++ dq ++ safe_title ++ dq ++ " " ++ dq ++ safe_message ++ dq
    ++ " && " ++ sound_cmd.

Definition zenity_command (safe_title safe_message : string) : string :=
  "zenity --info --title=" ++ dq ++ safe_title ++ dq
    ++ " --text=" ++ dq ++ safe_message ++ dq ++ " & " ++ sound_cmd.

Definition xmessage_command (safe_title safe_message : string) : string :=
  "xmessage -center " ++ dq ++ safe_title ++ ": " ++ safe_message ++ dq
    ++ " & " ++ sound_cmd.

Definition osascript_command (safe_title safe_message : string) : string :=
  "osascript -e 'display notification " ++ dq ++ safe_message ++ dq
    ++ " with title " ++ dq ++ safe_title ++ dq ++ " sound name "
    ++ dq ++ "default" ++ dq ++ "'".

(** [which <tool>] through the shell; only the return code is read. *)
Definition which (w : World) (tool : string) : M Z :=
  process <- spawn_shell w ("which " ++ tool) ;;
  r <- communicate process ;;
  let '(returncode, _, _) := r in
  ret returncode.

Definition no_notification_command (os_type : string) : string :=
  "No notification command available on this system (" ++ os_type ++ ")".

(** The branch "Linux and others": [inl r] is the early [return r],
    [inr command] the notification command chosen. *)
Definition linux_notification (w : World) (os_type title message : string)
  : M (result + string) :=
  let safe_title := replace_char dquote (chr backslash ++ dq) title in
  let safe_message := replace_char dquote (chr backslash ++ dq) message in
  notify_send_check <- which w "notify-send" ;;
  if negb (notify_send_check =? 0)%Z then
    zenity_check <- which w "zenity" ;;
    if (zenity_check =? 0)%Z then ret (inr (zenity_command safe_title safe_message))
    else
      xmessage_check <- which w "xmessage" ;;
      if (xmessage_check =? 0)%Z then ret (inr (xmessage_command safe_title safe_message))
      else ret (inl (None, Some (no_notification_command os_type)))
  else ret (inr (notify_send_command safe_title safe_message)).

Fixpoint last_char (s : string) : option ascii :=
  match s with
  | EmptyString => None
  | String c EmptyString => Some c
  | String _ r => last_char r
  end.

(** [os.path.join(a, b)] of [ntpath] for a relative [b] without drive. *)
Definition path_join (a b : string) : string :=
  match last_char a with
  | None => b
  | Some c =>
      if Ascii.eqb c backslash || Ascii.eqb c "/" || Ascii.eqb c ":" then a ++ b
      else a ++ chr backslash ++ b
  end.

(** The branch "Windows": the HTA document written to [temp_html] is a
    fixed page around the two escaped strings, recorded in the event. *)
Definition windows_notification (ex : Executor) (w : World) (title message : string)
  : M (result + string) :=
  let safe_title := replace_char squote "''" title in
  let safe_message := replace_char squote "''" message in
  let temp_dir := path_join (environ_TEMP w) EmptyString in
  let temp_html := path_join temp_dir "notification.hta" in
  emit (FileWrite temp_html safe_title safe_message) ;;;
  match open_write w temp_html with
  | Some e => raise e
  | None =>
      let command := "start mshta.exe " ++ dq ++ temp_html ++ dq in
      _execute_shell_command ex w (Some "rundll32 user32.dll,MessageBeep") ;;;
      ret (inr command)
  end.

Definition darwin_notification (title message : string) : M (result + string) :=
  let safe_title := replace_char dquote (chr backslash ++ dq) title in
  let safe_message := replace_char dquote (chr backslash ++ dq) message in
  ret (inr (osascript_command safe_title safe_message)).

Definition _execute_reminder_task (ex : Executor) (w : World)
           (title : string) (message : option string) : M result :=
  if negb (truthy_opt message) then ret (None, Some "No message specified for reminder")
  else
    let message := match message with Some m => m | None => EmptyString end in
    let os_type := platform_system w in
    try_except
      (chosen <- (if String.eqb os_type "Windows" then windows_notification ex w title message
                  else if String.eqb os_type "Darwin" then darwin_notification title message
                  else linux_notification w os_type title message) ;;
       match chosen with
       | inl r => ret r
       | inr command =>
           if truthy command then
             r <- _execute_shell_command ex w (Some command) ;;
             let '(output, error) := r in
             if truthy_opt error then
               let error := match error with Some e => e | None => EmptyString end in
               ret (None, Some ("Notification failed: " ++ error))
             else ret (Some ("Displayed notification: " ++ title), None)
           else ret (None, Some "Failed to create notification command")
       end)
      any_exception
      (fun e => ret (None, Some ("Reminder task failed: " ++ exn_str e))).

(** *** [execute_task] *)

(** [TaskExecution(task_id=task.id)]. *)
Definition new_execution (ex : Executor) (task : Task) : TaskExecution :=
  {| task_id := id task; status := initial_status ex;
     output := None; error := None; end_time := None |}.

Definition set_failed (execution : TaskExecution) (err : option string) : TaskExecution :=
  {| task_id := task_id execution; status := FAILED;
     output := output execution; error := err; end_time := end_time execution |}.

Definition set_completed (execution : TaskExecution) (out : option string) : TaskExecution :=
  {| task_id := task_id execution; status := COMPLETED;
     output := out; error := error execution; end_time := end_time execution |}.

Definition set_end_time (execution : TaskExecution) (t : Z) : TaskExecution :=
  {| task_id := task_id execution; status := status execution;
     output := output execution; error := error execution; end_time := Some t |}.

(** The four lines after each handler call: [if error: ... else: ...]. *)
Definition settle (execution : TaskExecution) (r : result) : TaskExecution :=
  let '(output, error) := r in
  if truthy_opt error then set_failed execution error
  else set_completed execution output.

(** [task.reminder_title or task.name]. *)
Definition title_of (task : Task) : string :=
  match reminder_title task with
  | Some t => if truthy t then t else name task
  | None => name task
  end.

Definition execute_task (ex : Executor) (w : World) (task : Task) : M TaskExecution :=
  let execution := new_execution ex task in
  execution <-
    try_except
      (if String.eqb (type_value task) "shell_command" then
         r <- _execute_shell_command ex w (command task) ;;
         ret (settle execution r)
       else if String.eqb (type_value task) "api_call" then
         r <- _execute_api_call ex w (api_url task) (api_method task)
                (api_headers task) (api_body task) ;;
         ret (settle execution r)
       else if String.eqb (type_value task) "ai" then
         r <- _execute_ai_task ex (prompt task) ;;
         ret (settle execution r)
       else if String.eqb (type_value task) "reminder" then
         r <- _execute_reminder_task ex w (title_of task) (reminder_message task) ;;
         ret (settle execution r)
       else
         ret (set_failed execution (Some ("Unsupported task type: " ++ type_value task))))
      any_exception
      (fun e => ret (set_failed execution (Some (exn_str e)))) ;;
  ret (set_end_time execution (utcnow w)).

End Executor.

(* ===================================================================== *)
(** ** [json.loads] *)
(* ===================================================================== *)

(** [SafeJsonStdin.readline] calls [json.loads] for its outcome only: a
    value is returned, [JSONDecodeError] is raised, or another exception
    is raised, which the [except json.JSONDecodeError] of [readline] does
    not catch.  The standard decoder (strict mode, with its [NaN],
    [Infinity] and [-Infinity] literals) reads the text from left to
    right once; the scanner below follows it with a stack of the open
    containers and stops at the first failure.

    Two things other than the grammar make the decoder fail.  An integer
    is converted with [int], which raises [ValueError] for more digits
    than [sys.get_int_max_str_digits()] allows: the conversion is made
    where the number ends, before the character after it is looked at, so
    a long integer in front of a dangling [.] or exponent is a
    [ValueError] and not a [JSONDecodeError].  And the decoder recurses
    on nested containers, so it raises [RecursionError] when the
    interpreter has too little of its recursion limit left for the text;
    how much is left, and how much the decoder needs, is a matter of the
    interpreter, and is given here as [recursion_error]. *)
Module Json.
Import PyStr Eff.
Local Open Scope string_scope.

(** What of the interpreter [json.loads] depends on. *)
Record Interp := {
  (** [sys.get_int_max_str_digits()]; [0] is "no limit". *)
  int_max_str_digits : nat;
  (** The [RecursionError] that [json.loads(s)] ends with in this
      interpreter, [None] when its recursion limit is enough for [s]. *)
  recursion_error : string -> option exn
}.

Inductive outcome :=
| Loaded                   (* a value is returned *)
| JSONDecodeError          (* raise JSONDecodeError *)
| Raises (e : exn).        (* another exception *)

(** [int(text)] refuses a text of [ndigits] digits (the sign is not
    counted).  The limit is looked at for more than 640 digits only, the
    least limit that can be set. *)
Definition int_too_long (max_digits ndigits : nat) : bool :=
  (640 <? ndigits)%nat && (0 <? max_digits)%nat && (max_digits <? ndigits)%nat.

Definition int_error (max_digits ndigits : nat) : exn :=
  Exn ValueError
    ("Exceeds the limit (" ++ str_of_Z (Z.of_nat max_digits)
       ++ " digits) for integer string conversion: value has "
       ++ str_of_Z (Z.of_nat ndigits)
       ++ " digits; use sys.set_int_max_str_digits() to increase the limit").

Inductive container := InArray | InObject.

Inductive mode :=
| Val                      (* a value must start (after a comma, a colon, or at the top) *)
| ArrFirst                 (* after an opening bracket: a value or the closing bracket *)
| ObjFirst                 (* after an opening brace: a key or the closing brace *)
| Key                      (* after a comma in an object: a key *)
| Colon                    (* after a key *)
| After                    (* after a complete value *)
| Str (is_key : bool)      (* inside a string *)
| StrEsc (is_key : bool)   (* after a backslash inside a string *)
| StrU (is_key : bool) (n : nat)  (* inside \uXXXX, [S n] digits to go *)
| Lit (rest : string)      (* inside null, true, false, NaN, Infinity *)
| NumMinus                 (* after the sign *)
| NumZero                  (* after the single digit 0 *)
| NumInt (n : nat)         (* inside an integer, [n] digits read *)
| NumFrac0 (n : nat)       (* after the point that follows an integer of [n] digits *)
| NumFrac                  (* inside the fraction *)
| NumExp0 (int : option nat)  (* after e or E; [Some n] when an integer of
                                 [n] digits stands before it, [None] after a fraction *)
| NumExp1 (int : option nat)  (* after the sign of the exponent *)
| NumExp.                  (* inside the exponent *)

Definition is_ws (c : ascii) : bool :=
  Ascii.eqb c " " || Ascii.eqb c "009" || Ascii.eqb c "010" || Ascii.eqb c "013".

Definition is_hex (c : ascii) : bool :=
  let n := nat_of_ascii c in
  is_digit c || ((65 <=? n)%nat && (n <=? 70)%nat) || ((97 <=? n)%nat && (n <=? 102)%nat).

Definition is_digit19 (c : ascii) : bool :=
  is_digit c && negb (Ascii.eqb c "0").

Definition is_exp (c : ascii) : bool := Ascii.eqb c "e" || Ascii.eqb c "E".

Definition is_simple_escape (c : ascii) : bool :=
  Ascii.eqb c dquote || Ascii.eqb c backslash || has_char c "/bfnrt".

(** One character read: the scanner goes on, or the decoder stops. *)
Inductive next :=
| Go (m : mode) (stack : list container)
| Stop (o : outcome).

(** The integer of [n] digits just read is converted; then [k]. *)
Definition convert_int (max_digits n : nat) (k : next) : next :=
  if int_too_long max_digits n then Stop (Raises (int_error max_digits n)) else k.

(** A number cut short: the integer in front, if there is one, is
    converted, and the character where the number stopped is rejected. *)
Definition cut_short (max_digits : nat) (int : option nat) : next :=
  match int with
  | Some n => convert_int max_digits n (Stop JSONDecodeError)
  | None => Stop JSONDecodeError
  end.

(** A character read after a complete value. *)
Definition step_after (stack : list container) (c : ascii) : next :=
  if is_ws c then Go After stack
  else match stack with
       | [] => Stop JSONDecodeError
       | InArray :: up =>
           if Ascii.eqb c "," then Go Val stack
           else if Ascii.eqb c "]" then Go After up
           else Stop JSONDecodeError
       | InObject :: up =>
           if Ascii.eqb c "," then Go Key stack
           else if Ascii.eqb c "}" then Go After up
           else Stop JSONDecodeError
       end.

(** The first character of a value. *)
Definition step_value (stack : list container) (c : ascii) : next :=
  if Ascii.eqb c dquote then Go (Str false) stack
  else if Ascii.eqb c "{" then Go ObjFirst (InObject :: stack)
  else if Ascii.eqb c "[" then Go ArrFirst (InArray :: stack)
  else if Ascii.eqb c "n" then Go (Lit "ull") stack
  else if Ascii.eqb c "t" then Go (Lit "rue") stack
  else if Ascii.eqb c "f" then Go (Lit "alse") stack
  else if Ascii.eqb c "N" then Go (Lit "aN") stack
  else if Ascii.eqb c "I" then Go (Lit "nfinity") stack
  else if Ascii.eqb c "-" then Go NumMinus stack
  else if Ascii.eqb c "0" then Go NumZero stack
  else if is_digit19 c then Go (NumInt 1) stack
  else Stop JSONDecodeError.

Definition step_key (m : mode) (stack : list container) (c : ascii) : next :=
  if is_ws c then Go m stack
  else if Ascii.eqb c dquote then Go (Str true) stack
  else Stop JSONDecodeError.

Definition pop (stack : list container) : next :=
  match stack with
  | [] => Stop JSONDecodeError
  | _ :: up => Go After up
  end.

Definition step (max_digits : nat) (m : mode) (stack : list container) (c : ascii) : next :=
  match m with
  | Val => if is_ws c then Go Val stack else step_value stack c
  | ArrFirst =>
      if is_ws c then Go ArrFirst stack
      else if Ascii.eqb c "]" then pop stack
      else step_value stack c
  | ObjFirst =>
      if Ascii.eqb c "}" then pop stack else step_key ObjFirst stack c
  | Key => step_key Key stack c
  | Colon =>
      if is_ws c then Go Colon stack
      else if Ascii.eqb c ":" then Go Val stack
      else Stop JSONDecodeError
  | After => step_after stack c
  | Str k =>
      if Ascii.eqb c dquote then Go (if k then Colon else After) stack
      else if Ascii.eqb c backslash then Go (StrEsc k) stack
      else if (nat_of_ascii c <? 32)%nat then Stop JSONDecodeError
      else Go (Str k) stack
  | StrEsc k =>
      if is_simple_escape c then Go (Str k) stack
      else if Ascii.eqb c "u" then Go (StrU k 3) stack
      else Stop JSONDecodeError
  | StrU k n =>
      if is_hex c then
        match n with
        | O => Go (Str k) stack
        | S n' => Go (StrU k n') stack
        end
      else Stop JSONDecodeError
  | Lit rest =>
      match rest with
      | EmptyString => Stop JSONDecodeError
      | String d EmptyString => if Ascii.eqb c d then Go After stack else Stop JSONDecodeError
      | String d rest' => if Ascii.eqb c d then Go (Lit rest') stack else Stop JSONDecodeError
      end
  | NumMinus =>
      if Ascii.eqb c "0" then Go NumZero stack
      else if is_digit19 c then Go (NumInt 1) stack
      else if Ascii.eqb c "I" then Go (Lit "nfinity") stack
      else Stop JSONDecodeError
  | NumZero =>
      if Ascii.eqb c "." then Go (NumFrac0 1) stack
      else if is_exp c then Go (NumExp0 (Some 1%nat)) stack
      else step_after stack c
  | NumInt n =>
      if is_digit c then Go (NumInt (S n)) stack
      else if Ascii.eqb c "." then Go (NumFrac0 n) stack
      else if is_exp c then Go (NumExp0 (Some n)) stack
      else convert_int max_digits n (step_after stack c)
  | NumFrac0 n =>
      if is_digit c then Go NumFrac stack else cut_short max_digits (Some n)
  | NumFrac =>
      if is_digit c then Go NumFrac stack
      else if is_exp c then Go (NumExp0 None) stack
      else step_after stack c
  | NumExp0 int =>
      if Ascii.eqb c "+" || Ascii.eqb c "-" then Go (NumExp1 int) stack
      else if is_digit c then Go NumExp stack
      else cut_short max_digits int
  | NumExp1 int => if is_digit c then Go NumExp stack else cut_short max_digits int
  | NumExp => if is_digit c then Go NumExp stack else step_after stack c
  end.

(** A complete value and nothing left open. *)
Definition closed (stack : list container) : next :=
  match stack with
  | [] => Stop Loaded
  | _ :: _ => Stop JSONDecodeError
  end.

(** At the end of the text. *)
Definition finish (max_digits : nat) (m : mode) (stack : list container) : next :=
  match m with
  | After | NumZero | NumFrac | NumExp => closed stack
  | NumInt n => convert_int max_digits n (closed stack)
  | NumFrac0 n => cut_short max_digits (Some n)
  | NumExp0 int | NumExp1 int => cut_short max_digits int
  | _ => Stop JSONDecodeError
  end.

Definition outcome_of (n : next) : outcome :=
  match n with
  | Stop o => o
  | Go _ _ => JSONDecodeError
  end.

Fixpoint run (max_digits : nat) (m : mode) (stack : list container) (s : string) : outcome :=
  match s with
  | EmptyString => outcome_of (finish max_digits m stack)
  | String c r =>
      match step max_digits m stack c with
      | Go m' stack' => run max_digits m' stack' r
      | Stop o => o
      end
  end.

(** The decoder with all the recursion it needs. *)
Definition scan (max_digits : nat) (s : string) : outcome := run max_digits Val [] s.

(** [json.loads(s)]. *)
Definition loads (it : Interp) (s : string) : outcome :=
  match recursion_error it s with
  | Some e => Raises e
  | None => scan (int_max_str_digits it) s
  end.

End Json.

(* ===================================================================== *)
(** ** [main.py]: the wrappers around the standard streams *)
(* ===================================================================== *)

Module Main.
Import PyStr.
Local Open Scope string_scope.

(** What a wrapper does to the real streams. *)
Inductive io_event :=
| StdoutWrite (data : string)     (* original_stdout.write(data) *)
| StdoutFlush
| StderrWrite (data : string)     (* sys.stderr.write(data) *)
| StderrFlush.

Definition looks_like_json (s : string) : bool :=
  startswith s "{" || startswith s "[".

(** [JSONRPCStdout.write]. *)
Definition JSONRPCStdout_write (data : string) : list io_event :=
  if truthy data && truthy (strip data) then
    if looks_like_json (strip data) then [StdoutWrite data; StdoutFlush]
    else [StderrWrite ("Attempted to write non-JSON to stdout: " ++ take 100 data
                         ++ chr newline);
          StderrFlush]
  else [].

(** The texts handed to the real standard output. *)
Fixpoint forwarded (evs : list io_event) : list string :=
  match evs with
  | [] => []
  | StdoutWrite d :: r => d :: forwarded r
  | _ :: r => forwarded r
  end.

(** The texts handed to the diagnostic channel. *)
Fixpoint diagnosed (evs : list io_event) : list string :=
  match evs with
  | [] => []
  | StderrWrite d :: r => d :: diagnosed r
  | _ :: r => diagnosed r
  end.

(** [re.search(r'"id"\s*:\s*(\d+)', s)]: the digits captured by the
    leftmost match.  Neither [\s*] can give characters back to what
    follows it, so the match at a position is found without
    backtracking. *)
Fixpoint digits (s : string) : string :=
  match s with
  | EmptyString => EmptyString
  | String c r => if is_digit c then String c (digits r) else EmptyString
  end.

Definition quoted (s : string) : string := chr dquote ++ s ++ chr dquote.

Definition drop (n : nat) (s : string) : string :=
  String.substring n (String.length s - n) s.

Definition match_id_here (s : string) : option string :=
  if startswith s (quoted "id") then
    match lstrip (drop 4 s) with
    | String ":" r =>
        match digits (lstrip r) with
        | EmptyString => None
        | d => Some d
        end
    | _ => None
    end
  else None.

Fixpoint search_id (s : string) : option string :=
  match match_id_here s with
  | Some d => Some d
  | None =>
      match s with
      | EmptyString => None
      | String _ r => search_id r
      end
  end.

(** The JSON-RPC error line with the given [id] text and error. *)
Definition error_response (id_text code message : string) : string :=
  "{" ++ quoted "jsonrpc" ++ ":" ++ quoted "2.0" ++ "," ++ quoted "id" ++ ":" ++ id_text
    ++ "," ++ quoted "error" ++ ":{" ++ quoted "code" ++ ":" ++ code ++ ","
    ++ quoted "message" ++ ":" ++ quoted message ++ "}}" ++ chr newline.

Definition parse_error_response (id_text : string) : string :=
  error_response id_text "-32700" "Parse error".

(** The test that makes [readline] skip a line as "obviously not JSON". *)
Definition skip_filter (stripped_line : string) : bool :=
  startswith stripped_line "D:/"
  || startswith stripped_line "C:/"
  || startswith stripped_line "/"
  || contains ".py" stripped_line
  || contains ".venv" stripped_line
  || (negb (startswith stripped_line "{") && negb (startswith stripped_line "[")).

(** [SafeJsonStdin.readline], as a function of the interpreter and of
    the line read from the original stream (the messages it logs to
    stderr are left out): the text returned, or the exception that
    leaves the method.  Only [JSONDecodeError] is caught around
    [json.loads].  The inner [try] guards [re.search] and the building
    of the answer, which do not raise, so its [except Exception] branch
    (the answer with code -32603) is never taken. *)
Definition SafeJsonStdin_readline (it : Json.Interp) (line : string)
  : Eff.exn + string :=
  if negb (truthy line) then inr line
  else
    let stripped_line := strip line in
    if skip_filter stripped_line then inr (chr newline)
    else if looks_like_json stripped_line then
      match Json.loads it stripped_line with
      | Json.Loaded => inr line
      | Json.JSONDecodeError =>
          match search_id stripped_line with
          | Some id_val => inr (parse_error_response id_val)
          | None => inr (parse_error_response "null")
          end
      | Json.Raises e => inl e
      end
    else inr line.

End Main.

(* ===================================================================== *)
(** ** Vocabulary of the properties, and the scenarios they are tried on *)
(* ===================================================================== *)

Module Spec.
Import PyStr Eff Executor.
Local Open Scope string_scope.

(** The computation returns a value (it does not raise). *)
Definition never_raises {A} (m : M A) : Prop := exists a, outcome m = inr a.

(** Whatever the computation returns satisfies [P]. *)
Definition ensures {A} (P : A -> Prop) (m : M A) : Prop :=
  match outcome m with
  | inr a => P a
  | inl _ => True
  end.

(** The text has a pipe or redirection operator somewhere. *)
Definition contains_operator (command : string) : Prop :=
  exists pre c post,
    command = pre ++ String c post /\ (c = "|" \/ c = ">" \/ c = "<")%char.

(** The text, without the surrounding blanks and in lower case, begins
    with one of the keywords of [shell_commands]. *)
Definition begins_with_keyword (command : string) : Prop :=
  exists kw rest, In kw shell_commands /\ lower (strip command) = kw ++ rest.

(** The process an external action starts, when it starts one. *)
Definition spawn_of (w : World) (ev : event) : option spawn_outcome :=
  match ev with
  | SubprocessShell cmd => Some (create_subprocess_shell w cmd)
  | SubprocessExec args => Some (create_subprocess_exec w args)
  | _ => None
  end.





(** The status and the two optional texts of an execution agree: the
    error is there exactly for a failed run, the output exactly for a
    completed one. *)
Definition exactly_one (e : TaskExecution) : Prop :=
  (output e <> None <-> status e = COMPLETED) /\ (error e <> None <-> status e = FAILED).

(** What a handler hands back: an output and no error, or a non-empty
    error and no output. *)
Definition one_sided (r : result) : Prop :=
  match r with
  | (Some _, None) => True
  | (None, Some e) => truthy e = true
  | _ => False
  end.

(** An early return of a platform branch is one-sided; a chosen command
    is not constrained. *)
Definition chosen_ok (c : result + string) : Prop :=
  match c with
  | inl r => one_sided r
  | inr _ => True
  end.

(** The provider answers this task's prompt with a first choice that has
    no text ([message.content] is [None]). *)
Definition null_content (ex : Executor) (task : Task) : Prop :=
  exists create p rest,
    type_value task = "ai" /\ ai_client ex = Some create /\ prompt task = Some p
    /\ create (ai_model ex) system_instruction p = AiCompletion (None :: rest).

(** The first external action of the computation is [ev]. *)
Definition starts_with {A} (ev : event) (m : M A) : Prop :=
  exists rest, trace m = ev :: rest.

(** The error text of a command that exited with a non-zero code. *)
Definition exit_error (returncode : Z) (stderr_text : string) : string :=
  "Command failed with exit code " ++ str_of_Z returncode ++ ": "
    ++ (if truthy stderr_text then stderr_text else "Unknown error").

(** *** Scenarios *)

Definition no_bytes : pybytes := Utf8 EmptyString.

Definition exits (returncode : Z) (stderr : string) : spawn_outcome :=
  Spawned (CommDone returncode no_bytes (Utf8 stderr)).

Definition file_not_found (program : string) : spawn_outcome :=
  SpawnRaises (Exn OtherError ("[Errno 2] No such file or directory: '" ++ program ++ "'")).

(** A host of the given platform on which every shell command exits
    with [shell_code], no program can be executed directly, and every
    HTTP request is answered by [status] and [body]. *)
Definition host (os : string) (shell_code : Z) (status : Z) (body : string) : World :=
  {| platform_system := os;
     environ_TEMP := "C:\Temp";
     utcnow := 0%Z;
     create_subprocess_shell := fun _ => exits shell_code EmptyString;
     create_subprocess_exec := fun args => file_not_found (hd EmptyString args);
     session_request := fun _ _ _ _ => HttpResponse status body;
     open_write := fun _ => None |}.

Definition linux_host : World := host "Linux" 1 404 "not found".

(** What [response.text()] raises for a body that is not UTF-8. *)
Definition undecodable : exn :=
  Exn ValueError "'utf-8' codec can't decode byte 0xff in position 0: invalid start byte".

(** A Linux host on which every HTTP request is answered with status 200
    and a body that cannot be decoded. *)
Definition garbled_host : World :=
  {| platform_system := "Linux";
     environ_TEMP := EmptyString;
     utcnow := 0%Z;
     create_subprocess_shell := fun _ => exits 1 EmptyString;
     create_subprocess_exec := fun args => file_not_found (hd EmptyString args);
     session_request := fun _ _ _ _ => HttpUnreadable 200 undecodable;
     open_write := fun _ => None |}.
Definition windows_host : World := host "Windows" 1 404 "not found".


(** An executor without AI client, and one whose provider answers with
    the given choices. *)
Definition plain_executor : Executor :=
  {| execution_timeout := 300; ai_provider := "openai"; ai_model := "gpt-3.5-turbo";
     ai_client := None; initial_status := RUNNING |}.

Definition ai_executor (choices : list (option string)) : Executor :=
  {| execution_timeout := 300; ai_provider := "openai"; ai_model := "gpt-3.5-turbo";
     ai_client := Some (fun _ _ _ => AiCompletion choices); initial_status := RUNNING |}.

(** A task of the given type with every payload filled in. *)
Definition sample_task (type command : string) : Task :=
  {| id := "task_1"; name := "Sample";
     type_value := type;
     command := Some command;
     api_url := Some "http://x/report"; api_method := Some "post";
     api_headers := None; api_body := None;
     prompt := Some "Summarise the day";
     reminder_title := None; reminder_message := Some "Stand up" |}.

Definition unclosed_quote_command : string := "ls " ++ chr dquote ++ "a".

End Spec.

(** *** The standard streams *)

Module StreamSpec.
Import PyStr Main.
Local Open Scope string_scope.

(** The line [write] puts on the diagnostic channel for a rejected text. *)
Definition rejection_notice (data : string) : string :=
  "Attempted to write non-JSON to stdout: " ++ take 100 data ++ chr newline.

(** A run of digits is the text of a JSON number unless it has a
    superfluous leading zero. *)
Definition json_number_text (d : string) : bool :=
  match d with
  | EmptyString => false
  | String "0" (String _ _) => false
  | String _ _ => true
  end.

Fixpoint all_digits (d : string) : bool :=
  match d with
  | EmptyString => true
  | String c r => is_digit c && all_digits r
  end.

(** The [id] text of the answer to a malformed line. *)
Definition recovered_id (stripped_line : string) : string :=
  match search_id stripped_line with
  | Some id_val => id_val
  | None => "null"
  end.

(** The parse-error line is [response_head], the id text, [response_tail]. *)
Definition response_head : string :=
  "{" ++ quoted "jsonrpc" ++ ":" ++ quoted "2.0" ++ "," ++ quoted "id" ++ ":".

Definition response_tail : string :=
  "," ++ quoted "error" ++ ":{" ++ quoted "code" ++ ":-32700,"
    ++ quoted "message" ++ ":" ++ quoted "Parse error" ++ "}}" ++ chr newline.

(** A started object that is not JSON. *)
Definition oops : string := "{oops".

(** A request whose id is written with leading zeros. *)
Definition leading_zero_request : string :=
  "{" ++ quoted "jsonrpc" ++ ":" ++ quoted "2.0" ++ "," ++ quoted "id" ++ ":007,"
    ++ quoted "method" ++ ":" ++ quoted "ping" ++ "}" ++ chr newline.

(** A request cut short after its id. *)
Definition truncated_request : string :=
  "{" ++ quoted "jsonrpc" ++ ":" ++ quoted "2.0" ++ "," ++ quoted "id" ++ ": 12,"
    ++ quoted "method" ++ ":" ++ chr newline.

(** A well-formed request that names a Python file. *)
Definition run_script_request : string :=
  "{" ++ quoted "jsonrpc" ++ ":" ++ quoted "2.0" ++ "," ++ quoted "id" ++ ":3,"
    ++ quoted "method" ++ ":" ++ quoted "run" ++ "," ++ quoted "params" ++ ":{"
    ++ quoted "file" ++ ":" ++ quoted "report.py" ++ "}}" ++ chr newline.

(** A well-formed request, indented. *)
Definition ping_request : string :=
  "  {" ++ quoted "jsonrpc" ++ ":" ++ quoted "2.0" ++ "," ++ quoted "id" ++ ":4,"
    ++ quoted "method" ++ ":" ++ quoted "ping" ++ "}" ++ chr newline.

(** What the decoder makes of the parse-error line built around a run of
    digits [d]: a value when the digits are the text of a JSON number
    that [int] accepts, [ValueError] when they are too many, and
    [JSONDecodeError] when they have a superfluous leading zero. *)
Definition response_outcome (max_digits : nat) (d : string) : Json.outcome :=
  if json_number_text d then
    if Json.int_too_long max_digits (String.length d)
    then Json.Raises (Json.int_error max_digits (String.length d))
    else Json.Loaded
  else Json.JSONDecodeError.

(** An interpreter with the default limit on the digits of an integer,
    and a recursion limit that no text reaches. *)
Definition roomy_interp : Json.Interp :=
  {| Json.int_max_str_digits := 4300; Json.recursion_error := fun _ => None |}.

(** [n] times the digit 1. *)
Fixpoint ones (n : nat) : string :=
  match n with
  | O => EmptyString
  | S k => String "1" (ones k)
  end.

(** A malformed line whose id has one digit more than [int] converts. *)
Definition long_id_request : string :=
  "{x" ++ quoted "id" ++ ":" ++ ones 4301 ++ "}" ++ chr newline.

(** [response_tail] without its newline. *)
Definition response_tail_stripped : string :=
  "," ++ quoted "error" ++ ":{" ++ quoted "code" ++ ":-32700,"
    ++ quoted "message" ++ ":" ++ quoted "Parse error" ++ "}}".

End StreamSpec.

(* ===================================================================== *)
(** ** [mcp_scheduler/config.py]: the AI settings *)
(* ===================================================================== *)

Module Config.
Import PyStr Eff.
Local Open Scope string_scope.

(** The values the settings dictionary holds.  A [float] is carried by
    its [repr]: nothing computes with it. *)
Inductive pyval := PNone | PStr (s : string) | PInt (n : Z) | PFloat (repr : string).

Definition pydict := list (string * pyval).

(** An [Optional[str]] field as a value. *)
Definition of_opt (o : option string) : pyval :=
  match o with Some s => PStr s | None => PNone end.

(** [bool(v)]. *)
Definition val_truthy (v : pyval) : bool :=
  match v with
  | PNone => false
  | PStr s => truthy s
  | PInt n => negb (n =? 0)%Z
  | PFloat _ => true
  end.

(** [d[k]]: [None] stands for [KeyError]. *)
Fixpoint getitem (k : string) (d : pydict) : option pyval :=
  match d with
  | [] => None
  | (k', v) :: r => if String.eqb k k' then Some v else getitem k r
  end.

(** [d.get(k)]. *)
Definition get (k : string) (d : pydict) : pyval :=
  match getitem k d with Some v => v | None => PNone end.

(** An [Optional[str]] inside an f-string. *)
Definition fmt (o : option string) : string :=
  match o with Some s => s | None => "None" end.

(** The fields of [Config] that the executor and [get_ai_config] read. *)
Record Config := {
  execution_timeout : Z;
  ai_provider : string;
  ai_model : string;
  openai_api_key : option string;
  openai_base_url : option string;
  openai_organization : option string;
  azure_openai_api_key : option string;
  azure_openai_endpoint : option string;
  azure_openai_api_version : option string;
  anthropic_api_key : option string;
  anthropic_base_url : option string;
  local_model_base_url : option string;
  local_model_api_key : option string;
  ai_max_tokens : Z;
  ai_temperature : string
}.

Definition base_config (c : Config) : pydict :=
  [("max_tokens", PInt (ai_max_tokens c));
   ("temperature", PFloat (ai_temperature c));
   ("model", PStr (ai_model c))].

(** [Config.get_ai_config]; [inl e] is the exception raised. *)
Definition get_ai_config (c : Config) : exn + pydict :=
  if String.eqb (ai_provider c) "openai" then
    inr (base_config c ++
         [("api_key", of_opt (openai_api_key c));
          ("base_url", of_opt (openai_base_url c));
          ("organization", of_opt (openai_organization c))])%list
  else if String.eqb (ai_provider c) "azure" then
    inr (base_config c ++
         [("api_key", of_opt (azure_openai_api_key c));
          ("base_url", PStr (fmt (azure_openai_endpoint c) ++ "/openai/deployments/"
                               ++ ai_model c));
          ("api_version", of_opt (azure_openai_api_version c))])%list
  else if String.eqb (ai_provider c) "anthropic" then
    inr (base_config c ++
         [("api_key", of_opt (anthropic_api_key c));
          ("base_url", of_opt (anthropic_base_url c))])%list
  else if String.eqb (ai_provider c) "local" then
    inr (base_config c ++
         [("api_key", of_opt (local_model_api_key c));
          ("base_url", of_opt (local_model_base_url c))])%list
  else inl (Exn ValueError ("Unsupported AI provider: " ++ ai_provider c)).

(** The defaults of the class. *)
Definition defaults : Config :=
  {| execution_timeout := 300;
     ai_provider := "openai";
     ai_model := "gpt-3.5-turbo";
     openai_api_key := None;
     openai_base_url := Some "https://api.openai.com/v1";
     openai_organization := None;
     azure_openai_api_key := None;
     azure_openai_endpoint := None;
     azure_openai_api_version := Some "2023-12-01-preview";
     anthropic_api_key := None;
     anthropic_base_url := Some "https://api.anthropic.com";
     local_model_base_url := Some "http://localhost:11434/v1";
     local_model_api_key := Some "ollama";
     ai_max_tokens := 2000;
     ai_temperature := "0.7" |}.

End Config.

(* ===================================================================== *)
(** ** [executor.py]: building the executor *)
(* ===================================================================== *)

Module Init.
Import PyStr Eff.
Local Open Scope string_scope.

(** A client object, seen as what [chat.completions.create] answers to
    the requests of [_execute_ai_task]. *)
Definition client := string -> string -> string -> Executor.ai_outcome.

(** The SDK: the two constructors, and the answer of a client to the
    request of [_test_ai_connection] (one user message, ten tokens). *)
Record Sdk := {
  OpenAI : Config.pyval -> Config.pyval -> Config.pyval -> exn + client;
  AzureOpenAI : Config.pyval -> Config.pyval -> string -> exn + client;
  test_request : client -> string -> Executor.ai_outcome
}.

(** What building the executor does outside the process. *)
Inductive sdk_event :=
| NewOpenAI (api_key base_url organization : Config.pyval)
| NewAzureOpenAI (api_key api_version : Config.pyval) (azure_endpoint : string)
| ConnectionTest (model : string).

(** [s.replace(old, new)] for a non-empty [old]: the occurrences are
    taken from the left and do not overlap.  [skip] is the number of
    characters of a matched occurrence still to pass over. *)
Fixpoint replace_from (skip : nat) (old new s : string) : string :=
  match s with
  | EmptyString => EmptyString
  | String c r =>
      match skip with
      | S k => replace_from k old new r
      | O =>
          if String.prefix old s then new ++ replace_from (String.length old - 1) old new r
          else String c (replace_from O old new r)
      end
  end.

Definition replace (old new s : string) : string := replace_from O old new s.

(** [_test_ai_connection]: the request is made and its failure is
    swallowed; the result tells whether it went through. *)
Definition _test_ai_connection (sdk : Sdk) (c : client) (model : string)
  : list sdk_event * bool :=
  ([ConnectionTest model],
   match test_request sdk c model with
   | Executor.AiRaises _ => false
   | Executor.AiCompletion _ => true
   end).

(** The body of the [try] of [_init_ai_client]: the events, and the
    client built ([inl e] when a constructor or a look-up raised). *)
Definition construct (cfg : Config.Config) (sdk : Sdk) (ai_config : Config.pydict)
  : list sdk_event * (exn + option client) :=
  let provider := Config.ai_provider cfg in
  if mem provider ["openai"; "local"] then
    let api_key := Config.get "api_key" ai_config in
    let base_url := Config.get "base_url" ai_config in
    let organization := Config.get "organization" ai_config in
    ([NewOpenAI api_key base_url organization],
     match OpenAI sdk api_key base_url organization with
     | inl e => inl e
     | inr c => inr (Some c)
     end)
  else if String.eqb provider "azure" then
    match Config.getitem "api_key" ai_config, Config.getitem "api_version" ai_config,
          Config.getitem "base_url" ai_config with
    | Some api_key, Some api_version, Some (Config.PStr base_url) =>
        let azure_endpoint :=
          replace ("/openai/deployments/" ++ Config.ai_model cfg) EmptyString base_url in
        ([NewAzureOpenAI api_key api_version azure_endpoint],
         match AzureOpenAI sdk api_key api_version azure_endpoint with
         | inl e => inl e
         | inr c => inr (Some c)
         end)
    | Some _, Some _, Some _ =>
        ([], inl (Exn OtherError "object has no attribute 'replace'"))
    | _, _, _ => ([], inl (Exn OtherError "KeyError"))
    end
  else if String.eqb provider "anthropic" then
    match Config.getitem "api_key" ai_config, Config.getitem "base_url" ai_config with
    | Some api_key, Some base_url =>
        ([NewOpenAI api_key base_url Config.PNone],
         match OpenAI sdk api_key base_url Config.PNone with
         | inl e => inl e
         | inr c => inr (Some c)
         end)
    | _, _ => ([], inl (Exn OtherError "KeyError"))
    end
  else ([], inr None).

(** [_init_ai_client]: the events and the value of [self.ai_client], or
    the exception that leaves the method.  [get_ai_config] is called
    before the [try], so its [ValueError] is not caught; everything
    inside the [try] is. *)
Definition _init_ai_client (cfg : Config.Config) (sdk : Sdk)
  : list sdk_event * (exn + option client) :=
  match Config.get_ai_config cfg with
  | inl e => ([], inl e)
  | inr ai_config =>
      if negb (Config.val_truthy (Config.get "api_key" ai_config)) then ([], inr None)
      else
        match construct cfg sdk ai_config with
        | (evs, inr (Some c)) =>
            let (evs', _) := _test_ai_connection sdk c (Config.ai_model cfg) in
            ((evs ++ evs')%list, inr (Some c))
        | (evs, inr None) => (evs, inr None)
        | (evs, inl _) => (evs, inr None)
        end
  end.

(** [Executor.__init__].  [st0] is the status a fresh [TaskExecution]
    carries (see [Executor.initial_status]). *)
Definition __init__ (st0 : Executor.TaskStatus) (cfg : Config.Config) (sdk : Sdk)
  : list sdk_event * (exn + Executor.Executor) :=
  match _init_ai_client cfg sdk with
  | (evs, inl e) => (evs, inl e)
  | (evs, inr ai_client) =>
      (evs,
       inr {| Executor.execution_timeout := Config.execution_timeout cfg;
              Executor.ai_provider := Config.ai_provider cfg;
              Executor.ai_model := Config.ai_model cfg;
              Executor.ai_client := ai_client;
              Executor.initial_status := st0 |})
  end.

End Init.

(* ===================================================================== *)
(** ** [main.py]: the start of [main] *)
(* ===================================================================== *)

Module Startup.
Import PyStr.
Local Open Scope string_scope.

(** [--transport] has [choices=["sse", "stdio"]]. *)
Inductive Transport := Sse | Stdio.

Definition transport_name (t : Transport) : string :=
  match t with Sse => "sse" | Stdio => "stdio" end.

(** The parsed command line; every option defaults to [None], the three
    switches to [False]. *)
Record Args := {
  address : option string;
  port : option Z;
  transport : option Transport;
  log_level : option string;
  log_file : option string;
  db_path : option string;
  config : option string;
  ai_model : option string;
  version : bool;
  debug : bool;
  fix_json : bool;
  ai_provider : option string;
  openai_base_url : option string;
  openai_api_key : option string
}.

(** [os.environ]. *)
Definition environ := string -> option string.

(** [os.environ[k] = v]. *)
Definition setenv (k v : string) (e : environ) : environ :=
  fun k' => if String.eqb k' k then Some v else e k'.

(** [os.getenv(k, default)]. *)
Definition getenv (e : environ) (k default : string) : string :=
  match e k with Some v => v | None => default end.

(** [if args.x: os.environ[k] = args.x]. *)
Definition export (k : string) (v : option string) (e : environ) : environ :=
  if truthy_opt v then
    setenv k (match v with Some s => s | None => EmptyString end) e
  else e.

(** [if args.port: os.environ[k] = str(args.port)]. *)
Definition export_port (k : string) (p : option Z) (e : environ) : environ :=
  match p with
  | Some n => if negb (n =? 0)%Z then setenv k (str_of_Z n) e else e
  | None => e
  end.

(** The block "Set environment variables for config". *)
Definition export_args (a : Args) (e : environ) : environ :=
  let e := export "MCP_SCHEDULER_AI_PROVIDER" (ai_provider a) e in
  let e := export "MCP_SCHEDULER_OPENAI_BASE_URL" (openai_base_url a) e in
  let e := export "MCP_SCHEDULER_OPENAI_API_KEY" (openai_api_key a) e in
  let e := export "MCP_SCHEDULER_CONFIG_FILE" (config a) e in
  let e := export "MCP_SCHEDULER_ADDRESS" (address a) e in
  let e := export_port "MCP_SCHEDULER_PORT" (port a) e in
  let e := export "MCP_SCHEDULER_TRANSPORT" (option_map transport_name (transport a)) e in
  let e := export "MCP_SCHEDULER_LOG_LEVEL" (log_level a) e in
  let e := export "MCP_SCHEDULER_LOG_FILE" (log_file a) e in
  let e := export "MCP_SCHEDULER_DB_PATH" (db_path a) e in
  let e := export "MCP_SCHEDULER_AI_MODEL" (ai_model a) e in
  e.

(** The test before [sys.stdout = JSONRPCStdout(original_stdout)], on the
    environment [e] it is evaluated in. *)
Definition wraps_stdout (a : Args) (e : environ) : bool :=
  let given := option_map transport_name (transport a) in
  match given with Some t => String.eqb t "stdio" | None => false end
  || (negb (truthy_opt given)
      && String.eqb (getenv e "MCP_SCHEDULER_TRANSPORT" "stdio") "stdio").

(** The test before [sys.stdin = SafeJsonStdin(sys.stdin)]: the two
    arguments are what [patch_fastmcp_parser()] and
    [install_stdio_wrapper()] return ([False] for the stand-ins defined
    when [mcp_scheduler.json_parser] cannot be imported). *)
Definition wraps_stdin (a : Args) (patched installed : bool) : bool :=
  if fix_json a || debug a then
    if negb patched then
      if negb installed then true else false
    else false
  else false.

(** No option given. *)
Definition no_args : Args :=
  {| address := None; port := None; transport := None; log_level := None;
     log_file := None; db_path := None; config := None; ai_model := None;
     version := false; debug := false; fix_json := false; ai_provider := None;
     openai_base_url := None; openai_api_key := None |}.

Definition empty_environ : environ := fun _ => None.

End Startup.

(* ===================================================================== *)
(** ** Vocabulary for the start-up code *)
(* ===================================================================== *)

Module StartupSpec.
Import PyStr Startup.
Local Open Scope string_scope.

(** An option as [if args.x:] sees it: absent when it is [None] or empty. *)
Definition given (v : option string) : option string :=
  if truthy_opt v then v else None.

(** [--port] likewise: absent when it is [None] or [0]. *)
Definition given_port (p : option Z) : option string :=
  match p with
  | Some n => if (n =? 0)%Z then None else Some (str_of_Z n)
  | None => None
  end.

(** The variable each option stands for, as a table. *)
Definition requested (a : Args) : list (string * option string) :=
  [("MCP_SCHEDULER_ADDRESS", given (address a));
   ("MCP_SCHEDULER_PORT", given_port (port a));
   ("MCP_SCHEDULER_TRANSPORT", option_map transport_name (transport a));
   ("MCP_SCHEDULER_LOG_LEVEL", given (log_level a));
   ("MCP_SCHEDULER_LOG_FILE", given (log_file a));
   ("MCP_SCHEDULER_DB_PATH", given (db_path a));
   ("MCP_SCHEDULER_CONFIG_FILE", given (config a));
   ("MCP_SCHEDULER_AI_MODEL", given (ai_model a));
   ("MCP_SCHEDULER_AI_PROVIDER", given (ai_provider a));
   ("MCP_SCHEDULER_OPENAI_BASE_URL", given (openai_base_url a));
   ("MCP_SCHEDULER_OPENAI_API_KEY", given (openai_api_key a))].

Fixpoint lookup (k : string) (l : list (string * option string)) : option string :=
  match l with
  | [] => None
  | (k', v) :: r => if String.eqb k k' then v else lookup k r
  end.

(** [--port 0 --address ""] on the command line. *)
Definition zero_port_args : Args :=
  {| address := Some EmptyString; port := Some 0%Z; transport := None;
     log_level := None; log_file := None; db_path := None; config := None;
     ai_model := None; version := false; debug := false; fix_json := false;
     ai_provider := None; openai_base_url := None; openai_api_key := None |}.

End StartupSpec.

(* ===================================================================== *)
(** ** Further vocabulary and scenarios *)
(* ===================================================================== *)

Module MoreSpec.
Import PyStr Eff Executor Spec.
Local Open Scope string_scope.

(** The external action starts a process. *)
Definition is_spawn (ev : event) : bool :=
  match ev with
  | SubprocessShell _ | SubprocessExec _ => true
  | _ => false
  end.

(** The external action concerns a child process. *)
Definition is_process (ev : event) : bool :=
  match ev with
  | SubprocessShell _ | SubprocessExec _ | ProcessKill => true
  | _ => false
  end.

Definition is_http (ev : event) : bool :=
  match ev with HttpRequest _ _ _ _ => true | _ => false end.

Definition is_chat (ev : event) : bool :=
  match ev with ChatCompletion _ _ _ => true | _ => false end.

(** Every external action of the computation satisfies [p]. *)
Definition only {A} (p : event -> bool) (m : M A) : Prop :=
  forallb p (trace m) = true.

(** The error text of a command that ran out of time. *)
Definition timeout_error (ex : Executor) : string :=
  "Command timed out after " ++ str_of_Z (execution_timeout ex) ++ " seconds".

(** A failed execution of [task] with the given error and nothing else. *)
Definition failed_with (w : World) (task : Task) (msg : string) : TaskExecution :=
  {| task_id := id task; status := FAILED; output := None;
     error := Some msg; end_time := Some (utcnow w) |}.

(** A completed execution of [task] with the given output. *)
Definition completed_with (w : World) (task : Task) (out : string) : TaskExecution :=
  {| task_id := id task; status := COMPLETED; output := Some out;
     error := None; end_time := Some (utcnow w) |}.

(** The method the request is made with. *)
Definition request_method (task : Task) : string :=
  upper (match api_method task with
         | Some m => if truthy m then m else "GET"
         | None => "GET"
         end).

(** The error an [api_call] execution reports for an exception of the
    request. *)
Definition request_error (ex : Executor) (e : exn) : string :=
  match exn_kind e with
  | ClientError => "API call failed: " ++ exn_str e
  | TimeoutError =>
      "API call timed out after " ++ str_of_Z (execution_timeout ex) ++ " seconds"
  | _ => exn_str e
  end.

(** The error an [ai] execution reports for what the provider did, and
    [None] when the provider answered with a first choice. *)
Definition provider_error (a : ai_outcome) : option string :=
  match a with
  | AiRaises e =>
      Some (if is_timeout e then "AI API call timed out"
            else "AI task failed: " ++ exn_str e)
  | AiCompletion [] => Some "AI task failed: list index out of range"
  | AiCompletion (_ :: _) => None
  end.

(** What the reminder makes of the result of its notification command. *)
Definition notification_result (title : string) (r : result) : result :=
  if truthy_opt (snd r) then
    (None, Some ("Notification failed: "
                   ++ match snd r with Some e => e | None => EmptyString end))
  else (Some ("Displayed notification: " ++ title), None).

(** *** Scenarios *)

(** A host on which every process started runs out of time. *)
Definition slow_host : World :=
  {| platform_system := "Linux";
     environ_TEMP := EmptyString;
     utcnow := 0%Z;
     create_subprocess_shell :=
       fun _ => Spawned (CommRaises (Exn TimeoutError EmptyString));
     create_subprocess_exec :=
       fun _ => Spawned (CommRaises (Exn TimeoutError EmptyString));
     session_request := fun _ _ _ _ => HttpRaises (Exn TimeoutError EmptyString);
     open_write := fun _ => None |}.

(** A host on which every process prints [stdout] and exits with 0. *)
Definition echo_host (os stdout : string) : World :=
  {| platform_system := os;
     environ_TEMP := "C:\Temp";
     utcnow := 0%Z;
     create_subprocess_shell := fun _ => Spawned (CommDone 0 (Utf8 stdout) no_bytes);
     create_subprocess_exec := fun _ => Spawned (CommDone 0 (Utf8 stdout) no_bytes);
     session_request := fun _ _ _ _ => HttpRaises (Exn OtherError "unexpected");
     open_write := fun _ => None |}.

(** A task with no payload at all. *)
Definition bare_task (type : string) : Task :=
  {| id := "task_2"; name := "Bare"; type_value := type;
     command := None; api_url := None; api_method := None;
     api_headers := None; api_body := None; prompt := None;
     reminder_title := None; reminder_message := None |}.

(** A POST with a body and a lower-case method. *)
Definition post_task : Task :=
  {| id := "task_3"; name := "Post"; type_value := "api_call";
     command := None; api_url := Some "http://x/report"; api_method := Some "post";
     api_headers := None; api_body := Some [("k", "v")]; prompt := None;
     reminder_title := None; reminder_message := None |}.

(** The external actions a task of the given type may cause. *)
Definition allowed (type : string) (ev : event) : bool :=
  if String.eqb type "shell_command" then is_process ev
  else if String.eqb type "api_call" then is_http ev
  else if String.eqb type "ai" then is_chat ev
  else if String.eqb type "reminder" then negb (is_network ev)
  else false.

(** The escaping of the macOS and Linux branches of the reminder. *)
Definition escape_dquote (s : string) : string :=
  replace_char dquote (chr backslash ++ dq) s.

(** The escaping of the Windows branch of the reminder. *)
Definition escape_squote (s : string) : string := replace_char squote "''" s.

(** The file the Windows branch writes. *)
Definition notification_file (w : World) : string :=
  path_join (path_join (environ_TEMP w) EmptyString) "notification.hta".

(** A macOS host on which nothing can be executed. *)
Definition mac_host : World := host "Darwin" 1 404 "not found".

(** A Windows host on which the notification file cannot be written. *)
Definition readonly_windows_host : World :=
  {| platform_system := "Windows";
     environ_TEMP := "C:\Temp";
     utcnow := 0%Z;
     create_subprocess_shell := fun _ => exits 0 EmptyString;
     create_subprocess_exec := fun _ => exits 0 EmptyString;
     session_request := fun _ _ _ _ => HttpResponse 200 "ok";
     open_write := fun _ => Some (Exn OtherError "[Errno 13] Permission denied") |}.

End MoreSpec.

(* ===================================================================== *)
(** ** Vocabulary for the construction of the executor *)
(* ===================================================================== *)

Module InitSpec.
Import PyStr Eff Init.
Local Open Scope string_scope.

(** The API key the configuration holds for its provider. *)
Definition provider_key (c : Config.Config) : option string :=
  if String.eqb (Config.ai_provider c) "openai" then Config.openai_api_key c
  else if String.eqb (Config.ai_provider c) "azure" then Config.azure_openai_api_key c
  else if String.eqb (Config.ai_provider c) "anthropic" then Config.anthropic_api_key c
  else if String.eqb (Config.ai_provider c) "local" then Config.local_model_api_key c
  else None.

Definition known_provider (p : string) : bool :=
  mem p ["openai"; "azure"; "anthropic"; "local"].

Definition is_test (ev : sdk_event) : bool :=
  match ev with ConnectionTest _ => true | _ => false end.

(** What the constructor call recorded by an event answered. *)
Definition constructor_result (sdk : Sdk) (ev : sdk_event) : option (exn + client) :=
  match ev with
  | NewOpenAI k b o => Some (OpenAI sdk k b o)
  | NewAzureOpenAI k v endpoint => Some (AzureOpenAI sdk k v endpoint)
  | ConnectionTest _ => None
  end.

(** The same SDK with another answer to the connection test. *)
Definition with_test (sdk : Sdk) (answer : client -> string -> Executor.ai_outcome) : Sdk :=
  {| OpenAI := OpenAI sdk; AzureOpenAI := AzureOpenAI sdk; test_request := answer |}.

(** [old] does not occur in [s ++ tail] at a position inside [s]. *)
Fixpoint no_match_inside (old s tail : string) : bool :=
  match s with
  | EmptyString => true
  | String _ r => negb (String.prefix old (s ++ tail)) && no_match_inside old r tail
  end.

(** The deployment path [get_ai_config] appends for Azure. *)
Definition deployment_path (c : Config.Config) : string :=
  "/openai/deployments/" ++ Config.ai_model c.

(** An SDK whose constructors succeed and whose clients answer with the
    given choices, but whose connection test fails. *)
Definition flaky_sdk (choices : list (option string)) : Sdk :=
  {| OpenAI := fun _ _ _ => inr (fun _ _ _ => Executor.AiCompletion choices);
     AzureOpenAI := fun _ _ _ => inr (fun _ _ _ => Executor.AiCompletion choices);
     test_request := fun _ _ => Executor.AiRaises (Exn OtherError "Connection error.") |}.

(** An SDK whose constructors fail. *)
Definition broken_sdk : Sdk :=
  {| OpenAI := fun _ _ _ => inl (Exn OtherError "bad base_url");
     AzureOpenAI := fun _ _ _ => inl (Exn OtherError "bad endpoint");
     test_request := fun _ _ => Executor.AiCompletion [] |}.

Definition with_provider (p : string) (c : Config.Config) : Config.Config :=
  {| Config.execution_timeout := Config.execution_timeout c;
     Config.ai_provider := p;
     Config.ai_model := Config.ai_model c;
     Config.openai_api_key := Config.openai_api_key c;
     Config.openai_base_url := Config.openai_base_url c;
     Config.openai_organization := Config.openai_organization c;
     Config.azure_openai_api_key := Config.azure_openai_api_key c;
     Config.azure_openai_endpoint := Config.azure_openai_endpoint c;
     Config.azure_openai_api_version := Config.azure_openai_api_version c;
     Config.anthropic_api_key := Config.anthropic_api_key c;
     Config.anthropic_base_url := Config.anthropic_base_url c;
     Config.local_model_base_url := Config.local_model_base_url c;
     Config.local_model_api_key := Config.local_model_api_key c;
     Config.ai_max_tokens := Config.ai_max_tokens c;
     Config.ai_temperature := Config.ai_temperature c |}.

(** An Azure configuration with a key and the given endpoint. *)
Definition azure_config (endpoint : option string) : Config.Config :=
  {| Config.execution_timeout := 300;
     Config.ai_provider := "azure";
     Config.ai_model := "gpt-4";
     Config.openai_api_key := None;
     Config.openai_base_url := None;
     Config.openai_organization := None;
     Config.azure_openai_api_key := Some "secret";
     Config.azure_openai_endpoint := endpoint;
     Config.azure_openai_api_version := Some "2023-12-01-preview";
     Config.anthropic_api_key := None;
     Config.anthropic_base_url := None;
     Config.local_model_base_url := None;
     Config.local_model_api_key := None;
     Config.ai_max_tokens := 2000;
     Config.ai_temperature := "0.7" |}.

(** An Azure configuration whose endpoint ends like the beginning of the
    deployment path of its model: the endpoint does not contain the
    path, but endpoint and path put together contain it twice. *)
Definition overlap_config : Config.Config :=
  {| Config.execution_timeout := 300;
     Config.ai_provider := "azure";
     Config.ai_model := "m/";
     Config.openai_api_key := None;
     Config.openai_base_url := None;
     Config.openai_organization := None;
     Config.azure_openai_api_key := Some "secret";
     Config.azure_openai_endpoint := Some "https://r/openai/deployments/m";
     Config.azure_openai_api_version := Some "2023-12-01-preview";
     Config.anthropic_api_key := None;
     Config.anthropic_base_url := None;
     Config.local_model_base_url := None;
     Config.local_model_api_key := None;
     Config.ai_max_tokens := 2000;
     Config.ai_temperature := "0.7" |}.

End InitSpec.

(* ===================================================================== *)
(** ** The library models on known inputs *)
(* ===================================================================== *)

Module ModelChecks.
Import PyStr.
Local Open Scope string_scope.

Example strip_both_ends :
  strip ("  Echo hi " ++ chr newline) = "Echo hi".
Proof. reflexivity. Qed.

Example str_of_int :
  (str_of_Z 0, str_of_Z 404, str_of_Z (-9)) = ("0", "404", "-9").
Proof. reflexivity. Qed.

Example lower_and_upper : (lower "ECHO Hi", upper "post") = ("echo hi", "POST").
Proof. reflexivity. Qed.

Example shlex_words : Shlex.split "ls -l  /tmp" = inr ["ls"; "-l"; "/tmp"].
Proof. reflexivity. Qed.

Example shlex_quotes :
  Shlex.split ("a 'b c' " ++ chr dquote ++ "d\e\\f" ++ chr dquote ++ "g h\ i ''")
  = inr ["a"; "b c"; "d\e\fg"; "h i"; EmptyString].
Proof. reflexivity. Qed.

Example shlex_blank : Shlex.split "   " = inr [].
Proof. reflexivity. Qed.

Example shlex_dangling_escape : Shlex.split ("a" ++ chr backslash) = inl "No escaped character".
Proof. reflexivity. Qed.

Example json_accepts :
  map (Json.scan 4300)
    [" [1, 2.5e-3, -0, true, null] "; "{}"; "[NaN, -Infinity]"; "0";
     "[" ++ Main.quoted "ab\n" ++ "]"]
  = [Json.Loaded; Json.Loaded; Json.Loaded; Json.Loaded; Json.Loaded].
Proof. reflexivity. Qed.

Example json_rejects :
  map (Json.scan 4300)
    ["01"; "[1.]"; "[1,]"; "{1:2}"; "1e"; "tru"; "[1] 2"; EmptyString; "-"]
  = map (fun _ => Json.JSONDecodeError) (seq 0 9).
Proof. reflexivity. Qed.

(** An integer of 4301 digits is refused where it ends, also in front of
    a dangling point; with a fraction it is a float and is accepted. *)
Example json_long_integer :
  map (Json.scan 4300)
    ["[" ++ StreamSpec.ones 4301 ++ "]"; "[" ++ StreamSpec.ones 4301 ++ ".]";
     "[" ++ StreamSpec.ones 4301 ++ ".5]"; "[" ++ StreamSpec.ones 4300 ++ "]";
     "[x," ++ StreamSpec.ones 4301 ++ "]"]
  = [Json.Raises (Json.int_error 4300 4301); Json.Raises (Json.int_error 4300 4301);
     Json.Loaded; Json.Loaded; Json.JSONDecodeError].
Proof. vm_compute. reflexivity. Qed.

Example id_search :
  map Main.search_id
    [Main.quoted "id" ++ " : 12,"; "{" ++ Main.quoted "id" ++ ":" ++ Main.quoted "abc";
     Main.quoted "idx" ++ ":1"]
  = [Some "12"; None; None].
Proof. reflexivity. Qed.

End ModelChecks.

(* ===================================================================== *)
(** ** Facts about strings *)
(* ===================================================================== *)

Module PyStrFacts.
Import PyStr.
Local Open Scope string_scope.

Lemma prefix_app (p s : string) : String.prefix p (p ++ s) = true.
Proof.
  induction p as [|c p IH]; simpl.
  - now destruct s.
  - destruct (ascii_dec c c) as [_|N]; [exact IH | now elim N].
Qed.

Lemma prefix_split (p s : string) :
  String.prefix p s = true -> exists rest, s = p ++ rest.
Proof.
  revert s; induction p as [|c p IH]; intros s H.
  - now exists s.
  - destruct s as [|d s]; simpl in H; [discriminate|].
    destruct (ascii_dec c d) as [->|_]; [|discriminate].
    destruct (IH s H) as [rest ->]. now exists rest.
Qed.

Lemma contains_prefix (n s : string) : String.prefix n s = true -> contains n s = true.
Proof. intros H. destruct s; cbn [contains]; rewrite H; reflexivity. Qed.

Lemma contains_cons (n : string) (c : ascii) (s : string) :
  contains n s = true -> contains n (String c s) = true.
Proof. intros H. cbn [contains]. rewrite H. apply orb_true_r. Qed.

(** A text contains each of its pieces. *)
Lemma contains_app (pre n post : string) : contains n (pre ++ n ++ post) = true.
Proof.
  induction pre as [|c pre IH]; cbn [append].
  - apply contains_prefix, prefix_app.
  - now apply contains_cons.
Qed.

Lemma contains_app_end (pre n : string) : contains n (pre ++ n) = true.
Proof.
  induction pre as [|c pre IH]; cbn [append].
  - apply contains_prefix. clear. induction n as [|c n IH]; simpl; [reflexivity|].
    destruct (ascii_dec c c) as [_|N]; [exact IH | now elim N].
  - now apply contains_cons.
Qed.

Lemma contains_skip (a n s : string) : contains n s = true -> contains n (a ++ s) = true.
Proof.
  intros H. induction a as [|c a IH]; cbn [append]; [exact H | now apply contains_cons].
Qed.

Lemma contains_self (n : string) : contains n n = true.
Proof. apply (contains_app_end EmptyString n). Qed.

Lemma has_char_split (c : ascii) (s : string) :
  has_char c s = true <-> exists pre post, s = pre ++ String c post.
Proof.
  induction s as [|d s IH]; simpl.
  - split; [discriminate|]. intros (pre & post & H). now destruct pre.
  - rewrite orb_true_iff, IH, Ascii.eqb_eq. split.
    + intros [->|(pre & post & ->)].
      * now exists EmptyString, s.
      * now exists (String d pre), post.
    + intros (pre & post & H). destruct pre as [|e pre]; simpl in H; injection H as -> ->.
      * now left.
      * right. now exists pre, post.
Qed.

Lemma strip_truthy (s : string) : truthy (strip s) = true -> truthy s = true.
Proof. now destruct s. Qed.

End PyStrFacts.

(* ===================================================================== *)
(** ** Facts about computations *)
(* ===================================================================== *)

Module EffFacts.
Import Eff Spec.

Lemma ensures_ret {A} (P : A -> Prop) (a : A) : P a -> ensures P (ret a).
Proof. intros H. exact H. Qed.

Lemma ensures_raise {A} (P : A -> Prop) (e : exn) : ensures P (raise e).
Proof. exact I. Qed.

Lemma ensures_bind {A B} (P : B -> Prop) (m : M A) (k : A -> M B) :
  (forall a, ensures P (k a)) -> ensures P (bind m k).
Proof.
  intros H. destruct m as [t [e|a]]; unfold ensures, outcome; simpl; [exact I|].
  specialize (H a). unfold ensures, outcome in H. now destruct (k a).
Qed.

Lemma ensures_try_except {A} (P : A -> Prop) (m : M A) catches h :
  ensures P m -> (forall e, ensures P (h e)) -> ensures P (try_except m catches h).
Proof.
  intros Hm Hh. destruct m as [t [e|a]]; unfold ensures, outcome in *; simpl in *.
  - destruct (catches e); simpl; [|exact I].
    specialize (Hh e). now destruct (h e).
  - exact Hm.
Qed.

(** [try: ... except Exception: <handler that returns>] does not raise. *)
Lemma try_except_any {A} (P : A -> Prop) (m : M A) (h : exn -> M A) :
  ensures P m ->
  (forall e, exists a, outcome (h e) = inr a /\ P a) ->
  exists a, outcome (try_except m any_exception h) = inr a /\ P a.
Proof.
  intros Hm Hh. destruct m as [t [e|a]]; unfold ensures, outcome in *; simpl in *.
  - destruct (Hh e) as (a & Ha & HP). destruct (h e) as [t' r]; simpl in *.
    subst r. now exists a.
  - now exists a.
Qed.

Lemma outcome_bind {A B} (m : M A) (k : A -> M B) (a : A) :
  outcome m = inr a -> outcome (bind m k) = outcome (k a).
Proof.
  destruct m as [t r]; unfold outcome; simpl. intros ->. now destruct (k a).
Qed.

(** Handlers and continuations that only compute add nothing to the trace. *)
Lemma trace_bind_ret {A B} (m : M A) (f : A -> B) :
  trace (bind m (fun x => ret (f x))) = trace m.
Proof.
  destruct m as [t [e|a]]; unfold trace; simpl; [reflexivity | apply app_nil_r].
Qed.

Lemma trace_try_except_ret {A} (m : M A) catches (g : exn -> A) :
  trace (try_except m catches (fun e => ret (g e))) = trace m.
Proof.
  destruct m as [t [e|a]]; unfold trace; simpl; [|reflexivity].
  destruct (catches e); simpl; [apply app_nil_r | reflexivity].
Qed.

Lemma outcome_try_except_ok {A} (m : M A) catches h (a : A) :
  outcome m = inr a -> outcome (try_except m catches h) = inr a.
Proof. destruct m as [t r]; unfold outcome; simpl. now intros ->. Qed.

Lemma ensures_bind_with {A B} (Q : A -> Prop) (P : B -> Prop) (m : M A) (k : A -> M B) :
  ensures Q m -> (forall a, Q a -> ensures P (k a)) -> ensures P (bind m k).
Proof.
  intros Hm H. destruct m as [t [e|a]]; unfold ensures, outcome in *; simpl in *; [exact I|].
  specialize (H a Hm). now destruct (k a).
Qed.

Lemma starts_with_emit {A} (ev : event) (k : unit -> M A) : starts_with ev (bind (emit ev) k).
Proof. unfold starts_with, trace; simpl. destruct (k tt) as [t r]. now exists t. Qed.

Lemma starts_with_bind {A B} (ev : event) (m : M A) (k : A -> M B) :
  starts_with ev m -> starts_with ev (bind m k).
Proof.
  intros [rest H]. destruct m as [t [e|a]]; unfold starts_with, trace in *; simpl in *; subst t.
  - now exists rest.
  - destruct (k a) as [t' r]. now eexists.
Qed.

Lemma starts_with_try_except {A} (ev : event) (m : M A) catches h :
  starts_with ev m -> starts_with ev (try_except m catches h).
Proof.
  intros [rest H]. destruct m as [t [e|a]]; unfold starts_with, trace in *; simpl in *; subst t.
  - destruct (catches e); [destruct (h e) as [t' r]|]; now eexists.
  - now exists rest.
Qed.

End EffFacts.

(* ===================================================================== *)
(** ** Properties of the executor *)
(* ===================================================================== *)

Module ExecutorFacts.
Import PyStr Eff Executor Spec PyStrFacts EffFacts.
Local Open Scope string_scope.

Lemma settle_terminal execution r : terminal (status (settle execution r)) = true.
Proof. destruct r as [o e]; simpl. now destruct (truthy_opt e). Qed.

(** C1. For every executor, world and task, [execute_task] returns a
    [TaskExecution]: it never raises, whatever the handlers and the
    outside world do and whichever exception (deriving from [Exception])
    they raise.  The status of that execution is terminal: completed or
    failed, never pending or running. *)
Theorem execute_task_terminal (ex : Executor) (w : World) (task : Task) :
  exists e,
    outcome (execute_task ex w task) = inr e
    /\ terminal (status e) = true
    /\ (status e = COMPLETED \/ status e = FAILED).
Proof.
  unfold execute_task.
  match goal with
  | |- context [bind (try_except ?body any_exception ?h) _] =>
      destruct (try_except_any (fun e => terminal (status e) = true) body h)
        as (e & He & Ht)
  end.
  - repeat match goal with
           | |- ensures _ (if ?c then _ else _) => destruct c
           end;
      try (apply ensures_bind; intros r; apply ensures_ret, settle_terminal).
    apply ensures_ret. reflexivity.
  - intros e. eexists. split; [reflexivity|reflexivity].
  - exists (set_end_time e (utcnow w)). split; [|split].
    + rewrite (outcome_bind _ _ e He). reflexivity.
    + exact Ht.
    + simpl. destruct (status e); simpl in Ht; try discriminate; auto.
Qed.

(** C10. A task whose type value is none of [shell_command], [api_call],
    [ai], [reminder] is not run at all: [execute_task] returns, without
    raising and without any external action, a failed execution whose
    error is the text "Unsupported task type: " followed by the value. *)
Theorem execute_task_unsupported_type (ex : Executor) (w : World) (task : Task) :
  type_value task <> "shell_command" ->
  type_value task <> "api_call" ->
  type_value task <> "ai" ->
  type_value task <> "reminder" ->
  execute_task ex w task =
    ([], inr {| task_id := id task; status := FAILED; output := None;
                error := Some ("Unsupported task type: " ++ type_value task);
                end_time := Some (utcnow w) |}).
Proof.
  intros H1 H2 H3 H4. unfold execute_task.
  apply String.eqb_neq in H1, H2, H3, H4.
  rewrite H1, H2, H3, H4. reflexivity.
Qed.

Lemma execute_task_unsupported_type_witness :
  let task := sample_task "backup" "ls" in
  type_value task <> "shell_command" /\ type_value task <> "api_call"
  /\ type_value task <> "ai" /\ type_value task <> "reminder"
  /\ execute_task plain_executor linux_host task =
       ([], inr {| task_id := "task_1"; status := FAILED; output := None;
                   error := Some "Unsupported task type: backup";
                   end_time := Some 0%Z |}).
Proof.
  cbv zeta. do 4 (split; [discriminate|]).
  apply (execute_task_unsupported_type plain_executor linux_host (sample_task "backup" "ls"));
    discriminate.
Defined.

(** C6. An [ai] task with a non-empty prompt, run by an executor that has
    no AI client, fails at once: the result is a failed execution whose
    error is exactly "No AI client configured for AI tasks", and the
    trace of external actions is empty, so no network call was made. *)
Theorem execute_task_ai_without_client (ex : Executor) (w : World) (task : Task) (p : string) :
  type_value task = "ai" ->
  prompt task = Some p ->
  truthy p = true ->
  ai_client ex = None ->
  execute_task ex w task =
    ([], inr {| task_id := id task; status := FAILED; output := None;
                error := Some "No AI client configured for AI tasks";
                end_time := Some (utcnow w) |})
  /\ existsb is_network (trace (execute_task ex w task)) = false.
Proof.
  intros Hty Hp Ht Hc.
  assert (E : execute_task ex w task =
    ([], inr {| task_id := id task; status := FAILED; output := None;
                error := Some "No AI client configured for AI tasks";
                end_time := Some (utcnow w) |})).
  { unfold execute_task, _execute_ai_task.
    rewrite Hty, Hp, Hc. simpl. rewrite Ht. reflexivity. }
  split; [exact E | now rewrite E].
Qed.

Lemma execute_task_ai_without_client_witness :
  let task := sample_task "ai" "ls" in
  type_value task = "ai" /\ prompt task = Some "Summarise the day"
  /\ truthy "Summarise the day" = true /\ ai_client plain_executor = None
  /\ execute_task plain_executor linux_host task =
       ([], inr {| task_id := "task_1"; status := FAILED; output := None;
                   error := Some "No AI client configured for AI tasks";
                   end_time := Some 0%Z |}).
Proof.
  cbv zeta. do 4 (split; [reflexivity|]).
  apply (execute_task_ai_without_client plain_executor linux_host
           (sample_task "ai" "ls") "Summarise the day"); reflexivity.
Defined.

(** C5, as the code has it.  An [api_call] task with a non-empty URL
    issues exactly one HTTP request.  When that request is answered (no
    network error, no timeout) and the body of the answer is read as
    text, then with a status below 400 the execution is completed and its
    output is the response body, and with a status of 400 or more the
    execution is failed and its error contains both the status code and
    the response body.  In particular a 404 answer with body "not found"
    gives a failed execution whose error contains "404" and "not found".
    When reading the body raises, the execution is failed whatever the
    status, without output, and its error is the one reported for an
    exception of the request: "API call failed: <message>" for a client
    error, the timeout message for a timeout, the bare message of any
    other exception (one that cannot be decoded among them). *)
Theorem execute_task_api_call (ex : Executor) (w : World) (task : Task) (url : string) :
  type_value task = "api_call" ->
  api_url task = Some url ->
  truthy url = true ->
  exists method headers json,
    trace (execute_task ex w task) = [HttpRequest method url headers json]
    /\ (forall status body,
         session_request w method url headers json = HttpResponse status body ->
         exists e,
           outcome (execute_task ex w task) = inr e
           /\ ((status < 400)%Z ->
                 Executor.status e = COMPLETED /\ output e = Some body /\ error e = None)
           /\ ((400 <= status)%Z ->
                 exists err,
                   Executor.status e = FAILED /\ output e = None /\ error e = Some err
                   /\ contains (str_of_Z status) err = true
                   /\ contains body err = true
                   /\ (status = 404%Z -> body = "not found" ->
                         contains "404" err = true /\ contains "not found" err = true)))
    /\ forall status e,
         session_request w method url headers json = HttpUnreadable status e ->
         exists x,
           outcome (execute_task ex w task) = inr x
           /\ Executor.status x = FAILED /\ output x = None
           /\ error x = Some (MoreSpec.request_error ex e).
Proof.
  intros Hty Hurl Ht.
  unfold execute_task, _execute_api_call.
  rewrite Hty, Hurl. cbn [String.eqb Ascii.eqb Bool.eqb truthy_opt]. rewrite Ht. cbn [negb].
  match goal with
  | |- context [session_request w ?m url ?h ?j] => exists m, h, j
  end.
  split; [|split].
  - destruct (session_request w _ url _ _) as [[[] msg]|status body|status [[] msg]]; simpl;
      try reflexivity.
    now destruct (400 <=? status)%Z.
  - intros status body H. rewrite H. simpl.
    destruct (400 <=? status)%Z eqn:E; simpl.
    + eexists. split; [reflexivity|]. split; [lia|]. intros _.
      eexists. split; [reflexivity|]. split; [reflexivity|]. split; [reflexivity|].
      assert (C1 : contains (str_of_Z status)
                     ("API call failed with status " ++ str_of_Z status ++ ": " ++ body) = true)
        by apply contains_app.
      assert (C2 : contains body
                     ("API call failed with status " ++ str_of_Z status ++ ": " ++ body) = true).
      { apply contains_skip, contains_skip, contains_skip, contains_self. }
      split; [exact C1|]. split; [exact C2|].
      intros -> ->. split; [exact C1 | exact C2].
    + eexists. split; [reflexivity|]. split; [|lia].
      intros _. repeat split.
  - intros status e H. rewrite H. destruct e as [[] msg]; simpl;
      eexists; (split; [reflexivity|]); repeat split.
Qed.

Lemma execute_task_api_call_witness :
  let task := sample_task "api_call" "ls" in
  type_value task = "api_call" /\ api_url task = Some "http://x/report"
  /\ truthy "http://x/report" = true
  /\ exists method headers json,
       trace (execute_task plain_executor linux_host task)
         = [HttpRequest method "http://x/report" headers json]
       /\ session_request linux_host method "http://x/report" headers json
           = HttpResponse 404 "not found"
       /\ exists e err,
            outcome (execute_task plain_executor linux_host task) = inr e
            /\ Executor.status e = FAILED /\ error e = Some err
            /\ contains "404" err = true /\ contains "not found" err = true.
Proof.
  cbv zeta. do 3 (split; [reflexivity|]).
  destruct (execute_task_api_call plain_executor linux_host
              (sample_task "api_call" "ls") "http://x/report" eq_refl eq_refl eq_refl)
    as (method & headers & json & Htrace & Hresp & _).
  exists method, headers, json. split; [exact Htrace|]. split; [reflexivity|].
  destruct (Hresp 404%Z "not found" eq_refl) as (e & He & _ & Hfail).
  destruct Hfail as (err & Hs & _ & Herr & _ & _ & H404); [lia|].
  destruct (H404 eq_refl eq_refl) as [Ha Hb].
  exists e, err. repeat (split; [assumption|]). assumption.
Defined.

(** C5, counterexample.  On a host that answers every request with
    status 200 and a body that is not UTF-8, the request of the task
    completes without network error or timeout and its status is below
    400; the execution is failed all the same, with the message of the
    decoding error, and has no output. *)
Lemma execute_task_api_call_counterexample :
  session_request garbled_host "POST" "http://x/report" [] None
  = HttpUnreadable 200 undecodable
  /\ (200 < 400)%Z
  /\ execute_task plain_executor garbled_host (sample_task "api_call" "ls")
     = ([HttpRequest "POST" "http://x/report" [] None],
        inr {| task_id := "task_1"; status := FAILED; output := None;
               error := Some (exn_str undecodable); end_time := Some 0%Z |}).
Proof. split; [reflexivity|]. split; reflexivity. Qed.

(** [_execute_shell_command] turns every failure into an error text. *)
Lemma shell_command_never_raises (ex : Executor) (w : World) (command : option string) :
  never_raises (_execute_shell_command ex w command).
Proof.
  unfold never_raises, _execute_shell_command.
  destruct command as [c|]; [|now eexists].
  destruct (truthy c); cbn [negb]; [|now eexists].
  match goal with
  | |- context [try_except ?body any_exception ?h] =>
      destruct (try_except_any (fun _ => True) body h) as (r & Hr & _)
  end.
  - unfold ensures. now destruct (outcome _).
  - intros e. now eexists.
  - now exists r.
Qed.











(** *** Each handler returns one side of the pair *)

(** One step of a proof that follows the structure of a handler. *)
Ltac ens_step :=
  lazymatch goal with
  | |- ensures _ (ret _) => apply ensures_ret
  | |- ensures _ (raise _) => apply ensures_raise
  | |- ensures _ (bind _ _) => apply ensures_bind; intros ?
  | |- ensures _ (try_except _ _ _) => apply ensures_try_except; [|intros ?]
  | |- ensures _ (match ?x with _ => _ end) => destruct x eqn:?
  end.

Ltac ens := repeat ens_step; try (simpl; auto; fail).

Lemma wait_process_one_sided (ex : Executor) (process : comm_outcome) :
  ensures one_sided (wait_process ex process).
Proof. unfold wait_process. ens. Qed.

Lemma shell_command_one_sided (ex : Executor) (w : World) (command : option string) :
  ensures one_sided (_execute_shell_command ex w command).
Proof.
  unfold _execute_shell_command. ens; apply wait_process_one_sided.
Qed.

Lemma api_call_one_sided (ex : Executor) (w : World) url method headers body :
  ensures one_sided (_execute_api_call ex w url method headers body).
Proof. unfold _execute_api_call. ens. Qed.

Lemma reminder_one_sided (ex : Executor) (w : World) (title : string) message :
  ensures one_sided (_execute_reminder_task ex w title message).
Proof.
  unfold _execute_reminder_task.
  destruct (negb (truthy_opt message)); [now apply ensures_ret|].
  apply ensures_try_except; [|intros e; now apply ensures_ret].
  apply ensures_bind_with with (Q := chosen_ok).
  - unfold windows_notification, darwin_notification, linux_notification. ens.
  - intros [r|command] H; [now apply ensures_ret|]. ens.
Qed.

(** The AI handler is one-sided too, unless the provider's first choice
    carries no text. *)
Lemma ai_task_one_sided (ex : Executor) (p : option string) :
  ensures (fun r => one_sided r
                    \/ (r = (None, None)
                        /\ exists create text rest,
                             ai_client ex = Some create /\ p = Some text
                             /\ create (ai_model ex) system_instruction text
                                = AiCompletion (None :: rest)))
          (_execute_ai_task ex p).
Proof.
  unfold _execute_ai_task.
  destruct p as [text|]; cbn [truthy_opt negb]; [|apply ensures_ret; now left].
  destruct (truthy text); cbn [negb]; [|apply ensures_ret; now left].
  destruct (ai_client ex) as [create|] eqn:Hc; [|apply ensures_ret; now left].
  apply ensures_try_except; [|intros e; apply ensures_ret; now left].
  apply ensures_bind; intros _.
  apply ensures_try_except; [|intros e; apply ensures_ret; now left].
  apply ensures_bind; intros _.
  destruct (create _ _ _) as [e|[|[response|] rest]] eqn:Hr.
  - apply ensures_raise.
  - apply ensures_raise.
  - apply ensures_ret. now left.
  - apply ensures_ret. right. split; [reflexivity|]. now exists create, text, rest.
Qed.

Lemma settle_exactly_one (ex : Executor) (task : Task) (r : result) :
  one_sided r -> exactly_one (settle (new_execution ex task) r).
Proof.
  unfold exactly_one, settle.
  destruct r as [[o|] [e|]]; simpl; try contradiction.
  - intros _. cbv. split; split; intros H; try reflexivity; try discriminate; congruence.
  - intros ->. cbv. split; split; intros H; try reflexivity; try discriminate; congruence.
Qed.

(** The invariant of a returned execution, with its one exception: the
    error is present exactly for a failed run and the output exactly for
    a completed one, unless an [ai] task got a reply without text. *)
Lemma execute_task_exactly_one_unless_null_content
      (ex : Executor) (w : World) (task : Task) :
  exists e,
    outcome (execute_task ex w task) = inr e
    /\ (exactly_one e
        \/ (null_content ex task
            /\ status e = COMPLETED /\ output e = None /\ error e = None)).
Proof.
  unfold execute_task.
  set (good := fun e : TaskExecution =>
         exactly_one e
         \/ (null_content ex task
             /\ status e = COMPLETED /\ output e = None /\ error e = None)).
  assert (Hfail : forall msg, good (set_failed (new_execution ex task) (Some msg))).
  { intros msg. left. cbv. split; split; intros H;
      try reflexivity; try discriminate; congruence. }
  assert (Hone : forall r, one_sided r -> good (settle (new_execution ex task) r)).
  { intros r Hr. left. now apply settle_exactly_one. }
  match goal with
  | |- context [bind (try_except ?body any_exception ?h) _] =>
      destruct (try_except_any good body h) as (e & He & Hg)
  end.
  - destruct (String.eqb (type_value task) "shell_command");
      [eapply ensures_bind_with;
         [apply shell_command_one_sided | intros r Hr; apply ensures_ret; auto]|].
    destruct (String.eqb (type_value task) "api_call");
      [eapply ensures_bind_with;
         [apply api_call_one_sided | intros r Hr; apply ensures_ret; auto]|].
    destruct (String.eqb (type_value task) "ai") eqn:Hai.
    { apply String.eqb_eq in Hai.
      eapply ensures_bind_with; [apply ai_task_one_sided|].
      intros r [Hr|(-> & create & text & rest & Hc & Hp & Hr)]; apply ensures_ret; auto.
      right. split; [now exists create, text, rest|]. now split. }
    destruct (String.eqb (type_value task) "reminder");
      [eapply ensures_bind_with;
         [apply reminder_one_sided | intros r Hr; apply ensures_ret; auto]|].
    apply ensures_ret, Hfail.
  - intros e. eexists. split; [reflexivity | apply Hfail].
  - exists (set_end_time e (utcnow w)). split.
    + rewrite (outcome_bind _ _ e He). reflexivity.
    + destruct Hg as [Hg|Hg]; [left | right]; exact Hg.
Qed.

(** C2. The execution returned for an [ai] task whose provider replies
    with a first choice without text ([message.content] is [None]) is
    completed and has neither output nor error: the rule "output present
    exactly when completed" does not hold for it.  By
    [execute_task_exactly_one_unless_null_content] this is the only way
    the rule can fail. *)
Theorem execute_task_ai_null_content :
  let e := {| task_id := "task_1"; status := COMPLETED; output := None;
              error := None; end_time := Some 0%Z |} in
  execute_task (ai_executor [None]) linux_host (sample_task "ai" "ls")
  = ([ChatCompletion "gpt-3.5-turbo" system_instruction "Summarise the day"], inr e)
  /\ ~ exactly_one e.
Proof.
  split; [reflexivity|].
  intros [[_ H] _]. simpl in H. specialize (H eq_refl). now apply H.
Qed.

(** *** The choice between shell and direct execution *)

Lemma has_operator_iff (command : string) :
  has_operator command = true <-> contains_operator command.
Proof.
  unfold has_operator, contains_operator.
  rewrite !orb_true_iff, !has_char_split. split.
  - intros [[(pre & post & ->)|(pre & post & ->)]|(pre & post & ->)];
      eexists pre, _, post; split; eauto.
  - intros (pre & c & post & -> & [->|[->| ->]]); eauto.
Qed.

Lemma starts_with_builtin_iff (command : string) :
  starts_with_builtin command = true <-> begins_with_keyword command.
Proof.
  unfold starts_with_builtin, begins_with_keyword. rewrite existsb_exists. split.
  - intros (kw & Hin & Hp). apply prefix_split in Hp as [rest Hp]. now exists kw, rest.
  - intros (kw & rest & Hin & Hp). exists kw. split; [exact Hin|].
    unfold startswith. rewrite Hp. apply prefix_app.
Qed.

Lemma use_shell_posix (w : World) (command : string) :
  is_windows w = false ->
  use_shell w command = starts_with_builtin command || has_operator command.
Proof.
  intros H. unfold use_shell. rewrite H.
  now destruct (starts_with_builtin command), (has_operator command).
Qed.

(** C3, as the code has it.  On a non-Windows host a non-empty command
    is run through the shell exactly when it contains a pipe or
    redirection operator or begins with one of the built-in keywords;
    the shell then gets the command text unchanged.  Otherwise the
    command is split with [shlex]: when the split yields at least one
    word, the words are executed directly as an argument vector; when
    the split fails, nothing is executed and the result is the error
    "Invalid command syntax: ..." . *)
Theorem shell_command_mode (ex : Executor) (w : World) (command : string) :
  truthy command = true ->
  is_windows w = false ->
  (use_shell w command = true <-> contains_operator command \/ begins_with_keyword command)
  /\ (use_shell w command = true ->
      starts_with (SubprocessShell command) (_execute_shell_command ex w (Some command)))
  /\ (use_shell w command = false ->
      forall arg args, Shlex.split command = inr (arg :: args) ->
      starts_with (SubprocessExec (arg :: args)) (_execute_shell_command ex w (Some command)))
  /\ (use_shell w command = false ->
      forall msg, Shlex.split command = inl msg ->
      _execute_shell_command ex w (Some command)
      = ([], inr (None, Some ("Invalid command syntax: " ++ msg)))).
Proof.
  intros Ht Hw. split; [|split; [|split]].
  - rewrite (use_shell_posix w command Hw), orb_true_iff,
      starts_with_builtin_iff, has_operator_iff. tauto.
  - intros Hs. unfold _execute_shell_command. rewrite Ht, Hs, Hw. cbn [negb].
    apply starts_with_try_except, starts_with_bind. unfold spawn_shell.
    apply starts_with_emit.
  - intros Hs arg args Hsplit. unfold _execute_shell_command.
    rewrite Ht, Hs, Hsplit. cbn [negb].
    apply starts_with_try_except, starts_with_bind. unfold spawn_exec.
    apply starts_with_emit.
  - intros Hs msg Hsplit. unfold _execute_shell_command.
    rewrite Ht, Hs, Hsplit. reflexivity.
Qed.

Lemma shell_command_mode_witness :
  truthy "ls -l /tmp" = true /\ is_windows linux_host = false
  /\ use_shell linux_host "ls -l /tmp" = false
  /\ Shlex.split "ls -l /tmp" = inr ["ls"; "-l"; "/tmp"]
  /\ starts_with (SubprocessExec ["ls"; "-l"; "/tmp"])
       (_execute_shell_command plain_executor linux_host (Some "ls -l /tmp")).
Proof.
  do 4 (split; [reflexivity|]).
  destruct (shell_command_mode plain_executor linux_host "ls -l /tmp" eq_refl eq_refl)
    as (_ & _ & Hdirect & _).
  exact (Hdirect eq_refl "ls" ["-l"; "/tmp"] eq_refl).
Defined.

(** C3, counterexample.  On a Linux host the command made of [ls], a
    space, a double quote and [a] (an unclosed quotation) has no operator and no built-in keyword, so it
    is not run through the shell; but it is not executed directly
    either: no process is started at all. *)
Lemma shell_command_mode_counterexample :
  truthy unclosed_quote_command = true
  /\ is_windows linux_host = false
  /\ use_shell linux_host unclosed_quote_command = false
  /\ _execute_shell_command plain_executor linux_host (Some unclosed_quote_command)
     = ([], inr (None, Some "Invalid command syntax: No closing quotation"))
  /\ ~ exists args,
        starts_with (SubprocessExec args)
          (_execute_shell_command plain_executor linux_host (Some unclosed_quote_command)).
Proof.
  do 4 (split; [reflexivity|]).
  intros (args & rest & H). discriminate H.
Qed.

(** *** Non-zero exit codes *)

Lemma execute_shell_task (ex : Executor) (w : World) (task : Task) :
  type_value task = "shell_command" ->
  trace (execute_task ex w task) = trace (_execute_shell_command ex w (command task))
  /\ forall r,
       outcome (_execute_shell_command ex w (command task)) = inr r ->
       outcome (execute_task ex w task)
       = inr (set_end_time (settle (new_execution ex task) r) (utcnow w)).
Proof.
  intros Hty. unfold execute_task. rewrite Hty.
  change (String.eqb "shell_command" "shell_command") with true. cbn iota. split.
  - now rewrite trace_bind_ret, trace_try_except_ret, trace_bind_ret.
  - intros r Hr. erewrite outcome_bind; [reflexivity|].
    apply outcome_try_except_ok. erewrite outcome_bind; [reflexivity | exact Hr].
Qed.

Lemma wait_process_nonzero (ex : Executor) (rc : Z) (out : pybytes) (text : string) :
  rc <> 0%Z ->
  wait_process ex (CommDone rc out (Utf8 text)) = ([], inr (None, Some (exit_error rc text))).
Proof.
  intros H. apply Z.eqb_neq in H. unfold wait_process, exit_error. simpl.
  rewrite H. simpl. now destruct (truthy text).
Qed.

Lemma shell_command_nonzero_exit (ex : Executor) (w : World) (command : option string)
      (ev : event) (rest : list event) (rc : Z) (out : pybytes) (text : string) :
  trace (_execute_shell_command ex w command) = ev :: rest ->
  spawn_of w ev = Some (Spawned (CommDone rc out (Utf8 text))) ->
  rc <> 0%Z ->
  outcome (_execute_shell_command ex w command) = inr (None, Some (exit_error rc text)).
Proof.
  intros Htr Hsp Hrc. unfold _execute_shell_command in *.
  destruct command as [c|]; [|discriminate Htr].
  destruct (truthy c); cbn [negb] in *; [|discriminate Htr].
  destruct (use_shell w c).
  - unfold spawn_shell in *. cbv zeta in *.
    set (full := if is_windows w then "cmd.exe /c " ++ c else c) in *.
    destruct (create_subprocess_shell w full) as [e|p] eqn:E.
    + unfold trace in Htr. simpl in Htr. injection Htr as <- _.
      simpl in Hsp. rewrite E in Hsp. discriminate Hsp.
    + assert (Hev : ev = SubprocessShell full).
      { revert Htr. unfold trace. simpl. destruct (wait_process ex p) as [t [x|x]];
          simpl; intros Htr; now injection Htr. }
      subst ev. simpl in Hsp. rewrite E in Hsp. injection Hsp as ->.
      simpl. rewrite (wait_process_nonzero ex rc out text Hrc). reflexivity.
  - destruct (Shlex.split c) as [msg|[|a args]]; try discriminate Htr.
    unfold spawn_exec in *.
    destruct (create_subprocess_exec w _) as [e|p] eqn:E.
    + unfold trace in Htr. simpl in Htr. injection Htr as <- _.
      simpl in Hsp. rewrite E in Hsp. discriminate Hsp.
    + assert (Hev : ev = SubprocessExec (a :: args)).
      { revert Htr. unfold trace. simpl. destruct (wait_process ex p) as [t [x|x]];
          simpl; intros Htr; now injection Htr. }
      subst ev. simpl in Hsp. rewrite E in Hsp. injection Hsp as ->.
      simpl. rewrite (wait_process_nonzero ex rc out text Hrc). reflexivity.
Qed.

Lemma exit_error_contains (rc : Z) (text : string) :
  contains ("exit code " ++ str_of_Z rc) (exit_error rc text) = true
  /\ contains text (exit_error rc text) = true.
Proof.
  split.
  - exact (contains_app "Command failed with " ("exit code " ++ str_of_Z rc)
             (": " ++ (if truthy text then text else "Unknown error"))).
  - unfold exit_error. destruct text as [|c text]; [apply contains_prefix; reflexivity|].
    cbn [truthy]. apply contains_skip, contains_skip, contains_skip, contains_self.
Qed.

(** Non-zero exits, as the code has them.  When the process started for a
    [shell_command] task exits with a non-zero code within the timeout
    and its captured stderr decodes as text, the execution is failed and
    its error is "Command failed with exit code <code>: <stderr>" (or
    "Unknown error" in place of an empty stderr): it contains the exit
    code and the captured stderr.  In particular the command [exit 1],
    run in shell mode as it is on a Windows host (through [cmd.exe /c]),
    gives a failed execution whose error contains "exit code 1" when the
    shell exits with code 1. *)
Theorem execute_task_nonzero_exit (ex : Executor) (w : World) (task : Task) :
  type_value task = "shell_command" ->
  (forall ev rest rc out text,
     trace (execute_task ex w task) = ev :: rest ->
     spawn_of w ev = Some (Spawned (CommDone rc out (Utf8 text))) ->
     rc <> 0%Z ->
     exists e,
       outcome (execute_task ex w task) = inr e
       /\ status e = FAILED /\ output e = None
       /\ error e = Some (exit_error rc text)
       /\ contains ("exit code " ++ str_of_Z rc) (exit_error rc text) = true
       /\ contains text (exit_error rc text) = true)
  /\ (forall out text,
       command task = Some "exit 1" ->
       is_windows w = true ->
       create_subprocess_shell w "cmd.exe /c exit 1" = Spawned (CommDone 1 out (Utf8 text)) ->
       exists e err,
         outcome (execute_task ex w task) = inr e
         /\ status e = FAILED /\ error e = Some err
         /\ contains "exit code 1" err = true).
Proof.
  intros Hty. destruct (execute_shell_task ex w task Hty) as [Htrace Hout].
  assert (General : forall ev rest rc out text,
     trace (execute_task ex w task) = ev :: rest ->
     spawn_of w ev = Some (Spawned (CommDone rc out (Utf8 text))) ->
     rc <> 0%Z ->
     exists e,
       outcome (execute_task ex w task) = inr e
       /\ status e = FAILED /\ output e = None
       /\ error e = Some (exit_error rc text)
       /\ contains ("exit code " ++ str_of_Z rc) (exit_error rc text) = true
       /\ contains text (exit_error rc text) = true).
  { intros ev rest rc out text Htr Hsp Hrc. rewrite Htrace in Htr.
    pose proof (shell_command_nonzero_exit ex w _ ev rest rc out text Htr Hsp Hrc) as H.
    eexists. split; [exact (Hout _ H)|].
    destruct (exit_error_contains rc text) as [C1 C2].
    repeat split; assumption. }
  split; [exact General|].
  intros out text Hcmd Hw Hsh.
  assert (Htr : trace (execute_task ex w task)
                = [SubprocessShell "cmd.exe /c exit 1"]).
  { rewrite Htrace, Hcmd. unfold _execute_shell_command, use_shell, spawn_shell.
    rewrite Hw. simpl. rewrite Hsh. simpl.
    rewrite (wait_process_nonzero ex 1 out text) by discriminate. reflexivity. }
  destruct (General _ _ 1%Z out text Htr) as (e & He & Hs & _ & Herr & C & _).
  - simpl. now rewrite Hsh.
  - discriminate.
  - exists e, (exit_error 1 text). repeat split; assumption.
Qed.

Lemma execute_task_nonzero_exit_witness :
  let task := sample_task "shell_command" "exit 1" in
  type_value task = "shell_command"
  /\ command task = Some "exit 1"
  /\ is_windows windows_host = true
  /\ create_subprocess_shell windows_host "cmd.exe /c exit 1"
     = Spawned (CommDone 1 no_bytes (Utf8 EmptyString))
  /\ trace (execute_task plain_executor windows_host task)
     = [SubprocessShell "cmd.exe /c exit 1"]
  /\ spawn_of windows_host (SubprocessShell "cmd.exe /c exit 1")
     = Some (Spawned (CommDone 1 no_bytes (Utf8 EmptyString)))
  /\ 1%Z <> 0%Z
  /\ (exists e,
        outcome (execute_task plain_executor windows_host task) = inr e
        /\ status e = FAILED /\ output e = None
        /\ error e = Some "Command failed with exit code 1: Unknown error")
  /\ (exists e err,
        outcome (execute_task plain_executor windows_host task) = inr e
        /\ status e = FAILED /\ error e = Some err
        /\ contains "exit code 1" err = true).
Proof.
  cbv zeta. do 6 (split; [reflexivity|]). split; [discriminate|].
  destruct (execute_task_nonzero_exit plain_executor windows_host
              (sample_task "shell_command" "exit 1") eq_refl) as [Hgeneral Hexit].
  split.
  - destruct (Hgeneral (SubprocessShell "cmd.exe /c exit 1") [] 1%Z no_bytes EmptyString
                eq_refl eq_refl) as (e & He & Hs & Ho & Herr & _); [discriminate|].
    exists e. repeat (split; [assumption|]). exact Herr.
  - exact (Hexit no_bytes EmptyString eq_refl eq_refl eq_refl).
Defined.

(** C4.  The command [exit 1] on a Linux host.  [exit] is a built-in of
    the shell, but it is not in the list of built-in keywords of
    [_execute_shell_command], and the command has no operator: it is not
    handed to the shell but split and executed directly, as the program
    [exit] with the argument [1].  No such program exists, so the spawn
    fails and the execution is failed with "Failed to execute command:
    ...", an error that does not contain "exit code 1".  On a Windows
    host the same task goes through [cmd.exe /c] and fails with "Command
    failed with exit code 1: ...". *)
Theorem execute_task_exit_1_without_shell :
  let task := sample_task "shell_command" "exit 1" in
  starts_with_builtin "exit 1" = false
  /\ has_operator "exit 1" = false
  /\ use_shell linux_host "exit 1" = false
  /\ Shlex.split "exit 1" = inr ["exit"; "1"]
  /\ execute_task plain_executor linux_host task
     = ([SubprocessExec ["exit"; "1"]],
        inr {| task_id := "task_1"; status := FAILED; output := None;
               error := Some "Failed to execute command: [Errno 2] No such file or directory: 'exit'";
               end_time := Some 0%Z |})
  /\ contains "exit code 1"
       "Failed to execute command: [Errno 2] No such file or directory: 'exit'" = false
  /\ execute_task plain_executor windows_host task
     = ([SubprocessShell "cmd.exe /c exit 1"],
        inr {| task_id := "task_1"; status := FAILED; output := None;
               error := Some "Command failed with exit code 1: Unknown error";
               end_time := Some 0%Z |}).
Proof. cbv zeta. do 6 (split; [reflexivity|]). reflexivity. Qed.

End ExecutorFacts.

(* ===================================================================== *)
(** ** Properties of the stream wrappers *)
(* ===================================================================== *)

Module MainFacts.
Import PyStr Main StreamSpec PyStrFacts.
Local Open Scope string_scope.

Lemma looks_like_json_truthy (s : string) : looks_like_json s = true -> truthy s = true.
Proof. now destruct s. Qed.

(** [write], as the code has it, on ASCII text.  It forwards a text to
    the real standard output exactly when the text, without its surrounding blanks, begins
    with an opening brace or bracket (only this first character is
    looked at); the text is then forwarded unchanged and nothing goes to
    stderr.  Any other non-blank text is kept off stdout and reported on
    stderr, and a blank text is dropped. *)
Lemma stdout_write_filter (data : string) :
  isascii data = true ->
  (looks_like_json (strip data) = true ->
   forwarded (JSONRPCStdout_write data) = [data]
   /\ diagnosed (JSONRPCStdout_write data) = [])
  /\ (looks_like_json (strip data) = false ->
      forwarded (JSONRPCStdout_write data) = []
      /\ (truthy (strip data) = true ->
          diagnosed (JSONRPCStdout_write data) = [rejection_notice data])
      /\ (truthy (strip data) = false -> JSONRPCStdout_write data = [])).
Proof.
  intros _. unfold JSONRPCStdout_write. split.
  - intros H. rewrite H, (looks_like_json_truthy _ H), (strip_truthy _ (looks_like_json_truthy _ H)).
    now split.
  - intros H. rewrite H. destruct (truthy (strip data)) eqn:E.
    + rewrite (strip_truthy _ E). repeat split. discriminate.
    + rewrite andb_false_r. repeat split. discriminate.
Qed.

(** *** What [json.loads] makes of a text *)

Lemma loads_within_limit (it : Json.Interp) (s : string) :
  Json.recursion_error it s = None ->
  Json.loads it s = Json.scan (Json.int_max_str_digits it) s.
Proof. intros H. unfold Json.loads. now rewrite H. Qed.

(** A text the decoder rejects is loaded by no interpreter. *)
Lemma loads_rejected (it : Json.Interp) (s : string) :
  Json.scan (Json.int_max_str_digits it) s = Json.JSONDecodeError ->
  Json.loads it s <> Json.Loaded.
Proof.
  intros H. unfold Json.loads. destruct (Json.recursion_error it s); [discriminate|].
  rewrite H. discriminate.
Qed.

(** C8.  The text [{oops] begins with a brace, so [write] forwards it,
    unchanged, to the real standard output and reports nothing on
    stderr.  It is not a JSON value: the decoder rejects it at its second
    character, and [json.loads] returns a value for it in no interpreter.
    So what [write] lets through to the outbound channel is not always
    well-formed JSON. *)
Theorem stdout_write_forwards_non_json :
  JSONRPCStdout_write oops = [StdoutWrite oops; StdoutFlush]
  /\ forwarded (JSONRPCStdout_write oops) = [oops]
  /\ diagnosed (JSONRPCStdout_write oops) = []
  /\ (forall max_digits, Json.scan max_digits oops = Json.JSONDecodeError)
  /\ (forall it, Json.loads it oops <> Json.Loaded).
Proof.
  do 4 (split; [reflexivity|]). intros it. now apply loads_rejected.
Qed.

(** *** Malformed input lines *)

Lemma readline_malformed (it : Json.Interp) (line : string) :
  looks_like_json (strip line) = true ->
  skip_filter (strip line) = false ->
  Json.loads it (strip line) = Json.JSONDecodeError ->
  SafeJsonStdin_readline it line = inr (parse_error_response (recovered_id (strip line))).
Proof.
  intros Hj Hs Hl. unfold SafeJsonStdin_readline, recovered_id.
  rewrite (strip_truthy _ (looks_like_json_truthy _ Hj)), Hs, Hj, Hl. cbn [negb].
  now destruct (search_id (strip line)).
Qed.

Lemma digits_all_digits (s : string) : all_digits (digits s) = true.
Proof.
  induction s as [|c s IH]; simpl; [reflexivity|].
  destruct (is_digit c) eqn:E; simpl; [now rewrite E|reflexivity].
Qed.

(** What the search recovers is a non-empty run of digits. *)
Lemma search_id_digits (s d : string) :
  search_id s = Some d -> all_digits d = true /\ truthy d = true.
Proof.
  induction s as [|c s IH]; cbn [search_id]; unfold match_id_here.
  - destruct (startswith EmptyString (quoted "id")); [|discriminate].
    destruct (lstrip _) as [|x r]; [discriminate|].
    destruct (Ascii.eqb_spec x ":") as [->|N]; [|now destruct x as [[] [] [] [] [] [] [] []]].
    destruct (digits (lstrip r)) eqn:E; [discriminate|].
    intros [= <-]. split; [rewrite <- E; apply digits_all_digits | reflexivity].
  - destruct (startswith (String c s) (quoted "id")); [|exact IH].
    destruct (lstrip _) as [|x r]; [exact IH|].
    destruct (Ascii.eqb_spec x ":") as [->|N];
      [|destruct x as [[] [] [] [] [] [] [] []]; try exact IH; now elim N].
    destruct (digits (lstrip r)) eqn:E; [exact IH|].
    intros [= <-]. split; [rewrite <- E; apply digits_all_digits | reflexivity].
Qed.

(** *** When the answer to a malformed line is itself JSON *)

Lemma step_first_digit (max_digits : nat) (stack : list Json.container) (c : ascii) :
  is_digit c = true -> c <> "0"%char ->
  Json.step max_digits Json.Val stack c = Json.Go (Json.NumInt 1) stack.
Proof.
  intros H N. destruct c as [[] [] [] [] [] [] [] []]; try discriminate H;
    try reflexivity; now elim N.
Qed.

Lemma step_next_digit (max_digits n : nat) (stack : list Json.container) (c : ascii) :
  is_digit c = true ->
  Json.step max_digits (Json.NumInt n) stack c = Json.Go (Json.NumInt (S n)) stack.
Proof. intros H. unfold Json.step. now rewrite H. Qed.

Lemma step_digit_after_zero (max_digits : nat) (c : ascii) :
  is_digit c = true ->
  Json.step max_digits Json.NumZero [Json.InObject] c = Json.Stop Json.JSONDecodeError.
Proof.
  intros H. destruct c as [[] [] [] [] [] [] [] []]; try discriminate H; reflexivity.
Qed.

Lemma run_digits (max_digits n : nat) (stack : list Json.container) (d rest : string) :
  all_digits d = true ->
  Json.run max_digits (Json.NumInt n) stack (d ++ rest)
  = Json.run max_digits (Json.NumInt (n + String.length d)) stack rest.
Proof.
  revert n. induction d as [|c d IH]; intros n H.
  - now rewrite Nat.add_0_r.
  - simpl in H. apply andb_true_iff in H as [Hc Hd].
    cbn [append Json.run String.length]. rewrite (step_next_digit max_digits n stack c Hc).
    rewrite (IH (S n) Hd). now rewrite Nat.add_succ_r.
Qed.

Lemma parse_error_response_split (id_text : string) :
  parse_error_response id_text = response_head ++ id_text ++ response_tail.
Proof. reflexivity. Qed.

Lemma run_response_head (max_digits : nat) (rest : string) :
  Json.scan max_digits (response_head ++ rest)
  = Json.run max_digits Json.Val [Json.InObject] rest.
Proof. reflexivity. Qed.

Lemma run_id_digits (max_digits : nat) (d tail : string) :
  all_digits d = true ->
  Json.run max_digits Json.Key [Json.InObject] tail = Json.Loaded ->
  Json.run max_digits Json.Val [Json.InObject] (d ++ String "," tail)
  = response_outcome max_digits d.
Proof.
  intros H Htail. unfold response_outcome.
  destruct d as [|c d]; [reflexivity|].
  simpl in H. apply andb_true_iff in H as [Hc Hd].
  destruct (Ascii.eqb_spec c "0") as [->|N].
  - destruct d as [|c' d]; [exact Htail|].
    simpl in Hd. apply andb_true_iff in Hd as [Hc' _].
    cbn [json_number_text append Json.run].
    change (Json.step max_digits Json.Val [Json.InObject] "0")
      with (Json.Go Json.NumZero [Json.InObject]).
    cbn iota. now rewrite (step_digit_after_zero max_digits c' Hc').
  - cbn [append Json.run]. rewrite (step_first_digit max_digits _ c Hc N).
    rewrite (run_digits max_digits 1 _ d _ Hd).
    replace (json_number_text (String c d)) with true
      by (destruct c as [[] [] [] [] [] [] [] []]; try discriminate Hc;
          try reflexivity; now elim N).
    cbn [String.length Nat.add Json.run].
    change (Json.step max_digits (Json.NumInt (S (String.length d))) [Json.InObject] ",")
      with (Json.convert_int max_digits (S (String.length d))
              (Json.Go Json.Key [Json.InObject])).
    unfold Json.convert_int.
    destruct (Json.int_too_long max_digits (S (String.length d))); [reflexivity | exact Htail].
Qed.

Lemma parse_error_response_scan (max_digits : nat) (d : string) :
  all_digits d = true ->
  Json.scan max_digits (parse_error_response d) = response_outcome max_digits d.
Proof.
  intros H. rewrite parse_error_response_split, run_response_head.
  now apply run_id_digits.
Qed.

Lemma null_response_scan (max_digits : nat) :
  Json.scan max_digits (parse_error_response "null") = Json.Loaded.
Proof. reflexivity. Qed.

(** The answer to a malformed line: the parse-error line with the digits
    found after the first ["id":], or with [null].  The decoder takes it
    for JSON unless the digits have a superfluous leading zero or are
    more than [int] converts. *)
Lemma readline_malformed_json (it : Json.Interp) (line : string) :
  isascii line = true ->
  looks_like_json (strip line) = true ->
  skip_filter (strip line) = false ->
  Json.loads it (strip line) = Json.JSONDecodeError ->
  SafeJsonStdin_readline it line = inr (parse_error_response (recovered_id (strip line)))
  /\ forall max_digits,
       Json.scan max_digits (parse_error_response (recovered_id (strip line)))
       = match search_id (strip line) with
         | Some d => response_outcome max_digits d
         | None => Json.Loaded
         end.
Proof.
  intros _ Hj Hs Hl. split; [now apply readline_malformed|].
  intros max_digits. unfold recovered_id.
  destruct (search_id (strip line)) as [d|] eqn:E.
  - apply parse_error_response_scan. now apply (search_id_digits _ _ E).
  - apply null_response_scan.
Qed.

(** C9.  The line of a request whose id is written [007] is malformed
    (a JSON number has no leading zero).  In an interpreter whose
    recursion limit is enough for the line, [json.loads] raises
    [JSONDecodeError] and [readline] answers with the parse-error line
    carrying the digits as they stand; and that answer is not JSON
    either: the decoder rejects it and no interpreter loads it, so the
    reader gets no JSON-RPC error object.  (A malformed line whose id is
    a JSON number, as in [truncated_request], is answered by a
    well-formed error object with code -32700 and that id.) *)
Theorem readline_leading_zero_id (it : Json.Interp) :
  Json.recursion_error it (strip leading_zero_request) = None ->
  looks_like_json (strip leading_zero_request) = true
  /\ skip_filter (strip leading_zero_request) = false
  /\ Json.loads it (strip leading_zero_request) = Json.JSONDecodeError
  /\ SafeJsonStdin_readline it leading_zero_request = inr (parse_error_response "007")
  /\ (forall max_digits,
        Json.scan max_digits (parse_error_response "007") = Json.JSONDecodeError)
  /\ (forall it', Json.loads it' (parse_error_response "007") <> Json.Loaded)
  /\ (Json.recursion_error it (strip truncated_request) = None ->
      SafeJsonStdin_readline it truncated_request = inr (parse_error_response "12"))
  /\ (forall max_digits, Json.scan max_digits (parse_error_response "12") = Json.Loaded).
Proof.
  intros H7.
  assert (L7 : Json.loads it (strip leading_zero_request) = Json.JSONDecodeError)
    by (rewrite (loads_within_limit it _ H7); reflexivity).
  do 2 (split; [reflexivity|]). split; [exact L7|].
  split; [exact (readline_malformed it leading_zero_request eq_refl eq_refl L7)|].
  split; [reflexivity|].
  split; [intros it'; now apply loads_rejected|].
  split; [|reflexivity].
  intros H12. apply (readline_malformed it truncated_request eq_refl eq_refl).
  rewrite (loads_within_limit it _ H12). reflexivity.
Qed.

Lemma readline_leading_zero_id_witness :
  Json.recursion_error roomy_interp (strip leading_zero_request) = None
  /\ SafeJsonStdin_readline roomy_interp leading_zero_request
     = inr (parse_error_response "007")
  /\ Json.loads roomy_interp (parse_error_response "007") <> Json.Loaded.
Proof.
  split; [reflexivity|].
  destruct (readline_leading_zero_id roomy_interp eq_refl)
    as (_ & _ & _ & Hread & _ & Hnot & _).
  split; [exact Hread | exact (Hnot roomy_interp)].
Defined.

End MainFacts.

(* ===================================================================== *)
(** ** Further properties of the handlers *)
(* ===================================================================== *)

Module ExecutorMore.
Import PyStr Eff Executor Spec MoreSpec PyStrFacts EffFacts ExecutorFacts.
Local Open Scope string_scope.

(** *** What a computation may do *)

Lemma only_ret {A} (p : event -> bool) (a : A) : only p (ret a).
Proof. reflexivity. Qed.

Lemma only_raise {A} (p : event -> bool) (e : exn) : only p (@raise A e).
Proof. reflexivity. Qed.

Lemma only_emit (p : event -> bool) (ev : event) : p ev = true -> only p (emit ev).
Proof. intros H. unfold only, trace; simpl. now rewrite H. Qed.

Lemma only_bind {A B} (p : event -> bool) (m : M A) (k : A -> M B) :
  only p m -> (forall a, only p (k a)) -> only p (bind m k).
Proof.
  unfold only, trace. intros Hm Hk. destruct m as [t [e|a]]; simpl in *; [exact Hm|].
  specialize (Hk a). destruct (k a) as [t' r]; simpl in *.
  rewrite forallb_app, Hm, Hk. reflexivity.
Qed.

Lemma only_try_except {A} (p : event -> bool) (m : M A) catches h :
  only p m -> (forall e, only p (h e)) -> only p (try_except m catches h).
Proof.
  unfold only, trace. intros Hm Hh. destruct m as [t [e|a]]; simpl in *; [|exact Hm].
  destruct (catches e); simpl; [|exact Hm].
  specialize (Hh e). destruct (h e) as [t' r]; simpl in *.
  rewrite forallb_app, Hm, Hh. reflexivity.
Qed.

(** One step of a proof that follows the structure of a handler. *)
Ltac only_step :=
  lazymatch goal with
  | |- only _ (ret _) => apply only_ret
  | |- only _ (raise _) => apply only_raise
  | |- only _ (emit _) => apply only_emit; reflexivity
  | |- only _ (bind _ _) => apply only_bind; [|intros ?]
  | |- only _ (try_except _ _ _) => apply only_try_except; [|intros ?]
  | |- only _ (match ?x with _ => _ end) => destruct x eqn:?
  end.

Ltac only_all := repeat only_step.

Lemma wait_process_only (ex : Executor) (p : comm_outcome) :
  only is_process (wait_process ex p).
Proof. unfold wait_process, communicate, decode. only_all. Qed.

Lemma shell_command_only (ex : Executor) (w : World) (command : option string) :
  only is_process (_execute_shell_command ex w command).
Proof.
  unfold _execute_shell_command, spawn_shell, spawn_exec. only_all;
    apply wait_process_only.
Qed.

(** *** The shell handler *)

(** What waiting for a process leaves in the trace: the kill, when the
    wait ran out of time, and nothing otherwise. *)
Lemma wait_process_cases (ex : Executor) (p : comm_outcome) :
  (trace (wait_process ex p) = [])
  \/ (wait_process ex p = ([ProcessKill], inr (None, Some (timeout_error ex)))
      /\ exists e, p = CommRaises e /\ is_timeout e = true).
Proof.
  unfold wait_process. destruct p as [rc out err|e]; simpl.
  - left. destruct (rc =? 0)%Z; simpl.
    + now destruct out.
    + destruct (bytes_truthy err); simpl; [now destruct err | reflexivity].
  - destruct (is_timeout e) eqn:E; [right | now left].
    split; [reflexivity | now exists e].
Qed.

(** The three ways a command can go: no process at all; a process whose
    start failed; a process that was started and waited for. *)
Lemma shell_command_cases (ex : Executor) (w : World) (command : option string) :
  trace (_execute_shell_command ex w command) = []
  \/ (exists ev e,
        is_spawn ev = true /\ spawn_of w ev = Some (SpawnRaises e)
        /\ _execute_shell_command ex w command
           = ([ev], inr (None, Some ("Failed to execute command: " ++ exn_str e))))
  \/ (exists ev p,
        is_spawn ev = true /\ spawn_of w ev = Some (Spawned p)
        /\ trace (_execute_shell_command ex w command) = ev :: trace (wait_process ex p)
        /\ outcome (_execute_shell_command ex w command)
           = outcome (try_except (wait_process ex p) any_exception
                        (fun e => ret (None, Some ("Failed to execute command: "
                                                     ++ exn_str e))))).
Proof.
  unfold _execute_shell_command.
  destruct command as [c|]; [|now left].
  destruct (truthy c); cbn [negb]; [|now left].
  destruct (use_shell w c).
  - cbv zeta. set (full := if is_windows w then "cmd.exe /c " ++ c else c).
    unfold spawn_shell.
    destruct (create_subprocess_shell w full) as [e|p] eqn:E; right.
    + left. exists (SubprocessShell full), e. simpl. rewrite E. now repeat split.
    + right. exists (SubprocessShell full), p. simpl. rewrite E.
      destruct (wait_process ex p) as [t [x|x]]; unfold trace, outcome; simpl.
      * now rewrite app_nil_r.
      * now repeat split.
  - destruct (Shlex.split c) as [msg|[|a args]]; [now left | now left |].
    unfold spawn_exec.
    destruct (create_subprocess_exec w (a :: args)) as [e|p] eqn:E; right.
    + left. exists (SubprocessExec (a :: args)), e. simpl. rewrite E. now repeat split.
    + right. exists (SubprocessExec (a :: args)), p. simpl. rewrite E.
      destruct (wait_process ex p) as [t [x|x]]; unfold trace, outcome; simpl.
      * now rewrite app_nil_r.
      * now repeat split.
Qed.

(** X1. [_execute_shell_command] never raises, whatever the command and
    whatever the processes do: it returns a pair in which exactly one
    side is filled, an output and no error or a non-empty error and no
    output. *)
Theorem shell_command_returns_one_side (ex : Executor) (w : World) (command : option string) :
  exists r,
    outcome (_execute_shell_command ex w command) = inr r
    /\ one_sided r
    /\ (fst r = None <-> snd r <> None).
Proof.
  destruct (shell_command_never_raises ex w command) as [r Hr].
  pose proof (shell_command_one_sided ex w command) as H.
  unfold ensures in H. rewrite Hr in H.
  exists r. split; [exact Hr|]. split; [exact H|].
  destruct r as [[o|] [e|]]; simpl in *; try contradiction;
    split; intros; congruence.
Qed.

(** X2. For a command the executor starts at most one process, and the
    only other thing it ever does is to kill that process: the trace is
    empty, or the start of one process, or that start followed by the
    kill.  The kill happens exactly when waiting for the process ran out
    of time, and the error then reports the configured timeout. *)
Theorem shell_command_trace_shape (ex : Executor) (w : World) (command : option string) :
  trace (_execute_shell_command ex w command) = []
  \/ exists ev,
       is_spawn ev = true
       /\ (trace (_execute_shell_command ex w command) = [ev]
           \/ (_execute_shell_command ex w command
               = ([ev; ProcessKill], inr (None, Some (timeout_error ex)))
               /\ exists e,
                    spawn_of w ev = Some (Spawned (CommRaises e)) /\ is_timeout e = true)).
Proof.
  destruct (shell_command_cases ex w command)
    as [H|[(ev & e & Hs & Ho & H)|(ev & p & Hs & Ho & Ht & Hr)]]; [now left | |].
  - right. exists ev. split; [exact Hs|]. left. now rewrite H.
  - right. exists ev. split; [exact Hs|].
    destruct (wait_process_cases ex p) as [Hw|(Hw & e & -> & He)].
    + left. now rewrite Ht, Hw.
    + right. split; [|now exists e].
      rewrite Hw in Ht, Hr. unfold trace, outcome in *. simpl in *.
      destruct (_execute_shell_command ex w command) as [t r]. simpl in *. now subst.
Qed.

Lemma computation_eta {A} (m : M A) : m = (trace m, outcome m).
Proof. now destruct m. Qed.

(** The process started for a command, read off the first action. *)
Lemma shell_command_started (ex : Executor) (w : World) (command : option string)
      (ev : event) (rest : list event) (p : comm_outcome) :
  trace (_execute_shell_command ex w command) = ev :: rest ->
  spawn_of w ev = Some (Spawned p) ->
  rest = trace (wait_process ex p)
  /\ outcome (_execute_shell_command ex w command)
     = outcome (try_except (wait_process ex p) any_exception
                  (fun e => ret (None, Some ("Failed to execute command: " ++ exn_str e)))).
Proof.
  intros Htr Hsp.
  destruct (shell_command_cases ex w command)
    as [H|[(ev' & e & Hs & Ho & H)|(ev' & p' & Hs & Ho & Ht & Hr)]].
  - rewrite H in Htr. discriminate.
  - rewrite H in Htr. injection Htr as <- <-. congruence.
  - rewrite Ht in Htr. injection Htr as <- <-.
    assert (p' = p) by congruence. subst p'. now split.
Qed.

(** X3. When the process started for a [shell_command] task does not
    finish within the timeout, the executor kills it and the execution is
    failed with "Command timed out after <timeout> seconds", the timeout
    being the configured one. *)
Theorem execute_task_shell_timeout (ex : Executor) (w : World) (task : Task)
        (ev : event) (rest : list event) (e : exn) :
  type_value task = "shell_command" ->
  trace (execute_task ex w task) = ev :: rest ->
  spawn_of w ev = Some (Spawned (CommRaises e)) ->
  is_timeout e = true ->
  execute_task ex w task
  = ([ev; ProcessKill], inr (failed_with w task (timeout_error ex))).
Proof.
  intros Hty Htr Hsp He.
  destruct (execute_shell_task ex w task Hty) as [Htrace Hout].
  rewrite Htrace in Htr.
  destruct (shell_command_started ex w _ ev rest _ Htr Hsp) as [Hrest Ho].
  assert (Hw : wait_process ex (CommRaises e)
               = ([ProcessKill], inr (None, Some (timeout_error ex)))).
  { unfold wait_process. simpl. now rewrite He. }
  rewrite Hw in Hrest, Ho. unfold trace, outcome in Hrest, Ho; simpl in Hrest, Ho.
  rewrite (computation_eta (execute_task ex w task)), Htrace, Htr, Hrest, (Hout _ Ho).
  reflexivity.
Qed.

Lemma execute_task_shell_timeout_witness :
  let task := sample_task "shell_command" "sleep 600" in
  type_value task = "shell_command"
  /\ trace (execute_task plain_executor slow_host task) = [SubprocessExec ["sleep"; "600"]; ProcessKill]
  /\ spawn_of slow_host (SubprocessExec ["sleep"; "600"])
     = Some (Spawned (CommRaises (Exn TimeoutError EmptyString)))
  /\ is_timeout (Exn TimeoutError EmptyString) = true
  /\ execute_task plain_executor slow_host task
     = ([SubprocessExec ["sleep"; "600"]; ProcessKill],
        inr {| task_id := "task_1"; status := FAILED; output := None;
               error := Some "Command timed out after 300 seconds";
               end_time := Some 0%Z |}).
Proof.
  cbv zeta. do 4 (split; [reflexivity|]).
  apply (execute_task_shell_timeout plain_executor slow_host
           (sample_task "shell_command" "sleep 600")
           (SubprocessExec ["sleep"; "600"]) [ProcessKill] (Exn TimeoutError EmptyString));
    reflexivity.
Defined.

(** X4. When the process started for a [shell_command] task exits with
    code 0 and its stdout decodes as text, the execution is completed and
    its output is that text without the surrounding whitespace; whatever
    the process wrote to stderr is dropped. *)
Theorem execute_task_shell_success (ex : Executor) (w : World) (task : Task)
        (ev : event) (rest : list event) (text : string) (err : pybytes) :
  type_value task = "shell_command" ->
  trace (execute_task ex w task) = ev :: rest ->
  spawn_of w ev = Some (Spawned (CommDone 0 (Utf8 text) err)) ->
  execute_task ex w task = ([ev], inr (completed_with w task (strip text))).
Proof.
  intros Hty Htr Hsp.
  destruct (execute_shell_task ex w task Hty) as [Htrace Hout].
  rewrite Htrace in Htr.
  destruct (shell_command_started ex w _ ev rest _ Htr Hsp) as [Hrest Ho].
  assert (Hw : wait_process ex (CommDone 0 (Utf8 text) err)
               = ([], inr (Some (strip text), None))) by reflexivity.
  rewrite Hw in Hrest, Ho. unfold trace, outcome in Hrest, Ho; simpl in Hrest, Ho.
  rewrite (computation_eta (execute_task ex w task)), Htrace, Htr, Hrest, (Hout _ Ho).
  reflexivity.
Qed.

Lemma execute_task_shell_success_witness :
  let task := sample_task "shell_command" "date" in
  let w := echo_host "Linux" ("Mon Nov  3 " ++ chr newline) in
  type_value task = "shell_command"
  /\ trace (execute_task plain_executor w task) = [SubprocessExec ["date"]]
  /\ spawn_of w (SubprocessExec ["date"])
     = Some (Spawned (CommDone 0 (Utf8 ("Mon Nov  3 " ++ chr newline)) no_bytes))
  /\ execute_task plain_executor w task
     = ([SubprocessExec ["date"]],
        inr {| task_id := "task_1"; status := COMPLETED; output := Some "Mon Nov  3";
               error := None; end_time := Some 0%Z |}).
Proof.
  cbv zeta. do 3 (split; [reflexivity|]).
  apply (execute_task_shell_success plain_executor
           (echo_host "Linux" ("Mon Nov  3 " ++ chr newline))
           (sample_task "shell_command" "date")
           (SubprocessExec ["date"]) [] ("Mon Nov  3 " ++ chr newline) no_bytes);
    reflexivity.
Defined.

(** X5. On a Windows host every non-empty command is run through the
    shell as [cmd.exe /c <command>], whatever the command is: nothing is
    executed directly, and the command is never split, so no command is
    rejected for its syntax. *)
Theorem shell_command_on_windows (ex : Executor) (w : World) (command : string) :
  is_windows w = true ->
  truthy command = true ->
  let start := SubprocessShell ("cmd.exe /c " ++ command) in
  trace (_execute_shell_command ex w (Some command)) = [start]
  \/ trace (_execute_shell_command ex w (Some command)) = [start; ProcessKill].
Proof.
  intros Hw Ht start.
  assert (Hs : use_shell w command = true).
  { unfold use_shell. rewrite Hw.
    now destruct (starts_with_builtin command), (has_operator command). }
  unfold _execute_shell_command. rewrite Ht, Hs, Hw. cbn [negb]. cbv zeta.
  rewrite trace_try_except_ret. unfold spawn_shell. fold start.
  destruct (create_subprocess_shell w _) as [e|p]; [now left|].
  unfold trace. cbn -[wait_process append].
  destruct (wait_process_cases ex p) as [H|[H _]].
  - left. destruct (wait_process ex p) as [t r]. unfold trace in H. simpl in *.
    now subst t.
  - right. rewrite H. reflexivity.
Qed.

Lemma shell_command_on_windows_witness :
  is_windows windows_host = true /\ truthy unclosed_quote_command = true
  /\ trace (_execute_shell_command plain_executor windows_host (Some unclosed_quote_command))
     = [SubprocessShell ("cmd.exe /c " ++ unclosed_quote_command)].
Proof.
  do 2 (split; [reflexivity|]).
  destruct (shell_command_on_windows plain_executor windows_host unclosed_quote_command
              eq_refl eq_refl) as [H|H]; [exact H | discriminate H].
Defined.

(** *** Missing payloads *)

(** X6. A task whose payload is missing or empty is not run: whatever
    its type, [execute_task] performs no external action and returns a
    failed execution with the message of that type ("No command
    specified", "No URL specified", "No prompt specified", "No message
    specified for reminder").  For an [ai] task this comes before the
    test for a configured client. *)
Theorem execute_task_missing_payload (ex : Executor) (w : World) (task : Task) :
  (type_value task = "shell_command" -> truthy_opt (command task) = false ->
   execute_task ex w task = ([], inr (failed_with w task "No command specified")))
  /\ (type_value task = "api_call" -> truthy_opt (api_url task) = false ->
      execute_task ex w task = ([], inr (failed_with w task "No URL specified")))
  /\ (type_value task = "ai" -> truthy_opt (prompt task) = false ->
      execute_task ex w task = ([], inr (failed_with w task "No prompt specified")))
  /\ (type_value task = "reminder" -> truthy_opt (reminder_message task) = false ->
      execute_task ex w task
      = ([], inr (failed_with w task "No message specified for reminder"))).
Proof.
  unfold execute_task. repeat split; intros Hty Hp; rewrite Hty.
  - unfold _execute_shell_command. destruct (command task) as [c|]; [|reflexivity].
    simpl in Hp. rewrite Hp. reflexivity.
  - unfold _execute_api_call. rewrite Hp. reflexivity.
  - unfold _execute_ai_task. rewrite Hp. reflexivity.
  - unfold _execute_reminder_task. rewrite Hp. reflexivity.
Qed.

Lemma execute_task_missing_payload_witness :
  type_value (bare_task "ai") = "ai" /\ truthy_opt (prompt (bare_task "ai")) = false
  /\ execute_task (ai_executor [Some "hello"]) linux_host (bare_task "ai")
     = ([], inr {| task_id := "task_2"; status := FAILED; output := None;
                   error := Some "No prompt specified"; end_time := Some 0%Z |})
  /\ type_value (bare_task "reminder") = "reminder"
  /\ truthy_opt (reminder_message (bare_task "reminder")) = false
  /\ execute_task plain_executor linux_host (bare_task "reminder")
     = ([], inr {| task_id := "task_2"; status := FAILED; output := None;
                   error := Some "No message specified for reminder";
                   end_time := Some 0%Z |}).
Proof.
  do 2 (split; [reflexivity|]). split; [|do 2 (split; [reflexivity|])].
  - destruct (execute_task_missing_payload (ai_executor [Some "hello"]) linux_host
                (bare_task "ai")) as (_ & _ & H & _).
    exact (H eq_refl eq_refl).
  - destruct (execute_task_missing_payload plain_executor linux_host
                (bare_task "reminder")) as (_ & _ & _ & H).
    exact (H eq_refl eq_refl).
Defined.

(** *** The HTTP request *)

Lemma upper_char_idem (c : ascii) : upper_char (upper_char c) = upper_char c.
Proof. destruct c as [[] [] [] [] [] [] [] []]; reflexivity. Qed.

Lemma upper_idem (s : string) : upper (upper s) = upper s.
Proof.
  induction s as [|c s IH]; [reflexivity|].
  unfold upper in *. simpl. now rewrite upper_char_idem, IH.
Qed.

Lemma execute_api_task (ex : Executor) (w : World) (task : Task) :
  type_value task = "api_call" ->
  trace (execute_task ex w task)
  = trace (_execute_api_call ex w (api_url task) (api_method task)
             (api_headers task) (api_body task))
  /\ forall r,
       outcome (_execute_api_call ex w (api_url task) (api_method task)
                  (api_headers task) (api_body task)) = inr r ->
       outcome (execute_task ex w task)
       = inr (set_end_time (settle (new_execution ex task) r) (utcnow w)).
Proof.
  intros Hty. unfold execute_task. rewrite Hty.
  change (String.eqb "api_call" "shell_command") with false.
  change (String.eqb "api_call" "api_call") with true. cbn iota. split.
  - now rewrite trace_bind_ret, trace_try_except_ret, trace_bind_ret.
  - intros r Hr. erewrite outcome_bind; [reflexivity|].
    apply outcome_try_except_ok. erewrite outcome_bind; [reflexivity | exact Hr].
Qed.

(** The handler, run: the one request, and what is made of its answer. *)
Lemma api_call_run (ex : Executor) (w : World) (url : string)
      (method : option string) (headers body : option dict) :
  truthy url = true ->
  let m := upper (match method with
                  | Some m => if truthy m then m else "GET"
                  | None => "GET"
                  end) in
  let json := if mem m ["POST"; "PUT"; "PATCH"] && dict_truthy body then body else None in
  _execute_api_call ex w (Some url) method headers body
  = ([HttpRequest m url (or_empty headers) json],
     match session_request w m url (or_empty headers) json with
     | HttpRaises e | HttpUnreadable _ e =>
         if is_client_error e then inr (None, Some ("API call failed: " ++ exn_str e))
         else if is_timeout e then
           inr (None, Some ("API call timed out after "
                              ++ str_of_Z (execution_timeout ex) ++ " seconds"))
         else inl e
     | HttpResponse status text =>
         inr (if (400 <=? status)%Z
              then (None, Some ("API call failed with status " ++ str_of_Z status
                                  ++ ": " ++ text))
              else (Some text, None))
     end).
Proof.
  intros Ht m json. unfold _execute_api_call. cbn [truthy_opt]. rewrite Ht. cbn [negb].
  fold m. cbv zeta. fold json.
  destruct (session_request w m url (or_empty headers) json)
    as [[[] msg]|status text|status [[] msg]]; try reflexivity.
  now destruct (400 <=? status)%Z.
Qed.

(** X7. The request of an [api_call] task with a non-empty URL is made
    with the task's method in upper case, [GET] when the task has no
    method, and with the task's headers (none when it has none).  A JSON
    body goes with it exactly when the method is POST, PUT or PATCH and
    the task has a non-empty body; with any other method the body of the
    task is left out. *)
Theorem api_call_request_shape (ex : Executor) (w : World) (task : Task) (url : string) :
  type_value task = "api_call" ->
  api_url task = Some url ->
  truthy url = true ->
  exists json,
    trace (execute_task ex w task)
    = [HttpRequest (request_method task) url (or_empty (api_headers task)) json]
    /\ upper (request_method task) = request_method task
    /\ (truthy_opt (api_method task) = false -> request_method task = "GET")
    /\ ((mem (request_method task) ["POST"; "PUT"; "PATCH"] = true
         /\ dict_truthy (api_body task) = true /\ json = api_body task)
        \/ ((mem (request_method task) ["POST"; "PUT"; "PATCH"] = false
             \/ dict_truthy (api_body task) = false) /\ json = None)).
Proof.
  intros Hty Hurl Ht.
  destruct (execute_api_task ex w task Hty) as [Htrace _].
  exists (if mem (request_method task) ["POST"; "PUT"; "PATCH"] && dict_truthy (api_body task)
          then api_body task else None).
  split; [|split; [|split]].
  - rewrite Htrace, Hurl, (api_call_run ex w url _ _ _ Ht). reflexivity.
  - apply upper_idem.
  - unfold request_method. destruct (api_method task) as [m|]; [|reflexivity].
    simpl. now intros ->.
  - destruct (mem (request_method task) ["POST"; "PUT"; "PATCH"]);
      destruct (dict_truthy (api_body task)); simpl; auto.
Qed.

Lemma api_call_request_shape_witness :
  type_value post_task = "api_call" /\ api_url post_task = Some "http://x/report"
  /\ truthy "http://x/report" = true
  /\ trace (execute_task plain_executor linux_host post_task)
     = [HttpRequest "POST" "http://x/report" [] (Some [("k", "v")])].
Proof.
  do 3 (split; [reflexivity|]).
  destruct (api_call_request_shape plain_executor linux_host post_task "http://x/report"
              eq_refl eq_refl eq_refl) as (json & Htrace & _ & _ & [(_ & _ & Hj)|([H|H] & _)]).
  - rewrite Htrace, Hj. reflexivity.
  - discriminate H.
  - discriminate H.
Defined.

(** X8. When the request of an [api_call] task raises, the execution is
    failed and nothing is raised to the caller: a client error is
    reported as "API call failed: <message>", a timeout as "API call
    timed out after <timeout> seconds", and any other exception, which
    the handler lets through, by its bare message. *)
Theorem execute_task_api_failure (ex : Executor) (w : World) (task : Task) (url : string) :
  type_value task = "api_call" ->
  api_url task = Some url ->
  truthy url = true ->
  exists request,
    trace (execute_task ex w task) = [request]
    /\ is_http request = true
    /\ forall method headers json e,
         request = HttpRequest method url headers json ->
         session_request w method url headers json = HttpRaises e ->
         outcome (execute_task ex w task) = inr (failed_with w task (request_error ex e)).
Proof.
  intros Hty Hurl Ht.
  destruct (execute_api_task ex w task Hty) as [Htrace _].
  exists (HttpRequest (request_method task) url (or_empty (api_headers task))
            (if mem (request_method task) ["POST"; "PUT"; "PATCH"]
                && dict_truthy (api_body task)
             then api_body task else None)).
  split; [|split].
  - rewrite Htrace, Hurl, (api_call_run ex w url _ _ _ Ht). reflexivity.
  - reflexivity.
  - intros method headers j e [= <- <- <-] He.
    unfold execute_task. rewrite Hty, Hurl.
    cbn [String.eqb Ascii.eqb Bool.eqb].
    rewrite (api_call_run ex w url _ _ _ Ht). cbv zeta.
    unfold request_method, mem in He. unfold mem. cbn [existsb] in He |- *. rewrite He.
    unfold request_error, failed_with.
    destruct e as [[] msg]; reflexivity.
Qed.

Lemma execute_task_api_failure_witness :
  let task := sample_task "api_call" "ls" in
  type_value task = "api_call" /\ api_url task = Some "http://x/report"
  /\ truthy "http://x/report" = true
  /\ trace (execute_task plain_executor slow_host task)
     = [HttpRequest "POST" "http://x/report" [] None]
  /\ session_request slow_host "POST" "http://x/report" [] None
     = HttpRaises (Exn TimeoutError EmptyString)
  /\ outcome (execute_task plain_executor slow_host task)
     = inr {| task_id := "task_1"; status := FAILED; output := None;
              error := Some "API call timed out after 300 seconds";
              end_time := Some 0%Z |}.
Proof.
  cbv zeta. do 5 (split; [reflexivity|]).
  destruct (execute_task_api_failure plain_executor slow_host (sample_task "api_call" "ls")
              "http://x/report" eq_refl eq_refl eq_refl) as (request & Htrace & _ & H).
  injection Htrace as <-.
  exact (H "POST" [] None (Exn TimeoutError EmptyString) eq_refl eq_refl).
Defined.

(** *** The AI handler *)

(** The handler, run with a prompt and a client. *)
Lemma ai_task_run (ex : Executor) (p : string)
      (create : string -> string -> string -> ai_outcome) :
  truthy p = true ->
  ai_client ex = Some create ->
  _execute_ai_task ex (Some p)
  = if mem (ai_provider ex) ["openai"; "azure"; "anthropic"; "local"] then
      ([ChatCompletion (ai_model ex) system_instruction p],
       inr match create (ai_model ex) system_instruction p with
           | AiRaises e =>
               (None, Some (if is_timeout e then "AI API call timed out"
                            else "AI task failed: " ++ exn_str e))
           | AiCompletion [] => (None, Some "AI task failed: list index out of range")
           | AiCompletion (response :: _) => (response, None)
           end)
    else ([], inr (None, Some ("AI task failed: Unsupported AI provider: "
                                 ++ ai_provider ex))).
Proof.
  intros Ht Hc. unfold _execute_ai_task, get_ai_config. cbn [truthy_opt].
  rewrite Ht, Hc. cbn [negb].
  destruct (mem (ai_provider ex) _); [|reflexivity].
  destruct (create _ _ _) as [[[] msg]|[|response rest]]; reflexivity.
Qed.

Lemma execute_ai_task (ex : Executor) (w : World) (task : Task) :
  type_value task = "ai" ->
  trace (execute_task ex w task) = trace (_execute_ai_task ex (prompt task))
  /\ forall r,
       outcome (_execute_ai_task ex (prompt task)) = inr r ->
       outcome (execute_task ex w task)
       = inr (set_end_time (settle (new_execution ex task) r) (utcnow w)).
Proof.
  intros Hty. unfold execute_task. rewrite Hty.
  change (String.eqb "ai" "shell_command") with false.
  change (String.eqb "ai" "api_call") with false.
  change (String.eqb "ai" "ai") with true. cbn iota. split.
  - now rewrite trace_bind_ret, trace_try_except_ret, trace_bind_ret.
  - intros r Hr. erewrite outcome_bind; [reflexivity|].
    apply outcome_try_except_ok. erewrite outcome_bind; [reflexivity | exact Hr].
Qed.

(** X9. An [ai] task with a non-empty prompt, run with a configured
    client of a known provider, makes exactly one completion request,
    with the fixed system instruction and the prompt.  A timeout of the
    request is reported as "AI API call timed out", any other exception
    as "AI task failed: <message>", an answer without choices as "AI task
    failed: list index out of range"; an answer whose first choice has a
    text completes the execution with that text as output. *)
Theorem execute_task_ai_outcomes (ex : Executor) (w : World) (task : Task) (p : string)
        (create : string -> string -> string -> ai_outcome) :
  type_value task = "ai" ->
  prompt task = Some p ->
  truthy p = true ->
  ai_client ex = Some create ->
  mem (ai_provider ex) ["openai"; "azure"; "anthropic"; "local"] = true ->
  trace (execute_task ex w task) = [ChatCompletion (ai_model ex) system_instruction p]
  /\ (forall msg,
        provider_error (create (ai_model ex) system_instruction p) = Some msg ->
        outcome (execute_task ex w task) = inr (failed_with w task msg))
  /\ (forall text rest,
        create (ai_model ex) system_instruction p = AiCompletion (Some text :: rest) ->
        outcome (execute_task ex w task) = inr (completed_with w task text)).
Proof.
  intros Hty Hp Ht Hc Hprov.
  destruct (execute_ai_task ex w task Hty) as [Htrace Hout].
  rewrite Hp, (ai_task_run ex p create Ht Hc), Hprov in Htrace, Hout.
  split; [exact Htrace|]. split.
  - intros msg Hmsg. erewrite Hout; [|reflexivity].
    destruct (create _ _ _) as [e|[|response rest]]; simpl in Hmsg; try discriminate;
      injection Hmsg as <-; try reflexivity.
    now destruct (is_timeout e).
  - intros text rest Hr. erewrite Hout; [|reflexivity]. now rewrite Hr.
Qed.

Lemma execute_task_ai_outcomes_witness :
  let task := sample_task "ai" "ls" in
  let ex := ai_executor [Some "A quiet day."; Some "other"] in
  type_value task = "ai" /\ prompt task = Some "Summarise the day"
  /\ truthy "Summarise the day" = true
  /\ ai_client ex = Some (fun _ _ _ => AiCompletion [Some "A quiet day."; Some "other"])
  /\ mem (ai_provider ex) ["openai"; "azure"; "anthropic"; "local"] = true
  /\ execute_task ex linux_host task
     = ([ChatCompletion "gpt-3.5-turbo" system_instruction "Summarise the day"],
        inr {| task_id := "task_1"; status := COMPLETED; output := Some "A quiet day.";
               error := None; end_time := Some 0%Z |}).
Proof.
  cbv zeta. do 5 (split; [reflexivity|]).
  destruct (execute_task_ai_outcomes (ai_executor [Some "A quiet day."; Some "other"])
              linux_host (sample_task "ai" "ls") "Summarise the day"
              (fun _ _ _ => AiCompletion [Some "A quiet day."; Some "other"])
              eq_refl eq_refl eq_refl eq_refl eq_refl) as (Htrace & _ & Hok).
  rewrite (computation_eta (execute_task _ _ _)), Htrace.
  now rewrite (Hok "A quiet day." [Some "other"] eq_refl).
Defined.

(** *** What a task may touch *)

Lemma only_weaken {A} (p q : event -> bool) (m : M A) :
  (forall ev, p ev = true -> q ev = true) -> only p m -> only q m.
Proof.
  unfold only. intros H. induction (trace m) as [|ev t IH]; simpl; [reflexivity|].
  intros [Hp Ht]%andb_true_iff. now rewrite (H ev Hp), IH.
Qed.

Lemma only_no_network {A} (p : event -> bool) (m : M A) :
  (forall ev, p ev = true -> is_network ev = false) ->
  only p m -> filter is_network (trace m) = [].
Proof.
  unfold only. intros H. induction (trace m) as [|ev t IH]; simpl; [reflexivity|].
  intros [Hp Ht]%andb_true_iff. now rewrite (H ev Hp), IH.
Qed.

Lemma api_call_only (ex : Executor) (w : World) url method headers body :
  only is_http (_execute_api_call ex w url method headers body).
Proof. unfold _execute_api_call. only_all. Qed.

Lemma ai_task_only (ex : Executor) (p : option string) :
  only is_chat (_execute_ai_task ex p).
Proof. unfold _execute_ai_task, get_ai_config. only_all. Qed.

Lemma reminder_only (ex : Executor) (w : World) (title : string) message :
  only (fun ev => negb (is_network ev)) (_execute_reminder_task ex w title message).
Proof.
  assert (S : forall c, only (fun ev => negb (is_network ev))
                          (_execute_shell_command ex w c)).
  { intros c. apply (only_weaken is_process); [|apply shell_command_only].
    now intros []. }
  unfold _execute_reminder_task, windows_notification, darwin_notification,
    linux_notification, which, spawn_shell, communicate.
  only_all; apply S.
Qed.

Lemma execute_task_only (p : event -> bool) (ex : Executor) (w : World) (task : Task) :
  (type_value task = "shell_command" ->
   only p (_execute_shell_command ex w (command task))) ->
  (type_value task = "api_call" ->
   only p (_execute_api_call ex w (api_url task) (api_method task)
             (api_headers task) (api_body task))) ->
  (type_value task = "ai" -> only p (_execute_ai_task ex (prompt task))) ->
  (type_value task = "reminder" ->
   only p (_execute_reminder_task ex w (title_of task) (reminder_message task))) ->
  only p (execute_task ex w task).
Proof.
  intros H1 H2 H3 H4. unfold execute_task.
  apply only_bind; [|intros; apply only_ret].
  apply only_try_except; [|intros; apply only_ret].
  destruct (String.eqb_spec (type_value task) "shell_command") as [E|_];
    [apply only_bind; [now apply H1 | intros; apply only_ret]|].
  destruct (String.eqb_spec (type_value task) "api_call") as [E|_];
    [apply only_bind; [now apply H2 | intros; apply only_ret]|].
  destruct (String.eqb_spec (type_value task) "ai") as [E|_];
    [apply only_bind; [now apply H3 | intros; apply only_ret]|].
  destruct (String.eqb_spec (type_value task) "reminder") as [E|_];
    [apply only_bind; [now apply H4 | intros; apply only_ret]|].
  apply only_ret.
Qed.

(** X10. What a task causes outside the process is bounded by its type:
    a [shell_command] task only starts and kills processes, an
    [api_call] task only makes HTTP requests, an [ai] task only makes
    completion requests, a [reminder] task never goes over the network,
    and a task of any other type does nothing.  Whatever the type, one
    execution makes at most one network request: nothing is retried. *)
Theorem execute_task_effects (ex : Executor) (w : World) (task : Task) :
  only (allowed (type_value task)) (execute_task ex w task)
  /\ length (filter is_network (trace (execute_task ex w task))) <= 1.
Proof.
  split.
  - unfold allowed. apply execute_task_only; intros ->; cbn [String.eqb Ascii.eqb Bool.eqb].
    + apply shell_command_only.
    + apply api_call_only.
    + apply ai_task_only.
    + apply reminder_only.
  - destruct (String.eqb_spec (type_value task) "api_call") as [Ea|Na].
    { destruct (execute_api_task ex w task Ea) as [-> _].
      unfold _execute_api_call.
      destruct (truthy_opt (api_url task)) eqn:Hu; cbn [negb]; [|simpl; lia].
      rewrite !trace_try_except_ret.
      destruct (session_request w _ _ _ _) as [e|status body|status e];
        unfold trace; simpl; [lia| |lia].
      destruct (400 <=? status)%Z; simpl; lia. }
    destruct (String.eqb_spec (type_value task) "ai") as [Ei|Ni].
    { destruct (execute_ai_task ex w task Ei) as [-> _].
      destruct (prompt task) as [p|]; [|simpl; lia].
      destruct (truthy p) eqn:Hp; [|unfold _execute_ai_task; simpl; rewrite Hp; simpl; lia].
      destruct (ai_client ex) as [create|] eqn:Hc;
        [|unfold _execute_ai_task; simpl; rewrite Hp, Hc; simpl; lia].
      rewrite (ai_task_run ex p create Hp Hc).
      destruct (mem _ _); simpl; lia. }
    rewrite (only_no_network (fun ev => negb (is_network ev))); [simpl; lia | |].
    + intros ev H. now destruct (is_network ev).
    + apply execute_task_only; intros E; try contradiction.
      * apply (only_weaken is_process); [now intros [] | apply shell_command_only].
      * apply reminder_only.
Qed.

(** *** The reminder handler *)

(** The reminder once its platform branch has chosen a command. *)
Lemma reminder_with_choice (ex : Executor) (w : World) (title m command : string)
      (evs : list event) :
  truthy m = true ->
  (if String.eqb (platform_system w) "Windows" then windows_notification ex w title m
   else if String.eqb (platform_system w) "Darwin" then darwin_notification title m
   else linux_notification w (platform_system w) title m)
  = (evs, inr (inr command)) ->
  truthy command = true ->
  exists r,
    outcome (_execute_shell_command ex w (Some command)) = inr r
    /\ _execute_reminder_task ex w title (Some m)
       = ((evs ++ trace (_execute_shell_command ex w (Some command)))%list,
          inr (notification_result title r)).
Proof.
  intros Hm Hch Hc.
  destruct (shell_command_never_raises ex w (Some command)) as ([o e] & Hr).
  exists (o, e). split; [exact Hr|].
  unfold _execute_reminder_task. cbn [truthy_opt]. rewrite Hm. cbn [negb]. cbv zeta.
  rewrite Hch. cbn [bind]. rewrite Hc.
  destruct (_execute_shell_command ex w (Some command)) as [t x].
  unfold outcome in Hr. simpl in Hr. subst x. unfold trace, notification_result. simpl.
  destruct (truthy_opt e); simpl; now rewrite !app_nil_r.
Qed.

(** X11. [_execute_reminder_task] never raises: whatever the platform,
    the look-ups, the file system and the notification command do, it
    returns a pair with an output and no error, or a non-empty error and
    no output. *)
Theorem reminder_returns_one_side (ex : Executor) (w : World) (title : string)
        (message : option string) :
  exists r,
    outcome (_execute_reminder_task ex w title message) = inr r
    /\ one_sided r
    /\ (fst r = None <-> snd r <> None).
Proof.
  pose proof (reminder_one_sided ex w title message) as H.
  assert (N : never_raises (_execute_reminder_task ex w title message)).
  { unfold never_raises, _execute_reminder_task.
    destruct (negb (truthy_opt message)); [now eexists|].
    match goal with
    | |- context [try_except ?body any_exception ?h] =>
        destruct (try_except_any (fun _ => True) body h) as (r & Hr & _)
    end.
    - unfold ensures. now destruct (outcome _).
    - intros e. now eexists.
    - now exists r. }
  destruct N as [r Hr]. unfold ensures in H. rewrite Hr in H.
  exists r. split; [exact Hr|]. split; [exact H|].
  destruct r as [[o|] [e|]]; simpl in *; try contradiction; split; intros; congruence.
Qed.

Lemma rstrip_head (c : ascii) (r : string) :
  is_space c = false -> exists r', rstrip (String c r) = String c r'.
Proof.
  intros H. cbn [rstrip]. destruct (rstrip r); [rewrite H|]; eexists; reflexivity.
Qed.

(** No built-in keyword of the list begins with the letter o. *)
Lemma osascript_not_builtin (r : string) : starts_with_builtin (String "o" r) = false.
Proof.
  unfold starts_with_builtin, strip. cbn [lstrip]. change (is_space "o") with false. cbn iota.
  destruct (rstrip_head "o" r eq_refl) as [r' ->]. reflexivity.
Qed.

Lemma has_char_app (c : ascii) (a b : string) :
  has_char c (a ++ b) = has_char c a || has_char c b.
Proof.
  induction a as [|d a IH]; [reflexivity|]. cbn [append has_char]. now rewrite IH, orb_assoc.
Qed.

Lemma has_char_escape (c : ascii) (s : string) :
  Ascii.eqb c dquote = false -> Ascii.eqb c backslash = false ->
  has_char c (escape_dquote s) = has_char c s.
Proof.
  intros H1 H2. unfold escape_dquote. induction s as [|d s IH]; [reflexivity|].
  cbn [replace_char]. destruct (Ascii.eqb_spec dquote d) as [<-|N].
  - rewrite has_char_app, IH. cbn [has_char chr dq append]. rewrite H1, H2. reflexivity.
  - cbn [has_char]. now rewrite IH.
Qed.

(** The [osascript] command has an operator exactly when the title or
    the message has one. *)
Lemma osascript_operator (title m : string) :
  has_operator (osascript_command (escape_dquote title) (escape_dquote m))
  = has_operator title || has_operator m.
Proof.
  unfold has_operator, osascript_command.
  rewrite !has_char_app, !has_char_escape by reflexivity.
  cbn.
  destruct (has_char "|" title), (has_char ">" title), (has_char "<" title),
    (has_char "|" m), (has_char ">" m), (has_char "<" m); reflexivity.
Qed.

(** The words of the [osascript] command begin with [osascript -e]. *)
Lemma osascript_split (st sm : string) (args : list string) :
  Shlex.split (osascript_command st sm) = inr args ->
  exists rest, args = "osascript" :: "-e" :: rest.
Proof.
  assert (E : Shlex.split (osascript_command st sm)
              = Shlex.push "osascript"
                  (Shlex.push "-e"
                     (Shlex.lex (Shlex.Quote squote) EmptyString
                        ("display notification " ++ dq ++ sm ++ dq ++ " with title " ++ dq
                           ++ st ++ dq ++ " sound name " ++ dq ++ "default" ++ dq ++ "'"))))
    by reflexivity.
  rewrite E. destruct (Shlex.lex _ _ _) as [msg|rest]; [discriminate|].
  intros [= <-]. now exists rest.
Qed.

Lemma trace_reminder_macos (ex : Executor) (w : World) (title m : string) :
  platform_system w = "Darwin" -> truthy m = true ->
  trace (_execute_reminder_task ex w title (Some m))
  = trace (_execute_shell_command ex w
             (Some (osascript_command (escape_dquote title) (escape_dquote m)))).
Proof.
  intros Hos Hm.
  destruct (reminder_with_choice ex w title m
              (osascript_command (escape_dquote title) (escape_dquote m)) [] Hm)
    as (r & Hr & H).
  - rewrite Hos. reflexivity.
  - reflexivity.
  - now rewrite H.
Qed.

(** X12. On macOS a reminder with a non-empty message makes no look-up
    and writes no file: all it does is what [_execute_shell_command] does
    with the one [osascript] command, built from the title and the
    message with their double quotes escaped, and its result is made of
    the result of that command ("Notification failed: <error>", or
    "Displayed notification: <title>").  The command goes to the shell
    exactly when the title or the message contains one of the operators
    [|], [>], [<].  Otherwise it is split with [shlex] and not run by a
    shell: when the split succeeds, its words, which begin with
    [osascript] and [-e], are executed directly; when the split fails,
    as it does for a message with one apostrophe, nothing is run at all
    and the reminder fails with "Notification failed: Invalid command
    syntax: <reason>". *)
Theorem reminder_on_macos (ex : Executor) (w : World) (title m : string) :
  platform_system w = "Darwin" ->
  truthy m = true ->
  let command := osascript_command (escape_dquote title) (escape_dquote m) in
  (exists r,
     outcome (_execute_shell_command ex w (Some command)) = inr r
     /\ _execute_reminder_task ex w title (Some m)
        = (trace (_execute_shell_command ex w (Some command)),
           inr (notification_result title r)))
  /\ use_shell w command = has_operator title || has_operator m
  /\ (has_operator title || has_operator m = true ->
      starts_with (SubprocessShell command) (_execute_reminder_task ex w title (Some m)))
  /\ (has_operator title || has_operator m = false ->
      (forall msg,
         Shlex.split command = inl msg ->
         _execute_reminder_task ex w title (Some m)
         = ([], inr (None, Some ("Notification failed: Invalid command syntax: " ++ msg))))
      /\ (forall args,
            Shlex.split command = inr args ->
            (exists rest, args = "osascript" :: "-e" :: rest)
            /\ starts_with (SubprocessExec args)
                 (_execute_reminder_task ex w title (Some m)))).
Proof.
  intros Hos Hm command.
  assert (Hw : is_windows w = false) by (unfold is_windows; now rewrite Hos).
  assert (Hc : truthy command = true) by reflexivity.
  assert (Hu : use_shell w command = has_operator title || has_operator m).
  { rewrite (use_shell_posix w command Hw). unfold command at 1.
    change (osascript_command (escape_dquote title) (escape_dquote m))
      with (String "o" ("sascript -e 'display notification " ++ dq ++ escape_dquote m ++ dq
                          ++ " with title " ++ dq ++ escape_dquote title ++ dq ++ " sound name "
                          ++ dq ++ "default" ++ dq ++ "'")) at 1.
    rewrite osascript_not_builtin. cbn [orb]. apply osascript_operator. }
  destruct (reminder_with_choice ex w title m command [] Hm) as (r & Hr & H);
    [rewrite Hos; reflexivity | reflexivity |].
  cbn [app] in H.
  split; [now exists r|]. split; [exact Hu|]. split.
  - intros Hop. unfold starts_with. rewrite (trace_reminder_macos ex w title m Hos Hm).
    fold command. unfold _execute_shell_command. rewrite Hc, Hu, Hop, Hw. cbn [negb].
    apply starts_with_try_except, starts_with_bind. unfold spawn_shell.
    apply starts_with_emit.
  - intros Hnop. split.
    + intros msg Hsplit. rewrite H. revert Hr.
      unfold _execute_shell_command. rewrite Hc, Hu, Hnop, Hsplit. cbn [negb].
      intros [= <-]. reflexivity.
    + intros args Hsplit. destruct (osascript_split _ _ _ Hsplit) as [rest ->].
      split; [now exists rest|].
      unfold starts_with. rewrite (trace_reminder_macos ex w title m Hos Hm).
      fold command. unfold _execute_shell_command. rewrite Hc, Hu, Hnop, Hsplit. cbn [negb].
      apply starts_with_try_except, starts_with_bind. unfold spawn_exec.
      apply starts_with_emit.
Qed.

Lemma reminder_on_macos_witness :
  platform_system mac_host = "Darwin" /\ truthy "It's time" = true
  /\ has_operator "Daily" || has_operator "It's time" = false
  /\ Shlex.split (osascript_command (escape_dquote "Daily") (escape_dquote "It's time"))
     = inl "No closing quotation"
  /\ _execute_reminder_task plain_executor mac_host "Daily" (Some "It's time")
     = ([], inr (None,
                 Some "Notification failed: Invalid command syntax: No closing quotation")).
Proof.
  do 4 (split; [reflexivity|]).
  destruct (reminder_on_macos plain_executor mac_host "Daily" "It's time" eq_refl eq_refl)
    as (_ & _ & _ & H).
  destruct (H eq_refl) as [Hfail _].
  exact (Hfail "No closing quotation" eq_refl).
Defined.

(** X13. On Windows a reminder with a non-empty message first writes the
    notification file under the TEMP directory.  When the file cannot be
    written, nothing is run and the error is "Reminder task failed: "
    followed by the message of the exception.  Otherwise the beep command
    and then [start mshta.exe] with the quoted file name are run, and
    only the result of the second decides the result of the reminder:
    what the beep command does is ignored. *)
Theorem reminder_on_windows (ex : Executor) (w : World) (title m : string) :
  platform_system w = "Windows" ->
  truthy m = true ->
  let written := FileWrite (notification_file w) (escape_squote title) (escape_squote m) in
  let beep := _execute_shell_command ex w (Some "rundll32 user32.dll,MessageBeep") in
  let show := _execute_shell_command ex w
                (Some ("start mshta.exe " ++ dq ++ notification_file w ++ dq)) in
  (forall e, open_write w (notification_file w) = Some e ->
     _execute_reminder_task ex w title (Some m)
     = ([written], inr (None, Some ("Reminder task failed: " ++ exn_str e))))
  /\ (open_write w (notification_file w) = None ->
      exists r,
        outcome show = inr r
        /\ _execute_reminder_task ex w title (Some m)
           = ((written :: trace beep ++ trace show)%list,
              inr (notification_result title r))).
Proof.
  intros Hos Hm written beep show. split.
  - intros e He. unfold _execute_reminder_task, windows_notification.
    cbn [truthy_opt]. rewrite Hm, Hos.
    change (String.eqb "Windows" "Windows") with true. cbn [negb]. cbn iota.
    fold (escape_squote title) (escape_squote m) (notification_file w).
    rewrite He. reflexivity.
  - intros Hok.
    destruct (reminder_with_choice ex w title m
                ("start mshta.exe " ++ dq ++ notification_file w ++ dq)
                (written :: trace beep) Hm) as (r & Hr & H).
    + rewrite Hos. change (String.eqb "Windows" "Windows") with true. cbn iota.
      unfold windows_notification.
      fold (escape_squote title) (escape_squote m) (notification_file w).
      rewrite Hok. fold written. fold beep.
      destruct (shell_command_never_raises ex w (Some "rundll32 user32.dll,MessageBeep"))
        as (rb & Hb).
      fold beep in Hb. destruct beep as [tb xb]. unfold outcome in Hb. simpl in Hb.
      subst xb. unfold trace. simpl. now rewrite app_nil_r.
    + reflexivity.
    + exists r. split; [exact Hr | exact H].
Qed.

Lemma reminder_on_windows_witness :
  platform_system readonly_windows_host = "Windows" /\ truthy "Stand up" = true
  /\ open_write readonly_windows_host (notification_file readonly_windows_host)
     = Some (Exn OtherError "[Errno 13] Permission denied")
  /\ _execute_reminder_task plain_executor readonly_windows_host "It's time" (Some "Stand up")
     = ([FileWrite "C:\Temp\notification.hta" "It''s time" "Stand up"],
        inr (None, Some "Reminder task failed: [Errno 13] Permission denied"))
  /\ platform_system windows_host = "Windows"
  /\ open_write windows_host (notification_file windows_host) = None
  /\ _execute_reminder_task plain_executor windows_host "It's time" (Some "Stand up")
     = ([FileWrite "C:\Temp\notification.hta" "It''s time" "Stand up";
         SubprocessShell "cmd.exe /c rundll32 user32.dll,MessageBeep";
         SubprocessShell ("cmd.exe /c start mshta.exe " ++ dq ++ "C:\Temp\notification.hta"
                            ++ dq)],
        inr (None, Some "Notification failed: Command failed with exit code 1: Unknown error")).
Proof.
  do 3 (split; [reflexivity|]).
  destruct (reminder_on_windows plain_executor readonly_windows_host "It's time" "Stand up"
              eq_refl eq_refl) as [Hfail _].
  split; [exact (Hfail _ eq_refl)|]. do 2 (split; [reflexivity|]).
  destruct (reminder_on_windows plain_executor windows_host "It's time" "Stand up"
              eq_refl eq_refl) as [_ Hrun].
  destruct (Hrun eq_refl) as (r & Hr & H). rewrite H. injection Hr as <-. reflexivity.
Defined.

(** *** The record returned *)

Lemma execute_task_bookkeeping (ex : Executor) (w : World) (task : Task) :
  exists e,
    outcome (execute_task ex w task) = inr e
    /\ task_id e = id task /\ end_time e = Some (utcnow w).
Proof.
  unfold execute_task.
  match goal with
  | |- context [bind (try_except ?body any_exception ?h) _] =>
      destruct (try_except_any (fun e => task_id e = id task) body h) as (e & He & Hid)
  end.
  - assert (S : forall r, task_id (settle (new_execution ex task) r) = id task).
    { intros [o er]. simpl. now destruct (truthy_opt er). }
    repeat match goal with
           | |- ensures _ (if ?c then _ else _) => destruct c
           end;
      try (apply ensures_bind; intros r; apply ensures_ret, S).
    apply ensures_ret. reflexivity.
  - intros e. eexists. split; reflexivity.
  - exists (set_end_time e (utcnow w)). split; [|split].
    + rewrite (outcome_bind _ _ e He). reflexivity.
    + exact Hid.
    + reflexivity.
Qed.

(** X14. Unless an [ai] task is answered without text, the execution
    returned for a task is consistent: it carries the id of the task and
    an end time, its error is present exactly when its status is failed,
    and its output is present exactly when its status is completed.  This
    holds for every type of task and whatever the outside world does. *)
Theorem execute_task_consistent_record (ex : Executor) (w : World) (task : Task) :
  ~ null_content ex task ->
  exists e,
    outcome (execute_task ex w task) = inr e
    /\ task_id e = id task
    /\ end_time e = Some (utcnow w)
    /\ (error e <> None <-> status e = FAILED)
    /\ (output e <> None <-> status e = COMPLETED).
Proof.
  intros Hn.
  destruct (execute_task_bookkeeping ex w task) as (e & He & Hid & Hend).
  destruct (execute_task_exactly_one_unless_null_content ex w task) as (e' & He' & H).
  assert (e' = e) by congruence. subst e'.
  destruct H as [[Ho Herr]|[Hnull _]]; [|contradiction].
  exists e. repeat (split; [assumption|]). assumption.
Qed.

Lemma execute_task_consistent_record_witness :
  let task := sample_task "shell_command" "date" in
  let w := echo_host "Linux" "Mon" in
  ~ null_content plain_executor task
  /\ exists e,
       outcome (execute_task plain_executor w task) = inr e
       /\ task_id e = "task_1" /\ end_time e = Some 0%Z
       /\ (error e <> None <-> status e = FAILED)
       /\ (output e <> None <-> status e = COMPLETED).
Proof.
  cbv zeta.
  assert (N : ~ null_content plain_executor (sample_task "shell_command" "date")).
  { intros (create & p & rest & _ & Hc & _). discriminate Hc. }
  split; [exact N|].
  exact (execute_task_consistent_record plain_executor (echo_host "Linux" "Mon")
           (sample_task "shell_command" "date") N).
Defined.

End ExecutorMore.

(* ===================================================================== *)
(** ** Properties of the configuration and of the construction *)
(* ===================================================================== *)

Module InitFacts.
Import PyStr Eff Init InitSpec PyStrFacts.
Local Open Scope string_scope.

(** X15. [get_ai_config] answers for the four providers [openai],
    [azure], [anthropic] and [local], and raises [ValueError]
    "Unsupported AI provider: <provider>" for any other.  The dictionary
    it returns always holds the model, the token limit and the
    temperature of the configuration and a [base_url] entry, and its
    [api_key] is the key configured for the selected provider, never the
    key of another one. *)
Theorem get_ai_config_by_provider (c : Config.Config) :
  (known_provider (Config.ai_provider c) = true ->
   exists d,
     Config.get_ai_config c = inr d
     /\ Config.get "api_key" d = Config.of_opt (provider_key c)
     /\ Config.get "model" d = Config.PStr (Config.ai_model c)
     /\ Config.get "max_tokens" d = Config.PInt (Config.ai_max_tokens c)
     /\ Config.get "temperature" d = Config.PFloat (Config.ai_temperature c)
     /\ Config.getitem "base_url" d <> None)
  /\ (known_provider (Config.ai_provider c) = false ->
      Config.get_ai_config c
      = inl (Exn ValueError ("Unsupported AI provider: " ++ Config.ai_provider c))).
Proof.
  unfold known_provider, mem, Config.get_ai_config, provider_key. cbn [existsb].
  destruct (String.eqb (Config.ai_provider c) "openai");
    [split; [intros _; eexists; repeat split; discriminate | discriminate]|].
  destruct (String.eqb (Config.ai_provider c) "azure");
    [split; [intros _; eexists; repeat split; discriminate | discriminate]|].
  destruct (String.eqb (Config.ai_provider c) "anthropic");
    [split; [intros _; eexists; repeat split; discriminate | discriminate]|].
  destruct (String.eqb (Config.ai_provider c) "local");
    [split; [intros _; eexists; repeat split; discriminate | discriminate]|].
  split; [discriminate | reflexivity].
Qed.

Lemma get_ai_config_by_provider_witness :
  known_provider (Config.ai_provider (with_provider "local" Config.defaults)) = true
  /\ (exists d,
        Config.get_ai_config (with_provider "local" Config.defaults) = inr d
        /\ Config.get "api_key" d = Config.PStr "ollama")
  /\ known_provider (Config.ai_provider (with_provider "gemini" Config.defaults)) = false
  /\ Config.get_ai_config (with_provider "gemini" Config.defaults)
     = inl (Exn ValueError "Unsupported AI provider: gemini").
Proof.
  split; [reflexivity|]. split; [|split; [reflexivity|]].
  - destruct (get_ai_config_by_provider (with_provider "local" Config.defaults)) as [H _].
    destruct (H eq_refl) as (d & Hd & Hk & _). exists d. split; [exact Hd | exact Hk].
  - destruct (get_ai_config_by_provider (with_provider "gemini" Config.defaults)) as [_ H].
    exact (H eq_refl).
Defined.

(** The dictionary of a known provider, with its key. *)
Lemma get_ai_config_key (c : Config.Config) :
  known_provider (Config.ai_provider c) = true ->
  exists d,
    Config.get_ai_config c = inr d
    /\ Config.get "api_key" d = Config.of_opt (provider_key c).
Proof.
  unfold known_provider, mem, Config.get_ai_config, provider_key. cbn [existsb].
  destruct (String.eqb (Config.ai_provider c) "openai"); [intros _; now eexists|].
  destruct (String.eqb (Config.ai_provider c) "azure"); [intros _; now eexists|].
  destruct (String.eqb (Config.ai_provider c) "anthropic"); [intros _; now eexists|].
  destruct (String.eqb (Config.ai_provider c) "local"); [intros _; now eexists|].
  discriminate.
Qed.

Lemma of_opt_truthy (o : option string) :
  Config.val_truthy (Config.of_opt o) = truthy_opt o.
Proof. now destruct o. Qed.

(** X16. An executor built from a configuration of a known provider
    without an API key for it (absent or empty) has no AI client, and
    building it calls nothing of the SDK.  Every [ai] task with a prompt
    that such an executor is given fails with "No AI client configured
    for AI tasks", without any external action. *)
Theorem executor_without_credentials (st0 : Executor.TaskStatus) (cfg : Config.Config)
        (sdk : Sdk) :
  known_provider (Config.ai_provider cfg) = true ->
  truthy_opt (provider_key cfg) = false ->
  exists ex,
    __init__ st0 cfg sdk = ([], inr ex)
    /\ Executor.ai_client ex = None
    /\ forall w task p,
         Executor.type_value task = "ai" ->
         Executor.prompt task = Some p ->
         truthy p = true ->
         Executor.execute_task ex w task
         = ([], inr (MoreSpec.failed_with w task "No AI client configured for AI tasks")).
Proof.
  intros Hk Hn.
  destruct (get_ai_config_key cfg Hk) as (d & Hd & Hkey).
  eexists. split; [|split].
  - unfold __init__, _init_ai_client. rewrite Hd, Hkey, of_opt_truthy, Hn. reflexivity.
  - reflexivity.
  - intros w task p Hty Hp Ht.
    unfold Executor.execute_task, Executor._execute_ai_task. rewrite Hty, Hp.
    simpl. rewrite Ht. reflexivity.
Qed.

Lemma executor_without_credentials_witness :
  known_provider (Config.ai_provider Config.defaults) = true
  /\ truthy_opt (provider_key Config.defaults) = false
  /\ exists ex,
       __init__ Executor.RUNNING Config.defaults (flaky_sdk []) = ([], inr ex)
       /\ Executor.execute_task ex Spec.linux_host (Spec.sample_task "ai" "ls")
          = ([], inr {| Executor.task_id := "task_1"; Executor.status := Executor.FAILED;
                        Executor.output := None;
                        Executor.error := Some "No AI client configured for AI tasks";
                        Executor.end_time := Some 0%Z |}).
Proof.
  do 2 (split; [reflexivity|]).
  destruct (executor_without_credentials Executor.RUNNING Config.defaults (flaky_sdk [])
              eq_refl eq_refl) as (ex & Hex & _ & H).
  exists ex. split; [exact Hex|].
  exact (H Spec.linux_host (Spec.sample_task "ai" "ls") "Summarise the day"
           eq_refl eq_refl eq_refl).
Defined.

(** X17. Building an executor from a configuration whose provider is
    none of the four known ones fails: the [ValueError] of
    [get_ai_config] is raised before the [try] of [_init_ai_client] and
    leaves the constructor, and nothing of the SDK has been called. *)
Theorem executor_unsupported_provider (st0 : Executor.TaskStatus) (cfg : Config.Config)
        (sdk : Sdk) :
  known_provider (Config.ai_provider cfg) = false ->
  __init__ st0 cfg sdk
  = ([], inl (Exn ValueError ("Unsupported AI provider: " ++ Config.ai_provider cfg))).
Proof.
  intros Hk. unfold __init__, _init_ai_client.
  revert Hk. unfold known_provider, mem, Config.get_ai_config. cbn [existsb].
  destruct (String.eqb (Config.ai_provider cfg) "openai"); [discriminate|].
  destruct (String.eqb (Config.ai_provider cfg) "azure"); [discriminate|].
  destruct (String.eqb (Config.ai_provider cfg) "anthropic"); [discriminate|].
  destruct (String.eqb (Config.ai_provider cfg) "local"); [discriminate|].
  reflexivity.
Qed.

Lemma executor_unsupported_provider_witness :
  known_provider (Config.ai_provider (with_provider "gemini" Config.defaults)) = false
  /\ __init__ Executor.RUNNING (with_provider "gemini" Config.defaults) (flaky_sdk [])
     = ([], inl (Exn ValueError "Unsupported AI provider: gemini")).
Proof.
  split; [reflexivity|].
  exact (executor_unsupported_provider Executor.RUNNING
           (with_provider "gemini" Config.defaults) (flaky_sdk []) eq_refl).
Defined.

(** What [construct] does: at most one constructor call, never a test. *)
Lemma construct_events (cfg : Config.Config) (sdk : Sdk) (d : Config.pydict) :
  existsb is_test (fst (construct cfg sdk d)) = false.
Proof.
  unfold construct.
  destruct (mem _ _); [reflexivity|].
  destruct (String.eqb _ "azure").
  { destruct (Config.getitem "api_key" d); [|reflexivity].
    destruct (Config.getitem "api_version" d); [|reflexivity].
    destruct (Config.getitem "base_url" d) as [[]|]; reflexivity. }
  destruct (String.eqb _ "anthropic"); [|reflexivity].
  destruct (Config.getitem "api_key" d); [|reflexivity].
  destruct (Config.getitem "base_url" d); reflexivity.
Qed.

Lemma construct_with_test (cfg : Config.Config) (sdk : Sdk) answer (d : Config.pydict) :
  construct cfg (with_test sdk answer) d = construct cfg sdk d.
Proof. reflexivity. Qed.

Lemma some_inj {A} (a b : A) : Some a = Some b -> a = b.
Proof. now intros [= ->]. Qed.

Lemma known_provider_config (cfg : Config.Config) :
  known_provider (Config.ai_provider cfg) = true ->
  exists d, Config.get_ai_config cfg = inr d.
Proof.
  unfold known_provider, mem, Config.get_ai_config. cbn [existsb].
  destruct (String.eqb (Config.ai_provider cfg) "openai"); [intros _; now eexists|].
  destruct (String.eqb (Config.ai_provider cfg) "azure"); [intros _; now eexists|].
  destruct (String.eqb (Config.ai_provider cfg) "anthropic"); [intros _; now eexists|].
  destruct (String.eqb (Config.ai_provider cfg) "local"); [intros _; now eexists|].
  discriminate.
Qed.

(** When the constructor call of the [try] raises, that call is all the
    [try] did. *)
Lemma construct_raises (cfg : Config.Config) (sdk : Sdk) (d : Config.pydict)
      (ev : sdk_event) (e : exn) :
  In ev (fst (construct cfg sdk d)) ->
  constructor_result sdk ev = Some (inl e) ->
  construct cfg sdk d = ([ev], inl e).
Proof.
  unfold construct.
  destruct (mem _ _).
  { cbv zeta. intros Hin Hr. destruct Hin as [<-|[]].
    cbv beta iota delta [constructor_result] in Hr. apply some_inj in Hr. now rewrite Hr. }
  destruct (String.eqb _ "azure").
  { destruct (Config.getitem "api_key" d); [|intros []].
    destruct (Config.getitem "api_version" d); [|intros []].
    destruct (Config.getitem "base_url" d) as [[]|]; try (intros []; fail).
    cbv zeta. intros Hin Hr. destruct Hin as [<-|[]].
    cbv beta iota delta [constructor_result] in Hr. apply some_inj in Hr. now rewrite Hr. }
  destruct (String.eqb _ "anthropic"); [|intros []].
  destruct (Config.getitem "api_key" d); [|intros []].
  destruct (Config.getitem "base_url" d); [|intros []].
  cbv zeta. intros Hin Hr. destruct Hin as [<-|[]].
  cbv beta iota delta [constructor_result] in Hr. apply some_inj in Hr. now rewrite Hr.
Qed.

Lemma init_after_raise (st0 : Executor.TaskStatus) (cfg : Config.Config) (sdk : Sdk)
      (ev : sdk_event) (e : exn) :
  In ev (fst (__init__ st0 cfg sdk)) ->
  constructor_result sdk ev = Some (inl e) ->
  exists ex, __init__ st0 cfg sdk = ([ev], inr ex) /\ Executor.ai_client ex = None.
Proof.
  unfold __init__, _init_ai_client.
  destruct (Config.get_ai_config cfg) as [x|d]; [intros []|].
  destruct (negb _); [intros []|].
  destruct (construct cfg sdk d) as [evs [x|[c|]]] eqn:E.
  - cbn [fst]. intros Hin Hr.
    pose proof (construct_raises cfg sdk d ev e) as H. rewrite E in H.
    specialize (H Hin Hr). injection H as -> ->. now eexists.
  - cbn [fst _test_ai_connection]. intros Hin Hr.
    apply in_app_or in Hin as [Hin|[<-|[]]]; [|discriminate Hr].
    pose proof (construct_raises cfg sdk d ev e) as H. rewrite E in H.
    specialize (H Hin Hr). discriminate H.
  - cbn [fst]. intros Hin Hr.
    pose proof (construct_raises cfg sdk d ev e) as H. rewrite E in H.
    specialize (H Hin Hr). discriminate H.
Qed.

Lemma init_known_provider (st0 : Executor.TaskStatus) (cfg : Config.Config) (sdk : Sdk) :
  known_provider (Config.ai_provider cfg) = true ->
  exists evs ex, __init__ st0 cfg sdk = (evs, inr ex).
Proof.
  intros Hk. destruct (known_provider_config cfg Hk) as [d Hd].
  unfold __init__, _init_ai_client. rewrite Hd.
  destruct (negb _); [now eexists; eexists|].
  destruct (construct cfg sdk d) as [evs [x|[c|]]]; now eexists; eexists.
Qed.

(** X18. The connection test made while the executor is built is only
    advisory.  It is made exactly when a client has been constructed,
    once, after the constructor call; and what it answers changes
    nothing: the executor built, its client included, is the same whether
    the test succeeds or fails.  A constructor that raises does not fail
    the construction either: whenever the constructor call that was made
    raised, the construction returns an executor all the same, that
    executor has no client, and the call is all that was done (no
    connection test).  For each of the four known providers the
    construction returns an executor, whatever the SDK does. *)
Theorem connection_test_is_advisory (st0 : Executor.TaskStatus) (cfg : Config.Config)
        (sdk : Sdk) :
  (forall answer, __init__ st0 cfg (with_test sdk answer) = __init__ st0 cfg sdk)
  /\ (forall evs ex,
        __init__ st0 cfg sdk = (evs, inr ex) ->
        (Executor.ai_client ex = None /\ existsb is_test evs = false)
        \/ (exists c before,
              Executor.ai_client ex = Some c
              /\ evs = (before ++ [ConnectionTest (Config.ai_model cfg)])%list
              /\ existsb is_test before = false))
  /\ (forall ev e,
        In ev (fst (__init__ st0 cfg sdk)) ->
        constructor_result sdk ev = Some (inl e) ->
        exists ex,
          __init__ st0 cfg sdk = ([ev], inr ex) /\ Executor.ai_client ex = None)
  /\ (known_provider (Config.ai_provider cfg) = true ->
      exists evs ex, __init__ st0 cfg sdk = (evs, inr ex)).
Proof.
  split; [|split; [|split]].
  - intros answer. unfold __init__, _init_ai_client.
    destruct (Config.get_ai_config cfg) as [e|d]; [reflexivity|].
    destruct (negb _); [reflexivity|].
    rewrite construct_with_test.
    destruct (construct cfg sdk d) as [evs [e|[c|]]]; reflexivity.
  - intros evs ex. unfold __init__, _init_ai_client.
    destruct (Config.get_ai_config cfg) as [e|d]; [discriminate|].
    destruct (negb _); [intros [= <- <-]; now left|].
    pose proof (construct_events cfg sdk d) as Hc.
    destruct (construct cfg sdk d) as [evs0 [e|[c|]]]; simpl in Hc.
    + intros [= <- <-]. now left.
    + intros [= <- <-]. right. now exists c, evs0.
    + intros [= <- <-]. now left.
  - intros ev e. apply init_after_raise.
  - apply init_known_provider.
Qed.

Lemma connection_test_is_advisory_witness :
  let cfg := with_provider "local" Config.defaults in
  exists ex c,
    __init__ Executor.RUNNING cfg (flaky_sdk [Some "hi"])
    = ([NewOpenAI (Config.PStr "ollama") (Config.PStr "http://localhost:11434/v1")
          Config.PNone;
        ConnectionTest "gpt-3.5-turbo"], inr ex)
    /\ Executor.ai_client ex = Some c
    /\ __init__ Executor.RUNNING cfg broken_sdk
       = ([NewOpenAI (Config.PStr "ollama") (Config.PStr "http://localhost:11434/v1")
             Config.PNone],
          inr {| Executor.execution_timeout := 300; Executor.ai_provider := "local";
                 Executor.ai_model := "gpt-3.5-turbo"; Executor.ai_client := None;
                 Executor.initial_status := Executor.RUNNING |}).
Proof.
  cbv zeta.
  destruct (connection_test_is_advisory Executor.RUNNING
              (with_provider "local" Config.defaults) (flaky_sdk [Some "hi"])) as (_ & H & _).
  destruct (H _ _ eq_refl) as [[Hnone _]|(c & before & Hc & _)]; [discriminate Hnone|].
  eexists. exists c. split; [reflexivity|]. split; [exact Hc | reflexivity].
Defined.

(** *** The Azure endpoint *)

Lemma replace_from_skip_all (old new r : string) :
  replace_from (String.length r) old new r = EmptyString.
Proof. induction r as [|c r IH]; [reflexivity | exact IH]. Qed.

Lemma prefix_refl (s : string) : String.prefix s s = true.
Proof.
  induction s as [|c s IH]; [reflexivity|]. simpl.
  destruct (ascii_dec c c) as [_|N]; [exact IH | now elim N].
Qed.

(** Removing a suffix that occurs nowhere earlier gives back the rest. *)
Lemma replace_suffix (old s : string) :
  truthy old = true ->
  no_match_inside old s old = true ->
  replace old EmptyString (s ++ old) = s.
Proof.
  intros Ho. unfold replace. induction s as [|c s IH]; intros H.
  - destruct old as [|c r]; [discriminate|].
    cbn [append replace_from]. rewrite prefix_refl.
    replace (String.length (String c r) - 1) with (String.length r)
      by (cbn [String.length]; lia).
    now rewrite replace_from_skip_all.
  - cbn [no_match_inside] in H. apply andb_true_iff in H as [Hp Hs].
    apply negb_true_iff in Hp. cbn [append] in *. cbn [replace_from].
    rewrite Hp. now rewrite (IH Hs).
Qed.

(** X19. For the [azure] provider with a key, [get_ai_config] appends
    the deployment path to the configured endpoint and [_init_ai_client]
    removes every occurrence of the path again.  The [AzureOpenAI]
    constructor is called with the endpoint as configured provided the
    path occurs in the text "endpoint followed by path" only as its end:
    no occurrence starts inside the endpoint, neither one that lies
    within the endpoint nor one that runs over into the appended path.
    An endpoint left unset reaches the constructor as the text "None". *)
Theorem azure_endpoint_round_trip (cfg : Config.Config) (sdk : Sdk) (key : string) :
  Config.ai_provider cfg = "azure" ->
  Config.azure_openai_api_key cfg = Some key ->
  truthy key = true ->
  no_match_inside (deployment_path cfg) (Config.fmt (Config.azure_openai_endpoint cfg))
    (deployment_path cfg) = true ->
  exists rest,
    fst (_init_ai_client cfg sdk)
    = NewAzureOpenAI (Config.PStr key) (Config.of_opt (Config.azure_openai_api_version cfg))
        (Config.fmt (Config.azure_openai_endpoint cfg)) :: rest.
Proof.
  intros Hp Hk Ht Hclean.
  unfold _init_ai_client, Config.get_ai_config, construct. rewrite Hp, Hk.
  cbn [String.eqb Ascii.eqb Bool.eqb mem existsb orb].
  cbn [Config.base_config app Config.get Config.getitem String.eqb Ascii.eqb Bool.eqb
       Config.of_opt Config.val_truthy].
  rewrite Ht. cbn [negb].
  fold (deployment_path cfg).
  rewrite (replace_suffix (deployment_path cfg) _ eq_refl Hclean).
  destruct (AzureOpenAI sdk _ _ _) as [e|c]; now eexists.
Qed.

Lemma azure_endpoint_round_trip_witness :
  Config.ai_provider (azure_config (Some "https://res.openai.azure.com")) = "azure"
  /\ truthy "secret" = true
  /\ no_match_inside "/openai/deployments/gpt-4" "https://res.openai.azure.com"
       "/openai/deployments/gpt-4" = true
  /\ (exists rest,
        fst (_init_ai_client (azure_config (Some "https://res.openai.azure.com"))
               (flaky_sdk []))
        = NewAzureOpenAI (Config.PStr "secret") (Config.PStr "2023-12-01-preview")
            "https://res.openai.azure.com" :: rest)
  /\ (exists rest,
        fst (_init_ai_client (azure_config None) broken_sdk)
        = NewAzureOpenAI (Config.PStr "secret") (Config.PStr "2023-12-01-preview") "None"
            :: rest).
Proof.
  do 3 (split; [reflexivity|]). split.
  - exact (azure_endpoint_round_trip (azure_config (Some "https://res.openai.azure.com"))
             (flaky_sdk []) "secret" eq_refl eq_refl eq_refl eq_refl).
  - exact (azure_endpoint_round_trip (azure_config None) broken_sdk "secret"
             eq_refl eq_refl eq_refl eq_refl).
Defined.

(** The proviso is needed for occurrences that run over as well.  The
    endpoint [https://r/openai/deployments/m] does not contain the
    deployment path of the model [m/]; put together they contain it from
    the slash after the host on, that occurrence is the one removed, and
    the constructor is called with another endpoint. *)
Example azure_endpoint_overlap :
  contains (deployment_path overlap_config) "https://r/openai/deployments/m" = false
  /\ no_match_inside (deployment_path overlap_config) "https://r/openai/deployments/m"
       (deployment_path overlap_config) = false
  /\ fst (_init_ai_client overlap_config (flaky_sdk []))
     = [NewAzureOpenAI (Config.PStr "secret") (Config.PStr "2023-12-01-preview")
          "https://ropenai/deployments/m/";
        ConnectionTest "m/"].
Proof. repeat split. Qed.

End InitFacts.

(* ===================================================================== *)
(** ** Further properties of the stream wrappers *)
(* ===================================================================== *)

Module MainMore.
Import PyStr Main StreamSpec PyStrFacts MainFacts.
Local Open Scope string_scope.


Lemma skip_filter_blank : skip_filter EmptyString = true.
Proof. reflexivity. Qed.



(** A well-formed request that names a Python file is dropped; an
    indented well-formed request is passed on with its indentation. *)
Example readline_on_requests :
  Json.scan 4300 (strip run_script_request) = Json.Loaded
  /\ SafeJsonStdin_readline roomy_interp run_script_request = inr (chr newline)
  /\ SafeJsonStdin_readline roomy_interp ping_request = inr ping_request.
Proof. repeat split; vm_compute; reflexivity. Qed.

(** *** Reading through the wrapper twice *)

Lemma rstrip_app (a b : string) :
  truthy (rstrip b) = true -> rstrip (a ++ b) = a ++ rstrip b.
Proof.
  intros H. induction a as [|c a IH]; [reflexivity|].
  cbn [append rstrip]. rewrite IH.
  destruct (a ++ rstrip b) eqn:E; [|reflexivity].
  destruct a; simpl in E; [|discriminate]. rewrite E in H. discriminate.
Qed.

Lemma strip_parse_error_response (d : string) :
  strip (parse_error_response d) = response_head ++ d ++ response_tail_stripped.
Proof.
  rewrite parse_error_response_split. unfold strip.
  change (lstrip (response_head ++ d ++ response_tail))
    with (response_head ++ d ++ response_tail).
  rewrite rstrip_app; [rewrite rstrip_app; [reflexivity|reflexivity]|].
  rewrite rstrip_app; [|reflexivity].
  change (rstrip response_tail) with response_tail_stripped.
  destruct d; reflexivity.
Qed.

Lemma digit_not_space (c : ascii) : is_digit c = true -> is_space c = false.
Proof. destruct c as [[] [] [] [] [] [] [] []]; try discriminate; reflexivity. Qed.

Lemma prefix_dot_digit (n : string) (c : ascii) (r : string) :
  is_digit c = true -> String.prefix (String "." n) (String c r) = false.
Proof.
  intros H. cbn [String.prefix].
  destruct (ascii_dec "." c) as [E|_]; [subst c; discriminate H | reflexivity].
Qed.

Lemma contains_dot_digits (n d rest : string) :
  all_digits d = true ->
  contains (String "." n) (d ++ rest) = contains (String "." n) rest.
Proof.
  induction d as [|c d IH]; intros H; [reflexivity|].
  simpl in H. apply andb_true_iff in H as [Hc Hd].
  cbn [append]. cbn [contains]. rewrite (prefix_dot_digit n c _ Hc). cbn [orb].
  now apply IH.
Qed.

Lemma skip_filter_parse_error_response (d : string) :
  all_digits d = true ->
  skip_filter (response_head ++ d ++ response_tail_stripped) = false.
Proof.
  intros H. unfold skip_filter.
  change (startswith (response_head ++ d ++ response_tail_stripped) "D:/") with false.
  change (startswith (response_head ++ d ++ response_tail_stripped) "C:/") with false.
  change (startswith (response_head ++ d ++ response_tail_stripped) "/") with false.
  change (startswith (response_head ++ d ++ response_tail_stripped) "{") with true.
  change (contains ".py" (response_head ++ d ++ response_tail_stripped))
    with (contains ".py" (d ++ response_tail_stripped)).
  change (contains ".venv" (response_head ++ d ++ response_tail_stripped))
    with (contains ".venv" (d ++ response_tail_stripped)).
  rewrite !contains_dot_digits by exact H. reflexivity.
Qed.

Lemma substring_all (s : string) : String.substring 0 (String.length s) s = s.
Proof. induction s as [|c s IH]; [reflexivity|]. simpl. now rewrite IH. Qed.

Lemma drop_four (a b c e : ascii) (r : string) :
  drop 4 (String a (String b (String c (String e r)))) = r.
Proof.
  unfold drop. cbn [String.length]. replace (S (S (S (S (String.length r)))) - 4)
    with (String.length r) by lia.
  cbn [String.substring]. apply substring_all.
Qed.

Lemma digits_app (d rest : string) :
  all_digits d = true -> digits rest = EmptyString -> digits (d ++ rest) = d.
Proof.
  intros H Hr. induction d as [|c d IH]; [exact Hr|].
  simpl in H. apply andb_true_iff in H as [Hc Hd].
  cbn [append digits]. rewrite Hc. now rewrite IH.
Qed.

Lemma search_id_parse_error_response (d : string) :
  all_digits d = true -> truthy d = true ->
  search_id (response_head ++ d ++ response_tail_stripped) = Some d.
Proof.
  intros H Ht.
  change (search_id (response_head ++ d ++ response_tail_stripped))
    with (search_id (quoted "id" ++ ":" ++ d ++ response_tail_stripped)).
  destruct d as [|c d]; [discriminate|].
  pose proof H as H'. simpl in H'. apply andb_true_iff in H' as [Hc _].
  cbn [quoted chr append search_id]. unfold match_id_here.
  change (startswith (String dquote (String "i" (String "d" (String dquote
            (String ":" (String c (d ++ response_tail_stripped)))))))
            (String dquote (String "i" (String "d" (String dquote EmptyString)))))
    with true.
  cbn iota. rewrite drop_four. cbn [lstrip]. change (is_space ":") with false. cbn iota.
  cbn [lstrip]. rewrite (digit_not_space c Hc).
  change (String c (d ++ response_tail_stripped))
    with (String c d ++ response_tail_stripped).
  now rewrite (digits_app (String c d) response_tail_stripped H eq_refl).
Qed.

Lemma stripped_response_scan (max_digits : nat) (d : string) :
  all_digits d = true ->
  Json.scan max_digits (response_head ++ d ++ response_tail_stripped)
  = response_outcome max_digits d.
Proof. intros H. rewrite run_response_head. now apply run_id_digits. Qed.

(** The parse-error answer around a run of digits, read again: it comes
    back unchanged unless [json.loads] raises something that [readline]
    does not catch. *)
Lemma readline_parse_error_response (it : Json.Interp) (d : string) :
  all_digits d = true -> truthy d = true ->
  SafeJsonStdin_readline it (parse_error_response d)
  = match Json.loads it (strip (parse_error_response d)) with
    | Json.Raises e => inl e
    | _ => inr (parse_error_response d)
    end.
Proof.
  intros H Ht. unfold SafeJsonStdin_readline.
  change (truthy (parse_error_response d)) with true. cbn [negb].
  rewrite strip_parse_error_response, (skip_filter_parse_error_response d H).
  change (looks_like_json (response_head ++ d ++ response_tail_stripped)) with true.
  destruct (Json.loads it _); [reflexivity| |reflexivity].
  now rewrite (search_id_parse_error_response d H Ht).
Qed.

Lemma readline_null_response (it : Json.Interp) :
  SafeJsonStdin_readline it (parse_error_response "null")
  = match Json.loads it (strip (parse_error_response "null")) with
    | Json.Raises e => inl e
    | _ => inr (parse_error_response "null")
    end.
Proof.
  unfold SafeJsonStdin_readline.
  change (truthy (parse_error_response "null")) with true. cbn [negb].
  change (skip_filter (strip (parse_error_response "null"))) with false.
  change (looks_like_json (strip (parse_error_response "null"))) with true.
  cbn iota. unfold Json.loads.
  destruct (Json.recursion_error it _); reflexivity.
Qed.

(** The forms of what [readline] returns. *)
Lemma readline_shapes (it : Json.Interp) (line r : string) :
  SafeJsonStdin_readline it line = inr r ->
  r = line
  \/ r = chr newline
  \/ r = parse_error_response "null"
  \/ exists d, all_digits d = true /\ truthy d = true /\ r = parse_error_response d.
Proof.
  unfold SafeJsonStdin_readline.
  destruct (negb (truthy line)); [intros [= <-]; now left|].
  destruct (skip_filter (strip line)); [intros [= <-]; now right; left|].
  destruct (looks_like_json (strip line)); [|intros [= <-]; now left].
  destruct (Json.loads it (strip line)); [intros [= <-]; now left| |discriminate].
  destruct (search_id (strip line)) as [d|] eqn:E; intros [= <-];
    [|now right; right; left].
  right; right; right. exists d. destruct (search_id_digits _ _ E) as [Hd Ht]. auto.
Qed.

Lemma isascii_app (a b : string) :
  isascii a = true -> isascii b = true -> isascii (a ++ b) = true.
Proof.
  intros Ha Hb. induction a as [|c a IH]; [exact Hb|].
  simpl in Ha. apply andb_true_iff in Ha as [Hc Ha].
  cbn [append isascii]. now rewrite Hc, IH.
Qed.

Lemma digits_isascii (d : string) : all_digits d = true -> isascii d = true.
Proof.
  induction d as [|c d IH]; [reflexivity|]. simpl. intros H.
  apply andb_true_iff in H as [Hc Hd]. rewrite (IH Hd), andb_true_r.
  destruct c as [[] [] [] [] [] [] [] []]; try discriminate Hc; reflexivity.
Qed.

Lemma int_too_long_le (max_digits n m : nat) :
  n <= m -> Json.int_too_long max_digits m = false ->
  Json.int_too_long max_digits n = false.
Proof.
  unfold Json.int_too_long. intros Hle H.
  destruct (640 <? n)%nat eqn:E1; [|reflexivity].
  destruct (0 <? max_digits)%nat eqn:E2; [|reflexivity].
  destruct (max_digits <? n)%nat eqn:E3; [|reflexivity].
  apply Nat.ltb_lt in E1, E3.
  replace (640 <? m)%nat with true in H by (symmetry; apply Nat.ltb_lt; lia).
  replace (max_digits <? m)%nat with true in H by (symmetry; apply Nat.ltb_lt; lia).
  exact H.
Qed.

Lemma length_app (a b : string) :
  String.length (a ++ b) = String.length a + String.length b.
Proof. induction a as [|c a IH]; [reflexivity|]. cbn [append String.length]. now rewrite IH. Qed.

Lemma response_length (d : string) :
  String.length d <= String.length (parse_error_response d).
Proof.
  rewrite parse_error_response_split, !length_app. lia.
Qed.

(** X21. Reading through the wrapper twice.  When [readline] has returned
    a text for a line of ASCII text, reading that text again never gives
    another text: the second reading returns the same text or raises.
    It returns the same text when the recursion limit of the interpreter
    is enough for it and it is not longer than an integer may have
    digits; it can raise because the parse-error answer carries the
    digits of the id as they stand, so that an id of too many digits,
    found in a malformed line, makes [json.loads] raise [ValueError] on
    the answer.  What is returned is ASCII text again. *)
Theorem readline_twice (it : Json.Interp) (line r : string) :
  isascii line = true ->
  SafeJsonStdin_readline it line = inr r ->
  (forall r', SafeJsonStdin_readline it r = inr r' -> r' = r)
  /\ (Json.recursion_error it (strip r) = None ->
      Json.int_too_long (Json.int_max_str_digits it) (String.length r) = false ->
      SafeJsonStdin_readline it r = inr r)
  /\ isascii r = true.
Proof.
  intros Hascii Hread.
  destruct (readline_shapes it line r Hread) as [->|[->|[->|(d & Hd & Ht & ->)]]].
  - split; [intros r' H; rewrite Hread in H; now injection H|].
    split; [intros _ _; exact Hread | exact Hascii].
  - repeat split. intros r' [= <-]. reflexivity.
  - rewrite readline_null_response. unfold Json.loads.
    destruct (Json.recursion_error it _) as [e|].
    + repeat split; [discriminate | discriminate].
    + repeat split. intros r' [= <-]. reflexivity.
  - rewrite (readline_parse_error_response it d Hd Ht). unfold Json.loads.
    rewrite strip_parse_error_response, (stripped_response_scan _ d Hd).
    split; [|split].
    + destruct (Json.recursion_error it _); [discriminate|].
      destruct (response_outcome _ d); try discriminate; now intros r' [= <-].
    + intros -> Hlen. unfold response_outcome.
      rewrite (int_too_long_le _ _ _ (response_length d) Hlen).
      now destruct (json_number_text d).
    + rewrite parse_error_response_split.
      apply isascii_app; [reflexivity|].
      apply isascii_app; [now apply digits_isascii | reflexivity].
Qed.

Lemma readline_twice_witness :
  isascii leading_zero_request = true
  /\ SafeJsonStdin_readline roomy_interp leading_zero_request
     = inr (parse_error_response "007")
  /\ SafeJsonStdin_readline roomy_interp (parse_error_response "007")
     = inr (parse_error_response "007").
Proof.
  do 2 (split; [reflexivity|]).
  destruct (readline_twice roomy_interp leading_zero_request (parse_error_response "007")
              eq_refl eq_refl) as (_ & H & _).
  exact (H eq_refl eq_refl).
Defined.

(** The answer to a malformed line whose id has 4301 digits cannot be
    read again: [json.loads] raises [ValueError] on it. *)
Example readline_twice_long_id :
  SafeJsonStdin_readline roomy_interp long_id_request
  = inr (parse_error_response (ones 4301))
  /\ SafeJsonStdin_readline roomy_interp (parse_error_response (ones 4301))
     = inl (Json.int_error 4300 4301).
Proof. split; vm_compute; reflexivity. Qed.

End MainMore.

(* ===================================================================== *)
(** ** [main]: the command line and the environment *)
(* ===================================================================== *)

Module StartupFacts.
Import PyStr Startup StartupSpec.
Local Open Scope string_scope.

Lemma export_other (k : string) (v : option string) (e : environ) (k' : string) :
  String.eqb k' k = false -> export k v e k' = e k'.
Proof. intros H. unfold export, setenv. destruct (truthy_opt v); [now rewrite H | reflexivity]. Qed.

Lemma export_port_other (k : string) (p : option Z) (e : environ) (k' : string) :
  String.eqb k' k = false -> export_port k p e k' = e k'.
Proof.
  intros H. unfold export_port, setenv. destruct p as [n|]; [|reflexivity].
  destruct (negb (n =? 0)%Z); [now rewrite H | reflexivity].
Qed.

Lemma export_same (k : string) (v : option string) (e : environ) :
  export k v e k = match given v with Some s => Some s | None => e k end.
Proof.
  unfold export, given, setenv. destruct v as [s|]; cbn [truthy_opt]; [|reflexivity].
  destruct (truthy s); [now rewrite String.eqb_refl | reflexivity].
Qed.

Lemma export_port_same (k : string) (p : option Z) (e : environ) :
  export_port k p e k = match given_port p with Some s => Some s | None => e k end.
Proof.
  unfold export_port, given_port, setenv. destruct p as [n|]; [|reflexivity].
  destruct (n =? 0)%Z; cbn [negb]; [reflexivity | now rewrite String.eqb_refl].
Qed.

Lemma given_transport (t : option Transport) :
  given (option_map transport_name t) = option_map transport_name t.
Proof. destruct t as [[]|]; reflexivity. Qed.

Lemma lookup_hit (k : string) (v : option string) r : lookup k ((k, v) :: r) = v.
Proof. cbn [lookup]. now rewrite String.eqb_refl. Qed.

Lemma lookup_skip (k k' : string) (v : option string) r :
  String.eqb k k' = false -> lookup k ((k', v) :: r) = lookup k r.
Proof. intros H. cbn [lookup]. now rewrite H. Qed.

Ltac peel_exports side :=
  repeat first
    [ rewrite export_other by side
    | rewrite export_port_other by side
    | rewrite export_same
    | rewrite export_port_same ];
  repeat first [ rewrite lookup_skip by side | rewrite lookup_hit ].

(** X22. What the block of [main] that copies the command line into the
    environment does to a variable: it gets the value of its own option
    when that option was given with a truthy value, and keeps the value
    it had otherwise.  So an option left out, an empty string and
    [--port 0] all leave the environment's setting in force, no option
    changes another option's variable, and no variable is ever removed. *)
Theorem export_args_lookup (a : Args) (e : environ) (k : string) :
  export_args a e k
  = match lookup k (requested a) with Some v => Some v | None => e k end.
Proof.
  unfold export_args, requested.
  destruct (String.eqb_spec k "MCP_SCHEDULER_AI_PROVIDER") as [->|N1];
    [peel_exports reflexivity; reflexivity|].
  destruct (String.eqb_spec k "MCP_SCHEDULER_OPENAI_BASE_URL") as [->|N2];
    [peel_exports reflexivity; reflexivity|].
  destruct (String.eqb_spec k "MCP_SCHEDULER_OPENAI_API_KEY") as [->|N3];
    [peel_exports reflexivity; reflexivity|].
  destruct (String.eqb_spec k "MCP_SCHEDULER_CONFIG_FILE") as [->|N4];
    [peel_exports reflexivity; reflexivity|].
  destruct (String.eqb_spec k "MCP_SCHEDULER_ADDRESS") as [->|N5];
    [peel_exports reflexivity; reflexivity|].
  destruct (String.eqb_spec k "MCP_SCHEDULER_PORT") as [->|N6];
    [peel_exports reflexivity; reflexivity|].
  destruct (String.eqb_spec k "MCP_SCHEDULER_TRANSPORT") as [->|N7];
    [peel_exports reflexivity; now rewrite given_transport|].
  destruct (String.eqb_spec k "MCP_SCHEDULER_LOG_LEVEL") as [->|N8];
    [peel_exports reflexivity; reflexivity|].
  destruct (String.eqb_spec k "MCP_SCHEDULER_LOG_FILE") as [->|N9];
    [peel_exports reflexivity; reflexivity|].
  destruct (String.eqb_spec k "MCP_SCHEDULER_DB_PATH") as [->|N10];
    [peel_exports reflexivity; reflexivity|].
  destruct (String.eqb_spec k "MCP_SCHEDULER_AI_MODEL") as [->|N11];
    [peel_exports reflexivity; reflexivity|].
  peel_exports ltac:(apply String.eqb_neq; assumption). reflexivity.
Qed.

Lemma export_args_transport (a : Args) (e : environ) :
  getenv (export_args a e) "MCP_SCHEDULER_TRANSPORT" "stdio"
  = match transport a with
    | Some t => transport_name t
    | None => getenv e "MCP_SCHEDULER_TRANSPORT" "stdio"
    end.
Proof.
  unfold getenv, export_args. peel_exports reflexivity.
  rewrite given_transport. destruct (transport a); reflexivity.
Qed.

(** X23. [main] tests for the stdout wrapper after it has copied the
    command line into the environment.  At that point the test comes to:
    the wrapper is installed exactly when [MCP_SCHEDULER_TRANSPORT], with
    [stdio] for a missing variable, reads [stdio]; and that variable holds
    the [--transport] option when one was given, and what the environment
    had before otherwise.  The wrapper and the exported transport setting
    therefore never disagree. *)
Theorem stdout_wrapper_follows_environment (a : Args) (e : environ) :
  wraps_stdout a (export_args a e)
  = String.eqb (getenv (export_args a e) "MCP_SCHEDULER_TRANSPORT" "stdio") "stdio"
  /\ getenv (export_args a e) "MCP_SCHEDULER_TRANSPORT" "stdio"
     = match transport a with
       | Some t => transport_name t
       | None => getenv e "MCP_SCHEDULER_TRANSPORT" "stdio"
       end.
Proof.
  split; [|apply export_args_transport].
  unfold wraps_stdout. rewrite export_args_transport.
  destruct (transport a) as [[]|]; reflexivity.
Qed.

(** An empty address and port 0 on the command line change nothing. *)
Example zero_port_is_ignored (e : environ) (k : string) :
  export_args zero_port_args e k = e k.
Proof.
  unfold export_args, zero_port_args, export, export_port. reflexivity.
Qed.

End StartupFacts.
